(** * Skew Hunter: the operator console, checked against its specification

    A shallow embedding of the TypeScript front end of the Skew Hunter
    trading engine (React pages, hooks and UI components) together with
    the properties the specification states about it.

    Conventions of the embedding.
    - A number that arrives in a JSON document is a finite double.  Where
      the code only compares such a number, prints it or passes it on, it
      is held by its exact value, a rational ([Q], or a [JsNumber.number]
      where [NaN] and the infinities can occur too); comparing exact
      values is comparing the doubles.
    - Where the code calculates (the progress bar, the statistics of the
      history page), numbers are doubles: binary64 values with the
      operations of IEEE 754, rounding, overflow and signed zeros included,
      as the Standard Library defines them ([SpecFloat]).
    - The duration formatter alone is read on exact values: its quotients
      and remainders are taken exactly.
    - React state is a record; a handler is a function on that record.  Code
      that talks to the backend runs in a small monad that threads the
      component state, records every request and navigation it issues and
      propagates exceptions.
    - Objects that are shared by reference live in an explicit store. *)

From Stdlib Require Import QArith Qround ZArith String List Bool Lia Lqa.
From Stdlib Require SpecFloat.
From stdpp Require Import gmap strings list fin_maps pretty.
Import ListNotations.

Local Open Scope string_scope.
Local Open Scope list_scope.

(* ===================================================================== *)
(** * Part I: the model                                                   *)
(* ===================================================================== *)

(** ** JavaScript numbers *)

Module JsNumber.

Inductive number : Type :=
| NaN
| Infinity (negative : bool)
| Finite (q : Q).

(** [a < b] on rationals, as a boolean. *)
Definition Qlt_bool (a b : Q) : bool :=
  match (a ?= b)%Q with Lt => true | _ => false end.

(** [a <= b]; every comparison with [NaN] is false. *)
Definition lessEq (a b : number) : bool :=
  match a, b with
  | NaN, _ | _, NaN => false
  | Infinity true, _ => true
  | _, Infinity false => true
  | Infinity false, _ => false
  | _, Infinity true => false
  | Finite x, Finite y => Qle_bool x y
  end.

(** [Math.max(a, b)] *)
Definition Math_max (a b : number) : number :=
  match a, b with
  | NaN, _ | _, NaN => NaN
  | _, _ => if lessEq a b then b else a
  end.

(** [Math.min(a, b)] *)
Definition Math_min (a b : number) : number :=
  match a, b with
  | NaN, _ | _, NaN => NaN
  | _, _ => if lessEq a b then a else b
  end.

End JsNumber.

(** ** Double-precision numbers *)

Module Binary64.
Import SpecFloat.

(** The binary64 format of IEEE 754: 53 bits of precision, exponents below
    1024.  A number is a zero, an infinity, [NaN], or a sign, a mantissa
    and an exponent; the operations round to nearest, ties to even. *)
Definition prec : Z := 53.
Definition emax : Z := 1024.

Definition number : Type := spec_float.

Definition NaN : number := S754_nan.
Definition Infinity : number := S754_infinity false.

Definition add : number -> number -> number := SFadd prec emax.
Definition sub : number -> number -> number := SFsub prec emax.
Definition mul : number -> number -> number := SFmul prec emax.
Definition div : number -> number -> number := SFdiv prec emax.
Definition opp : number -> number := SFopp.

(** [Math.abs] *)
Definition Math_abs : number -> number := SFabs.

(** [x < y], [x <= y] and [x == y]; each is false when [NaN] is involved. *)
Definition ltb : number -> number -> bool := SFltb.
Definition leb : number -> number -> bool := SFleb.
Definition eqb : number -> number -> bool := SFeqb.

(** The double nearest to an integer, as a numeric literal denotes it. *)
Definition of_Z (z : Z) : number := binary_normalize prec emax z 0 false.

(** The double a rational stands for: the value itself when it is the
    value of a double, as every number is that [JSON.parse] produced. *)
Definition of_Q (q : Q) : number := div (of_Z (Qnum q)) (of_Z (Zpos (Qden q))).

Definition zero : number := S754_zero false.
Definition hundred : number := Eval vm_compute in of_Z 100.

Definition is_nan (x : number) : bool :=
  match x with S754_nan => true | _ => false end.

Definition is_zero (x : number) : bool :=
  match x with S754_zero _ => true | _ => false end.

Definition is_infinite (x : number) : bool :=
  match x with S754_infinity _ => true | _ => false end.

(** A finite number of the format: what a numeric literal and a number in
    a JSON document are. *)
Definition is_double (x : number) : bool :=
  match x with
  | S754_zero _ => true
  | S754_finite _ m e => bounded prec emax m e
  | _ => false
  end.

(** [Math.max(x, y)]: [NaN] when either is; of the two zeros, +0 is the
    greater. *)
Definition Math_max (x y : number) : number :=
  match SFcompare x y with
  | None => NaN
  | Some Lt => y
  | Some Gt => x
  | Some Eq =>
      match x, y with
      | S754_zero sx, S754_zero sy => S754_zero (sx && sy)
      | _, _ => x
      end
  end.

(** [Math.min(x, y)]: [NaN] when either is; of the two zeros, -0 is the
    smaller. *)
Definition Math_min (x y : number) : number :=
  match SFcompare x y with
  | None => NaN
  | Some Lt => x
  | Some Gt => y
  | Some Eq =>
      match x, y with
      | S754_zero sx, S754_zero sy => S754_zero (sx || sy)
      | _, _ => x
      end
  end.

End Binary64.

(** ** components/ui/ProgressBar.tsx *)

Module ProgressBar.
Import Binary64.

Inductive Color := profit | loss | warning | default_color.
Inductive Size := sm | md | lg.

Record ProgressBarProps := {
  value : number;
  max : option number;
  min : option number;
  color : option Color;
  size : option Size
}.

(** A destructured parameter [x = d] takes [d] when the prop is absent. *)
Definition with_default {A} (o : option A) (d : A) : A :=
  match o with Some x => x | None => d end.

(** [const range = max - min] *)
Definition range (p : ProgressBarProps) : number :=
  sub (with_default (max p) hundred) (with_default (min p) zero).

(** [((value - min) / range) * 100], before clamping. *)
Definition ratio (p : ProgressBarProps) : number :=
  mul (div (sub (value p) (with_default (min p) zero)) (range p)) hundred.

(** [Math.min(Math.max(((value - min) / range) * 100, 0), 100)] *)
Definition percentage (p : ProgressBarProps) : number :=
  Math_min (Math_max (ratio p) zero) hundred.

(** A CSS length written [`${n}%`]. *)
Inductive css_length := Percent (n : number).

(** The inner [div] of the bar: its background class and inline style. *)
Record Fill := { fill_color : Color; width : css_length }.

Definition ProgressBar (p : ProgressBarProps) : Fill :=
  {| fill_color := with_default (color p) default_color;
     width := Percent (percentage p) |}.

(** The PCR bar of the dashboard at a ratio of 1: value 1 on the scale
    0 to 2. *)
Definition half_full : ProgressBarProps :=
  {| value := of_Z 1; max := Some (of_Z 2); min := None;
     color := None; size := None |}.

(** A bar from -1e308 to 1e308 with the value at its upper end. *)
Definition overflowing : ProgressBarProps :=
  {| value := of_Z (10 ^ 308); max := Some (of_Z (10 ^ 308));
     min := Some (opp (of_Z (10 ^ 308)));
     color := None; size := None |}.

End ProgressBar.

(** ** JSON documents and property reads *)

Module Json.

#[warnings="-register-all"]
Inductive json : Type :=
| JNull
| JBool (b : bool)
| JNumber (q : Q)
| JString (s : string)
| JArray (items : list json)
| JObject (fields : gmap string json).

(** An exception the JavaScript engine raises by itself.  The text of its
    message is the engine's own and differs between engines. *)
Inductive EngineError :=
| TypeError_property_of_null (k : string) (* reading [k] of [null] *)
| TypeError_fetch_failed                  (* [fetch] did not reach the server *)
| SyntaxError_not_JSON                    (* [json()] of a body that is not JSON *)
| TypeError_circular_structure.           (* [JSON.stringify] of a cycle *)

(** The message of an exception, or a text shown to the operator: a string
    of the program, [String(v)] of a value that is not a string, or the
    message the engine gives to an exception of its own. *)
Inductive message :=
| Literal (text : string)
| Stringified (v : json)
| Engine (e : EngineError).

(** What a JavaScript expression evaluates to: a value or a thrown
    exception. *)
Inductive completion (A : Type) :=
| Returns (a : A)
| Throws (m : message).
Arguments Returns {A} a.
Arguments Throws {A} m.

(** [j.k] on a parsed document.  [None] is [undefined]: a missing field, or
    a field read off a primitive.  Reading a property of [null] throws. *)
Definition get (j : json) (k : string) : completion (option json) :=
  match j with
  | JNull => Throws (Engine (TypeError_property_of_null k))
  | JObject fields => Returns (fields !! k)
  | _ => Returns None
  end.

(** The value found by following [path] down a document. *)
Fixpoint at_path (path : list string) (j : json) : option json :=
  match path with
  | [] => Some j
  | k :: rest =>
      match get j k with
      | Returns (Some v) => at_path rest v
      | _ => None
      end
  end.

(** [v !== s] for a string literal [s]. *)
Definition differs_from (v : option json) (s : string) : bool :=
  match v with
  | Some (JString t) => negb (String.eqb t s)
  | _ => true
  end.

(** [Object.is(a, b)] for two values that come from different calls of
    [JSON.parse], or from none ([None] is [undefined]): primitives are the
    same when their values are, two objects or arrays never are.  (The sign
    of a zero is outside the model.) *)
Definition Object_is (a b : option json) : bool :=
  match a, b with
  | None, None => true
  | Some JNull, Some JNull => true
  | Some (JBool x), Some (JBool y) => Bool.eqb x y
  | Some (JNumber p), Some (JNumber q) => Qeq_bool p q
  | Some (JString s), Some (JString t) => String.eqb s t
  | _, _ => false
  end.

(** Truthiness, as [if (v)] and [v || d] test it. *)
Definition truthy (v : option json) : bool :=
  match v with
  | None | Some JNull => false
  | Some (JBool b) => b
  | Some (JNumber q) => negb (Qeq_bool q 0)
  | Some (JString t) => negb (String.eqb t "")
  | Some (JArray _) | Some (JObject _) => true
  end.

End Json.

(** ** lib/constants.ts *)

Module constants.

Inductive Mode := STRICT | BALANCED | RELAXED.
Definition MODES : list Mode := [STRICT; BALANCED; RELAXED].

Inductive ExecutionMode := OFF | PAPER | LIVE.
Definition EXECUTION_MODES : list ExecutionMode := [OFF; PAPER; LIVE].

Inductive Broker := UPSTOX | DHAN.
Definition BROKERS : list Broker := [UPSTOX; DHAN].

Definition ExecutionMode_name (m : ExecutionMode) : string :=
  match m with OFF => "OFF" | PAPER => "PAPER" | LIVE => "LIVE" end.

Definition Broker_name (b : Broker) : string :=
  match b with UPSTOX => "UPSTOX" | DHAN => "DHAN" end.

(** [EXIT_REASONS]: the keys the engine records, with their labels. *)
Inductive ExitReason :=
| profit_target | trailing_stop | initial_stop | time_exit
| mtm_max_loss | mtm_profit_protection | manual_exit | emergency_stop.

Definition EXIT_REASONS (r : ExitReason) : string :=
  match r with
  | profit_target => "Target Hit"
  | trailing_stop => "Trailing Stop"
  | initial_stop => "Stop Loss"
  | time_exit => "Time Exit"
  | mtm_max_loss => "MTM Max Loss"
  | mtm_profit_protection => "Profit Protection"
  | manual_exit => "Manual Exit"
  | emergency_stop => "Emergency Stop"
  end.

(** The keys of [EXIT_REASONS]. *)
Definition ExitReason_key (r : ExitReason) : string :=
  match r with
  | profit_target => "profit_target"
  | trailing_stop => "trailing_stop"
  | initial_stop => "initial_stop"
  | time_exit => "time_exit"
  | mtm_max_loss => "mtm_max_loss"
  | mtm_profit_protection => "mtm_profit_protection"
  | manual_exit => "manual_exit"
  | emergency_stop => "emergency_stop"
  end.

Definition CONFLUENCE_FACTORS : list string :=
  ["Alpha1"; "Alpha2"; "PCR"; "Volume"; "Trend"; "OI_Vel"; "OI_Flow"].

End constants.

(** ** hooks/useWebSocket.ts *)

Module useWebSocket.
Import Json.

Record WebSocketState := {
  connected : bool;
  data : json;                 (* [any], initially [null] *)
  error : option string
}.

Definition initial : WebSocketState :=
  {| connected := false; data := JNull; error := None |}.

(** [ws.onopen] *)
Definition onopen (prev : WebSocketState) : WebSocketState :=
  {| connected := true; data := data prev; error := None |}.

(** [ws.onmessage].  The argument is [JSON.parse(event.data)]: [None] when
    the frame is not a JSON text and [JSON.parse] throws.  Both that
    exception and the one thrown by reading [.type] of [null] are caught by
    the handler's [try], which only logs. *)
Definition onmessage (parsed : option json) (prev : WebSocketState)
  : WebSocketState :=
  match parsed with
  | None => prev
  | Some d =>
      match get d "type" with
      | Throws _ => prev
      | Returns ty =>
          if differs_from ty "ping" && differs_from ty "pong"
          then {| connected := connected prev; data := d; error := error prev |}
          else prev
      end
  end.

(** [ws.onclose]; the reconnect it schedules opens a new socket with the
    same handlers over the same state. *)
Definition onclose (prev : WebSocketState) : WebSocketState :=
  {| connected := false; data := data prev; error := error prev |}.

(** [ws.onerror] *)
Definition onerror (prev : WebSocketState) : WebSocketState :=
  {| connected := connected prev; data := data prev;
     error := Some "Connection error" |}.

(** The [catch] of [connect]: the socket could not be created. *)
Definition onconnectfailed (prev : WebSocketState) : WebSocketState :=
  {| connected := connected prev; data := data prev;
     error := Some "Failed to connect" |}.

Inductive SocketEvent :=
| Open
| Message (parsed : option json)
| Close
| Error
| ConnectFailed.

Definition handle (st : WebSocketState) (ev : SocketEvent) : WebSocketState :=
  match ev with
  | Open => onopen st
  | Message parsed => onmessage parsed st
  | Close => onclose st
  | Error => onerror st
  | ConnectFailed => onconnectfailed st
  end.

(** The state after the socket delivered [evs], oldest first. *)
Definition run (evs : list SocketEvent) (st : WebSocketState) : WebSocketState :=
  fold_left handle evs st.

(** *** The specification's reading: last value wins *)

(** A message counts as a state snapshot when it carries a payload whose
    [type] is neither ['ping'] nor ['pong']. *)
Definition spec_is_snapshot (d : json) : bool :=
  match d with
  | JNull => false
  | JObject fields =>
      match fields !! "type" with
      | Some (JString t) => negb (String.eqb t "ping") && negb (String.eqb t "pong")
      | _ => true
      end
  | _ => true
  end.

(** The payloads of the snapshot messages among [evs], oldest first. *)
Fixpoint spec_snapshots (evs : list SocketEvent) : list json :=
  match evs with
  | [] => []
  | Message (Some d) :: rest =>
      if spec_is_snapshot d then d :: spec_snapshots rest
      else spec_snapshots rest
  | _ :: rest => spec_snapshots rest
  end.

(** What an event writes to [connected], if anything. *)
Definition writes_connected (ev : SocketEvent) : option bool :=
  match ev with
  | Open => Some true
  | Close => Some false
  | _ => None
  end.

(** What an event writes to [error], if anything. *)
Definition writes_error (ev : SocketEvent) : option (option string) :=
  match ev with
  | Open => Some None
  | Error => Some (Some "Connection error")
  | ConnectFailed => Some (Some "Failed to connect")
  | _ => None
  end.

End useWebSocket.

(** ** Handlers that talk to the backend *)

Module Effects.
Import Json.

Inductive Method := GET | POST.

(** A [fetch] call: [body] is the object handed to [JSON.stringify]. *)
Record Request := {
  method : Method;
  url : string;
  body : option json
}.

(** What the page does to the outside world, in order. *)
Inductive Effect :=
| Fetched (r : Request)
| Navigated (path : string).

(** What [fetch] settles to: a rejection, or a response whose [json()]
    yields a document ([None]: the body is not JSON and [json()] rejects). *)
Inductive FetchResult :=
| NetworkFailure
| Response (ok : bool) (payload : option json).

(** The backend, seen from the page: its answer to a request, given
    everything the page did before. *)
Definition Backend := list Effect -> Request -> FetchResult.

(** State of the [useEngine] hook. *)
Record HookState := {
  loading : bool;
  hook_error : option message
}.

(** A page of state [S] together with its hook and the log of its effects
    (oldest first). *)
Record World (S : Type) := {
  page : S;
  hook : HookState;
  log : list Effect
}.
Arguments page {S} w.
Arguments hook {S} w.
Arguments log {S} w.

Definition M (S A : Type) : Type :=
  Backend -> World S -> completion A * World S.

Definition ret {S A} (a : A) : M S A := fun _ w => (Returns a, w).

Definition bind {S A B} (m : M S A) (k : A -> M S B) : M S B :=
  fun be w =>
    match m be w with
    | (Returns a, w') => k a be w'
    | (Throws e, w') => (Throws e, w')
    end.

Definition throw {S A} (e : message) : M S A := fun _ w => (Throws e, w).

(** [try { m } catch (e) { h e }] *)
Definition try_catch {S A} (m : M S A) (h : message -> M S A) : M S A :=
  fun be w =>
    match m be w with
    | (Returns a, w') => (Returns a, w')
    | (Throws e, w') => h e be w'
    end.

(** [try { m } finally { f }] *)
Definition try_finally {S A} (m : M S A) (f : M S unit) : M S A :=
  fun be w =>
    let '(r, w') := m be w in
    match f be w' with
    | (Returns _, w'') => (r, w'')
    | (Throws e, w'') => (Throws e, w'')
    end.

(** The address an effect goes to, when it is a request. *)
Definition effect_url (e : Effect) : option string :=
  match e with
  | Fetched r => Some (url r)
  | Navigated _ => None
  end.

(** Lift the completion of a pure expression. *)
Definition eval {S A} (c : completion A) : M S A := fun _ w => (c, w).

Definition get_page {S} : M S S := fun _ w => (Returns (page w), w).

Definition modify_page {S} (f : S -> S) : M S unit :=
  fun _ w => (Returns tt, {| page := f (page w); hook := hook w; log := log w |}).

Definition modify_hook {S} (f : HookState -> HookState) : M S unit :=
  fun _ w => (Returns tt, {| page := page w; hook := f (hook w); log := log w |}).

Definition emit {S} (e : Effect) : M S unit :=
  fun _ w => (Returns tt, {| page := page w; hook := hook w; log := log w ++ [e] |}).

(** [await fetch(...)]: the request is logged; a rejection is thrown. *)
Definition fetch {S} (r : Request) : M S (bool * option json) :=
  fun be w =>
    let w' := {| page := page w; hook := hook w; log := log w ++ [Fetched r] |} in
    match be (log w) r with
    | NetworkFailure => (Throws (Engine TypeError_fetch_failed), w')
    | Response ok payload => (Returns (ok, payload), w')
    end.

(** [await response.json()] *)
Definition response_json {S} (payload : option json) : M S json :=
  match payload with
  | Some j => ret j
  | None => throw (Engine SyntaxError_not_JSON)
  end.

(** [navigate(path)] of react-router. *)
Definition navigate {S} (path : string) : M S unit := emit (Navigated path).

(** An object literal handed to [JSON.stringify]: a field whose value is
    [undefined] is left out. *)
Definition object (fields : list (string * option json)) : json :=
  JObject (list_to_map (omap (fun kv => pair (fst kv) <$> snd kv) fields)).

Module Notations.
Notation "x <- m ;; k" := (bind m (fun x => k))
  (at level 100, m at next level, right associativity).
Notation "m ;; k" := (bind m (fun _ => k))
  (at level 100, right associativity).
End Notations.

End Effects.

(** ** hooks/useEngine.ts *)

Module useEngine.
Import JsNumber Json constants Effects Effects.Notations.

Definition API_BASE : string := "/api".

Record EngineConfig := {
  token : string;
  capital : number;
  executionMode : ExecutionMode;
  broker : Broker;
  dhanToken : option string;
  dhanClientId : option string
}.

Definition setLoading {S} (b : bool) : M S unit :=
  modify_hook (fun h => {| loading := b; hook_error := hook_error h |}).

Definition setError {S} (e : option message) : M S unit :=
  modify_hook (fun h => {| loading := loading h; hook_error := e |}).

(** [JSON.stringify] writes [NaN] and the infinities as [null]. *)
Definition json_of_number (n : number) : json :=
  match n with Finite q => JNumber q | _ => JNull end.

(** The text of a value used where a string is expected ([new Error(v)],
    a validation message): the string itself, or [String(v)]. *)
Definition text_of (v : json) : message :=
  match v with JString t => Literal t | _ => Stringified v end.

(** [v || d] *)
Definition or_else (v : option json) (d : json) : json :=
  match v with
  | Some j => if truthy v then j else d
  | None => d
  end.

Definition start_request (config : EngineConfig) : Request :=
  {| method := POST;
     url := String.append API_BASE "/engine/start";
     body := Some (object
       [("token", Some (JString (token config)));
        ("capital", Some (json_of_number (capital config)));
        ("execution_mode", Some (JString (ExecutionMode_name (executionMode config))));
        ("broker", Some (JString (Broker_name (broker config))));
        ("dhan_token", JString <$> dhanToken config);
        ("dhan_client_id", JString <$> dhanClientId config)]) |}.

Definition startEngine {S} (config : EngineConfig) : M S json :=
  setLoading true ;;
  setError None ;;
  try_finally
    (try_catch
       (response <- fetch (start_request config) ;;
        if negb (fst response)
        then
          data <- response_json (snd response) ;;
          detail <- eval (get data "detail") ;;
          throw (text_of (or_else detail (JString "Failed to start engine")))
        else response_json (snd response))
       (fun e => setError (Some e) ;; throw e))
    (setLoading false).

Definition config_request : Request :=
  {| method := GET; url := String.append API_BASE "/config"; body := None |}.

(** [getConfig]: [None] is the [undefined] it returns after a failure. *)
Definition getConfig {S} : M S (option json) :=
  try_catch
    (response <- fetch config_request ;;
     j <- response_json (snd response) ;;
     ret (Some j))
    (fun _ => setError (Some (Literal "Failed to get config")) ;; ret None).

Definition validate_dhan_request (accessToken clientId : string) (expiry : json)
  : Request :=
  {| method := POST;
     url := String.append API_BASE "/validate-dhan";
     body := Some (object
       [("access_token", Some (JString accessToken));
        ("client_id", Some (JString clientId));
        ("expiry", Some expiry)]) |}.

Definition validateDhan {S} (accessToken clientId : string) (expiry : json)
  : M S json :=
  setLoading true ;;
  setError None ;;
  try_finally
    (try_catch
       (response <- fetch (validate_dhan_request accessToken clientId expiry) ;;
        response_json (snd response))
       (fun _ =>
          setError (Some (Literal "Failed to validate DHAN credentials")) ;;
          ret (object [("valid", Some (JBool false));
                       ("message", Some (JString "Network error"))])))
    (setLoading false).

Definition update_config_request (config : json) : Request :=
  {| method := POST;
     url := String.append API_BASE "/config";
     body := Some (object [("config", Some config)]) |}.

(** [updateConfig]: the parsed answer, whatever its status; [None] is the
    [undefined] it returns after a failure. *)
Definition updateConfig {S} (config : json) : M S (option json) :=
  try_catch
    (response <- fetch (update_config_request config) ;;
     j <- response_json (snd response) ;;
     ret (Some j))
    (fun _ => setError (Some (Literal "Failed to update config")) ;; ret None).

Definition orphan_request : Request :=
  {| method := GET; url := String.append API_BASE "/orphan"; body := None |}.

Definition checkOrphan {S} : M S json :=
  try_catch
    (response <- fetch orphan_request ;;
     response_json (snd response))
    (fun _ => ret (object [("has_orphan", Some (JBool false))])).

(** The parameter type ['RECOVER' | 'EXIT' | 'IGNORE'] of [handleOrphan]. *)
Inductive OrphanAction := RECOVER | EXIT | IGNORE.

Definition OrphanAction_name (a : OrphanAction) : string :=
  match a with RECOVER => "RECOVER" | EXIT => "EXIT" | IGNORE => "IGNORE" end.

Definition orphan_recover_request (action : OrphanAction) (tradeData : option json)
  : Request :=
  {| method := POST;
     url := String.append API_BASE "/orphan/recover";
     body := Some (object
       [("action", Some (JString (OrphanAction_name action)));
        ("trade_data", tradeData)]) |}.

Definition handleOrphan {S} (action : OrphanAction) (tradeData : option json)
  : M S (option json) :=
  try_catch
    (response <- fetch (orphan_recover_request action tradeData) ;;
     j <- response_json (snd response) ;;
     ret (Some j))
    (fun _ => setError (Some (Literal "Failed to handle orphan")) ;; ret None).

(** *** The remaining calls of the hook *)

Definition validate_token_request (token : string) : Request :=
  {| method := POST;
     url := String.append API_BASE "/validate-token";
     body := Some (object [("token", Some (JString token))]) |}.

Definition validateToken {S} (token : string) : M S json :=
  setLoading true ;;
  setError None ;;
  try_finally
    (try_catch
       (response <- fetch (validate_token_request token) ;;
        data <- response_json (snd response) ;;
        ret data)
       (fun _ =>
          setError (Some (Literal "Failed to validate token")) ;;
          ret (object [("valid", Some (JBool false));
                       ("message", Some (JString "Network error"))])))
    (setLoading false).

Definition stop_request : Request :=
  {| method := POST; url := String.append API_BASE "/engine/stop"; body := None |}.

(** [stopEngine]: [None] is the [undefined] it returns after a failure. *)
Definition stopEngine {S} : M S (option json) :=
  setLoading true ;;
  setError None ;;
  try_finally
    (try_catch
       (response <- fetch stop_request ;;
        j <- response_json (snd response) ;;
        ret (Some j))
       (fun _ => setError (Some (Literal "Failed to stop engine")) ;; ret None))
    (setLoading false).

Definition exit_request : Request :=
  {| method := POST; url := String.append API_BASE "/trade/exit"; body := None |}.

Definition requestExit {S} : M S (option json) :=
  try_catch
    (response <- fetch exit_request ;;
     j <- response_json (snd response) ;;
     ret (Some j))
    (fun _ => setError (Some (Literal "Failed to request exit")) ;; ret None).

Definition emergency_exit_request : Request :=
  {| method := POST;
     url := String.append API_BASE "/trade/emergency-exit";
     body := None |}.

Definition emergencyExit {S} : M S (option json) :=
  try_catch
    (response <- fetch emergency_exit_request ;;
     j <- response_json (snd response) ;;
     ret (Some j))
    (fun _ =>
       setError (Some (Literal "Failed to execute emergency exit")) ;; ret None).

Definition cycle_mode_request : Request :=
  {| method := POST; url := String.append API_BASE "/mode/cycle"; body := None |}.

Definition cycleMode {S} : M S (option json) :=
  try_catch
    (response <- fetch cycle_mode_request ;;
     j <- response_json (snd response) ;;
     ret (Some j))
    (fun _ => setError (Some (Literal "Failed to cycle mode")) ;; ret None).

Definition set_mode_request (mode : string) : Request :=
  {| method := POST;
     url := String.append API_BASE "/mode/set";
     body := Some (object [("mode", Some (JString mode))]) |}.

Definition setMode {S} (mode : string) : M S (option json) :=
  try_catch
    (response <- fetch (set_mode_request mode) ;;
     j <- response_json (snd response) ;;
     ret (Some j))
    (fun _ => setError (Some (Literal "Failed to set mode")) ;; ret None).

(** [exitTrade]: the same endpoint as [requestExit], with the loading flag
    raised while it runs; it does not clear an earlier error. *)
Definition exitTrade {S} : M S (option json) :=
  setLoading true ;;
  try_finally
    (try_catch
       (response <- fetch exit_request ;;
        j <- response_json (snd response) ;;
        ret (Some j))
       (fun _ => setError (Some (Literal "Failed to exit trade")) ;; ret None))
    (setLoading false).

Definition trades_request : Request :=
  {| method := GET; url := String.append API_BASE "/trades"; body := None |}.

(** [getTrades]: an empty array after a failure. *)
Definition getTrades {S} : M S json :=
  setLoading true ;;
  try_finally
    (try_catch
       (response <- fetch trades_request ;;
        response_json (snd response))
       (fun _ =>
          setError (Some (Literal "Failed to fetch trades")) ;;
          ret (JArray [])))
    (setLoading false).

(** A call of the hook that cannot throw: it hands back a value, sends the
    one request [r] and leaves the page's own state alone. *)
Definition quiet {S A} (call : M S A) (r : Request) : Prop :=
  forall (be : Backend) (w : World S),
    exists (a : A) (hk : HookState),
      call be w
      = (Returns a, {| page := page w; hook := hk;
                       log := log w ++ [Fetched r] |}).

End useEngine.

(** ** pages/Setup.tsx *)

Module Setup.
Import JsNumber Json constants Effects Effects.Notations.

Inductive Step :=
| token_step | config_step | execution_step | broker_step | confirm_step
| starting_step.

Record State := {
  step : Step;
  token : string;
  userName : string;
  capital : number;
  mode : Mode;
  executionMode : ExecutionMode;
  broker : Broker;
  dhanToken : string;
  dhanClientId : string;
  confirmText : string;
  validationError : message
}.

(** The state of a freshly mounted page. *)
Definition initial : State :=
  {| step := token_step; token := ""; userName := "";
     capital := Finite 100000; mode := BALANCED; executionMode := OFF;
     broker := UPSTOX; dhanToken := ""; dhanClientId := "";
     confirmText := ""; validationError := Literal "" |}.

Definition with_step (s : Step) (st : State) : State :=
  {| step := s; token := token st; userName := userName st;
     capital := capital st; mode := mode st;
     executionMode := executionMode st; broker := broker st;
     dhanToken := dhanToken st; dhanClientId := dhanClientId st;
     confirmText := confirmText st;
     validationError := validationError st |}.

Definition with_validationError (e : message) (st : State) : State :=
  {| step := step st; token := token st; userName := userName st;
     capital := capital st; mode := mode st;
     executionMode := executionMode st; broker := broker st;
     dhanToken := dhanToken st; dhanClientId := dhanClientId st;
     confirmText := confirmText st;
     validationError := e |}.

Definition setStep (s : Step) : M State unit := modify_page (with_step s).

Definition setValidationError (e : message) : M State unit :=
  modify_page (with_validationError e).

Definition is_LIVE (m : ExecutionMode) : bool :=
  match m with LIVE => true | _ => false end.

Definition is_OFF (m : ExecutionMode) : bool :=
  match m with OFF => true | _ => false end.

Definition is_DHAN (b : Broker) : bool :=
  match b with DHAN => true | _ => false end.

(** The argument [handleStart] passes to [startEngine]. *)
Definition engine_config (st : State) : useEngine.EngineConfig :=
  {| useEngine.token := token st;
     useEngine.capital := capital st;
     useEngine.executionMode := executionMode st;
     useEngine.broker := broker st;
     useEngine.dhanToken :=
       if is_DHAN (broker st) then Some (dhanToken st) else None;
     useEngine.dhanClientId :=
       if is_DHAN (broker st) then Some (dhanClientId st) else None |}.

(** [handleStart].  The handler reads the state of the render it was created
    in ([st]); the setters act on the live state. *)
Definition handleStart : M State unit :=
  st <- get_page ;;
  if is_LIVE (executionMode st) && negb (String.eqb (confirmText st) "CONFIRM")
  then setValidationError (Literal "Please type CONFIRM to enable live trading")
  else
    setStep starting_step ;;
    try_catch
      (useEngine.startEngine (engine_config st) ;;
       (* Check for orphan before navigating *)
       orphan <- useEngine.checkOrphan ;;
       has_orphan <- eval (get orphan "has_orphan") ;;
       (if truthy has_orphan
        then ret tt      (* Handle orphan - for now just navigate *)
        else ret tt) ;;
       navigate "/dashboard")
      (fun _ => setStep execution_step).

(** The button of the confirm step:
    [disabled={loading || confirmText !== 'CONFIRM'}], [onClick={handleStart}]. *)
Definition confirm_button_disabled (hk : HookState) (st : State) : bool :=
  loading hk || negb (String.eqb (confirmText st) "CONFIRM").

Definition handleExecutionNext : M State unit :=
  st <- get_page ;;
  if is_OFF (executionMode st) then handleStart else setStep broker_step.

(** [config?.EXPIRY] *)
Definition optional_get (config : option json) (k : string) : option json :=
  match config with
  | None | Some JNull => None
  | Some j => match get j k with Returns v => v | Throws _ => None end
  end.

Definition handleBrokerNext : M State unit :=
  st <- get_page ;;
  let proceed : M State unit :=
    if is_LIVE (executionMode st) then setStep confirm_step else handleStart in
  if is_DHAN (broker st)
  then
    if String.eqb (dhanToken st) "" || String.eqb (dhanClientId st) ""
    then setValidationError (Literal "Please enter DHAN credentials")
    else
      config <- useEngine.getConfig ;;
      result <- useEngine.validateDhan (dhanToken st) (dhanClientId st)
                  (useEngine.or_else (optional_get config "EXPIRY") (JString "")) ;;
      valid <- eval (get result "valid") ;;
      if negb (truthy valid)
      then
        message <- eval (get result "message") ;;
        setValidationError
          (useEngine.text_of
             (useEngine.or_else message (JString "Invalid DHAN credentials")))
      else proceed
  else proceed.

(** *** The token step and the config step *)

(** White space as [String.prototype.trim] sees it, among the characters
    U+0000 to U+00FF a [string] here can hold: tab, the line terminators,
    vertical tab, form feed, space and no-break space. *)
Definition is_white_space (c : Ascii.ascii) : bool :=
  let n := Ascii.nat_of_ascii c in
  (Nat.eqb n 9 || Nat.eqb n 10 || Nat.eqb n 11 || Nat.eqb n 12
   || Nat.eqb n 13 || Nat.eqb n 32 || Nat.eqb n 160)%nat.

(** [!token.trim()]: nothing is left of the token once the white space at
    its ends is removed, i.e. it holds white space only. *)
Fixpoint trims_to_empty (t : string) : bool :=
  match t with
  | EmptyString => true
  | String c rest => is_white_space c && trims_to_empty rest
  end.

Definition with_userName (n : string) (st : State) : State :=
  {| step := step st; token := token st; userName := n;
     capital := capital st; mode := mode st;
     executionMode := executionMode st; broker := broker st;
     dhanToken := dhanToken st; dhanClientId := dhanClientId st;
     confirmText := confirmText st;
     validationError := validationError st |}.

Definition setUserName (n : string) : M State unit :=
  modify_page (with_userName n).

(** [setMode(m)] of the config step's mode buttons. *)
Definition with_mode (m : Mode) (st : State) : State :=
  {| step := step st; token := token st; userName := userName st;
     capital := capital st; mode := m;
     executionMode := executionMode st; broker := broker st;
     dhanToken := dhanToken st; dhanClientId := dhanClientId st;
     confirmText := confirmText st;
     validationError := validationError st |}.

Section TokenStep.

(** [String(v)] for a value that is not a string: what the page shows when
    the backend names the user by something else than a string. *)
Variable String_of : json -> string.

Definition shown_as (v : json) : string :=
  match v with JString t => t | _ => String_of v end.

Definition handleValidateToken : M State unit :=
  st <- get_page ;;
  if trims_to_empty (token st)
  then setValidationError (Literal "Please enter your Upstox access token")
  else
    result <- useEngine.validateToken (token st) ;;
    valid <- eval (get result "valid") ;;
    if truthy valid
    then
      user_name <- eval (get result "user_name") ;;
      setUserName (shown_as (useEngine.or_else user_name (JString "User"))) ;;
      setValidationError (Literal "") ;;
      setStep config_step
    else
      message <- eval (get result "message") ;;
      setValidationError
        (useEngine.text_of (useEngine.or_else message (JString "Invalid token"))).

End TokenStep.

Definition handleConfigNext : M State unit := setStep execution_step.

(** *** A restart over a persisted open trade

    The operator has validated a token and picked execution mode OFF; the
    backend's session store holds an active-trade snapshot, so its orphan
    status reports one. *)
Definition operator_ready : State :=
  {| step := execution_step; token := "upstox-token"; userName := "User";
     capital := Finite 100000; mode := BALANCED; executionMode := OFF;
     broker := UPSTOX; dhanToken := ""; dhanClientId := "";
     confirmText := ""; validationError := Literal "" |}.

(** The same operator on the confirmation step of a LIVE start, with the
    confirmation word mistyped. *)
Definition operator_mistyped : State :=
  {| step := confirm_step; token := "upstox-token"; userName := "User";
     capital := Finite 100000; mode := BALANCED; executionMode := LIVE;
     broker := UPSTOX; dhanToken := ""; dhanClientId := "";
     confirmText := "CONFIRN"; validationError := Literal "" |}.

Definition backend_with_orphan : Backend :=
  fun _ r =>
    if String.eqb (url r) "/api/orphan"
    then Response true (Some (object
           [("has_orphan", Some (JBool true));
            ("trade", Some (object [("trade_type", Some (JString "CALL"));
                                    ("entry_price", Some (JNumber 100))]))]))
    else Response true (Some (object [("status", Some (JString "started"))])).

(** A backend that starts the engine and answers the orphan query with the
    document [null]. *)
Definition backend_null_orphan : Backend :=
  fun _ r =>
    if String.eqb (url r) "/api/orphan"
    then Response true (Some JNull)
    else Response true (Some (object [("status", Some (JString "started"))])).

(** A backend that cannot be reached. *)
Definition backend_down : Backend := fun _ _ => NetworkFailure.

(** An operator who picked PAPER execution through DHAN and filled in the
    credentials. *)
Definition operator_dhan : State :=
  {| step := broker_step; token := "upstox-token"; userName := "User";
     capital := Finite 100000; mode := STRICT; executionMode := PAPER;
     broker := DHAN; dhanToken := "dhan-jwt"; dhanClientId := "1100";
     confirmText := ""; validationError := Literal "" |}.

(** The same operator with the client id left empty. *)
Definition operator_dhan_blank : State :=
  {| step := broker_step; token := "upstox-token"; userName := "User";
     capital := Finite 100000; mode := STRICT; executionMode := PAPER;
     broker := DHAN; dhanToken := "dhan-jwt"; dhanClientId := "";
     confirmText := ""; validationError := Literal "" |}.

(** A backend that accepts every token and names the user. *)
Definition backend_accepts_token : Backend :=
  fun _ _ =>
    Response true (Some (object [("valid", Some (JBool true));
                                 ("user_name", Some (JString "Asha"))])).

(** The page as mounted, with a token typed in. *)
Definition operator_arrives : State :=
  {| step := token_step; token := "upstox-token"; userName := "";
     capital := Finite 100000; mode := BALANCED; executionMode := OFF;
     broker := UPSTOX; dhanToken := ""; dhanClientId := "";
     confirmText := ""; validationError := Literal "" |}.

(** A world in which the page holds [st] and nothing has happened yet. *)
Definition mounted (st : State) : World State :=
  {| page := st;
     hook := {| loading := false; hook_error := None |};
     log := [] |}.

End Setup.

(** ** components/ui/Badge.tsx and components/ui/ConditionRow.tsx *)

Module Jsx.

(** A child of an element: an embedded number or a run of text. *)
Inductive Child :=
| Number (n : Q)
| Text (t : string).

Inductive Variant := default | call | put | win | loss | warning.

Record BadgeProps := {
  key : option string;
  variant : Variant;
  children : list Child
}.

(** [<Badge variant=...>children</Badge>]; [variant] defaults to
    ['default']. *)
Definition Badge (key : option string) (variant : option Variant)
    (children : list Child) : BadgeProps :=
  {| key := key;
     variant := match variant with Some v => v | None => default end;
     children := children |}.

(** ['gte' | 'lte' | 'gt' | 'lt' | 'eq' | 'in'] *)
Inductive Comparison := cmp_gte | cmp_lte | cmp_gt | cmp_lt | cmp_eq | cmp_in.

Record ConditionRowProps := {
  label : string;
  value : Q;
  threshold : option Q;
  comparison : Comparison;
  passed : bool
}.

(** [<ConditionRow ... />]; [comparison] defaults to ['gte']. *)
Definition ConditionRow (label : string) (value : Q) (threshold : option Q)
    (comparison : option Comparison) (passed : bool) : ConditionRowProps :=
  {| label := label; value := value; threshold := threshold;
     comparison := match comparison with Some c => c | None => cmp_gte end;
     passed := passed |}.

(** The symbol [ConditionRow] prints between value and threshold. *)
Definition comparisonSymbol (c : Comparison) : string :=
  match c with
  | cmp_gte => ">=" | cmp_lte => "<=" | cmp_gt => ">" | cmp_lt => "<"
  | cmp_eq => "=" | cmp_in => "in"
  end.

End Jsx.

(** ** pages/Dashboard.tsx *)

Module Dashboard.
Import JsNumber constants Jsx.

(** [data.thresholds]: the active mode's thresholds; any field may be
    missing. *)
Record Thresholds := {
  th_alpha_1_call : option Q;
  th_alpha_1_put : option Q;
  th_alpha_2_call : option Q;
  th_alpha_2_put : option Q;
  th_min_quality_score : option Q;
  th_volume_ratio_threshold : option Q
}.

(** The fields of the state snapshot the signal cards read.  The page calls
    [toFixed] on [pcr] and [rsi], so a snapshot it renders carries both as
    numbers. *)
Record Snapshot := {
  pcr : Q;
  rsi : Q;
  alpha_1_call : Q;
  alpha_2_call : Q;
  quality_score_call : Q;
  volume_ratio_call : Q;
  alpha_1_put : Q;
  alpha_2_put : Q;
  quality_score_put : Q;
  volume_ratio_put : Q;
  confluence_call : Q;
  confluence_put : Q;
  confluence_conditions_call : option (list string);
  confluence_conditions_put : option (list string);
  thresholds : option Thresholds
}.

(** [const thresholds = data.thresholds || {}], followed by a field read. *)
Definition threshold_of (d : Snapshot) (field : Thresholds -> option Q)
  : option Q :=
  match thresholds d with Some th => field th | None => None end.

(** [t || dflt] on a number: zero and a missing value give the default. *)
Definition or_default (t : option Q) (dflt : Q) : Q :=
  match t with
  | Some q => if Qeq_bool q 0 then dflt else q
  | None => dflt
  end.

(** [value >= threshold] *)
Definition meets (value threshold : Q) : bool := Qle_bool threshold value.

(** [list?.includes(x)]: [undefined] (falsy) when the list is missing. *)
Definition optional_includes (l : option (list string)) (x : string) : bool :=
  match l with
  | Some names => existsb (String.eqb x) names
  | None => false
  end.

(** The header badge of the CALL card: [{data.confluence_call}/6]. *)
Definition CALL_badge (d : Snapshot) : BadgeProps :=
  Badge None (Some call) [Number (confluence_call d); Text "/6"].

(** The header badge of the PUT card: [{data.confluence_put}/6]. *)
Definition PUT_badge (d : Snapshot) : BadgeProps :=
  Badge None (Some put) [Number (confluence_put d); Text "/6"].

Definition CALL_conditions (d : Snapshot) : list ConditionRowProps :=
  [ ConditionRow "Alpha 1" (alpha_1_call d)
      (Some (or_default (threshold_of d th_alpha_1_call) 0.75)) None
      (meets (alpha_1_call d) (or_default (threshold_of d th_alpha_1_call) 0.75));
    ConditionRow "Alpha 2" (alpha_2_call d)
      (Some (or_default (threshold_of d th_alpha_2_call) 0.73)) None
      (meets (alpha_2_call d) (or_default (threshold_of d th_alpha_2_call) 0.73));
    ConditionRow "Quality" (quality_score_call d)
      (Some (or_default (threshold_of d th_min_quality_score) 75)) None
      (meets (quality_score_call d)
             (or_default (threshold_of d th_min_quality_score) 75));
    ConditionRow "Volume Ratio" (volume_ratio_call d)
      (Some (or_default (threshold_of d th_volume_ratio_threshold) 1.8)) None
      (meets (volume_ratio_call d)
             (or_default (threshold_of d th_volume_ratio_threshold) 1.8));
    ConditionRow "PCR" (pcr d) (Some 1.05%Q) (Some cmp_gt)
      (Qlt_bool 1.05 (pcr d));
    ConditionRow "RSI" (rsi d) (Some 75%Q) (Some cmp_lt)
      (Qlt_bool (rsi d) 75) ].

Definition PUT_conditions (d : Snapshot) : list ConditionRowProps :=
  [ ConditionRow "Alpha 1" (alpha_1_put d)
      (Some (or_default (threshold_of d th_alpha_1_put) 0.75)) None
      (meets (alpha_1_put d) (or_default (threshold_of d th_alpha_1_put) 0.75));
    ConditionRow "Alpha 2" (alpha_2_put d)
      (Some (or_default (threshold_of d th_alpha_2_put) 0.73)) None
      (meets (alpha_2_put d) (or_default (threshold_of d th_alpha_2_put) 0.73));
    ConditionRow "Quality" (quality_score_put d)
      (Some (or_default (threshold_of d th_min_quality_score) 75)) None
      (meets (quality_score_put d)
             (or_default (threshold_of d th_min_quality_score) 75));
    ConditionRow "Volume Ratio" (volume_ratio_put d)
      (Some (or_default (threshold_of d th_volume_ratio_threshold) 1.8)) None
      (meets (volume_ratio_put d)
             (or_default (threshold_of d th_volume_ratio_threshold) 1.8));
    ConditionRow "PCR" (pcr d) (Some 0.95%Q) (Some cmp_lt)
      (Qlt_bool (pcr d) 0.95);
    ConditionRow "RSI" (rsi d) (Some 25%Q) (Some cmp_gt)
      (Qlt_bool 25 (rsi d)) ].

(** [CONFLUENCE_FACTORS.map(factor => <Badge key={factor} ...>)] of the CALL
    card. *)
Definition CALL_factors (d : Snapshot) : list BadgeProps :=
  List.map
    (fun factor =>
       Badge (Some factor)
         (Some (if optional_includes (confluence_conditions_call d) factor
                then call else default))
         [Text factor])
    CONFLUENCE_FACTORS.

(** The same map on the PUT card. *)
Definition PUT_factors (d : Snapshot) : list BadgeProps :=
  List.map
    (fun factor =>
       Badge (Some factor)
         (Some (if optional_includes (confluence_conditions_put d) factor
                then put else default))
         [Text factor])
    CONFLUENCE_FACTORS.


(** The row of a card that carries a given label. *)
Definition row (lbl : string) (rows : list ConditionRowProps)
  : option ConditionRowProps :=
  List.find (fun r => String.eqb (label r) lbl) rows.



(** [data?.active_trade] *)
Definition optional_active_trade (data : Json.json) : option Json.json :=
  match data with
  | Json.JNull => None
  | _ => match Json.get data "active_trade" with
         | Json.Returns v => v
         | Json.Throws _ => None
         end
  end.

(** The body of the effect that leaves the page:
    [if (data?.active_trade) navigate('/trade')]. *)
Definition redirect (data : Json.json) : option string :=
  if Json.truthy (optional_active_trade data) then Some "/trade" else None.

(** [useEffect(body, [data?.active_trade, navigate])].  React runs the body
    after the first render, and after a later render only when a dependency
    is not the one of the render before; [navigate] stays the same function
    while the page is shown.  [before] is the [data] of the render before
    ([None] on the first render) and [data] a snapshot that has arrived
    since ([null] on the first render). *)
Definition effect (before : option Json.json) (data : Json.json)
  : option string :=
  match before with
  | None => redirect data
  | Some old =>
      if Json.Object_is (optional_active_trade old) (optional_active_trade data)
      then None
      else redirect data
  end.

End Dashboard.

(** ** pages/History.tsx *)

Module History.
Import JsNumber.

Inductive TradeType := CALL | PUT.

Record Trade := {
  trade_id : Q;
  date : string;
  entry_time : string;
  exit_time : string;
  duration_mins : Q;
  instrument : string;
  trade_type : TradeType;
  strike : Q;
  entry_price : Q;
  exit_price : Q;
  qty : Q;
  pnl_rupees : Q;
  pnl_percent : Q;
  peak_profit_pct : Q;
  mae_pct : Q;
  exit_reason : string;
  signal_confidence : Q;
  quality_score : Q;
  signal_path : string
}.

(** The filter buttons: ['all' | 'wins' | 'losses']. *)
Inductive Filter := all | wins | losses.

Definition is_wins (f : Filter) : bool :=
  match f with wins => true | _ => false end.

Definition is_losses (f : Filter) : bool :=
  match f with losses => true | _ => false end.

(** The callback of [trades.filter(...)]; an empty [dateFilter] is falsy. *)
Definition keeps (filter : Filter) (dateFilter : string) (trade : Trade) : bool :=
  if is_wins filter && Qle_bool (pnl_rupees trade) 0 then false
  else if is_losses filter && Qlt_bool 0 (pnl_rupees trade) then false
  else if negb (String.eqb dateFilter "")
          && negb (String.eqb (date trade) dateFilter) then false
  else true.

Definition filteredTrades (trades : list Trade) (filter : Filter)
    (dateFilter : string) : list Trade :=
  List.filter (keeps filter dateFilter) trades.

Definition pageSize : nat := 10.

(** [filteredTrades.slice((page - 1) * pageSize, page * pageSize)] *)
Definition paginatedTrades (filtered : list Trade) (page : nat) : list Trade :=
  firstn (page * pageSize - (page - 1) * pageSize)
         (skipn ((page - 1) * pageSize) filtered).

(** [t => t.pnl_rupees > 0] *)
Definition won (t : Trade) : bool := Qlt_bool 0 (pnl_rupees t).

(** [t => t.pnl_rupees <= 0] *)
Definition lost (t : Trade) : bool := Qle_bool (pnl_rupees t) 0.

(** [l.reduce((sum, t) => sum + t.pnl_rupees, 0)], a sum of doubles. *)
Definition sum_pnl (l : list Trade) : Binary64.number :=
  fold_left (fun sum t => Binary64.add sum (Binary64.of_Q (pnl_rupees t)))
            l Binary64.zero.

(** [l.length] as a number. *)
Definition count (l : list Trade) : Binary64.number :=
  Binary64.of_Z (Z.of_nat (List.length l)).

Record Stats := {
  totalTrades : nat;
  winsCount : nat;
  lossesCount : nat;
  totalPnl : Binary64.number;
  winRate : Binary64.number;
  avgWin : Binary64.number;
  avgLoss : Binary64.number;
  profitFactor : Binary64.number
}.

(** The [stats] object; its fields [wins] and [losses] are [winsCount] and
    [lossesCount] here. *)
Definition stats (filtered : list Trade) : Stats :=
  {| totalTrades := List.length filtered;
     winsCount := List.length (List.filter won filtered);
     lossesCount := List.length (List.filter lost filtered);
     totalPnl := sum_pnl filtered;
     winRate :=
       if (0 <? List.length filtered)%nat
       then Binary64.mul
              (Binary64.div (count (List.filter won filtered)) (count filtered))
              Binary64.hundred
       else Binary64.zero;
     avgWin :=
       if (0 <? List.length (List.filter won filtered))%nat
       then Binary64.div (sum_pnl (List.filter won filtered))
                         (count (List.filter won filtered))
       else Binary64.zero;
     avgLoss :=
       if (0 <? List.length (List.filter lost filtered))%nat
       then Binary64.div (sum_pnl (List.filter lost filtered))
                         (count (List.filter lost filtered))
       else Binary64.zero;
     profitFactor :=
       let grossProfit := sum_pnl (List.filter won filtered) in
       let grossLoss :=
         Binary64.Math_abs (sum_pnl (List.filter lost filtered)) in
       if Binary64.ltb Binary64.zero grossLoss
       then Binary64.div grossProfit grossLoss
       else if Binary64.ltb Binary64.zero grossProfit then Binary64.Infinity
       else Binary64.zero |}.

(** A trade closed at its entry price. *)
Definition breakeven_trade : Trade :=
  {| trade_id := 7; date := "2026-02-04";
     entry_time := "10:15:00"; exit_time := "10:42:00"; duration_mins := 27;
     instrument := "NIFTY 25000 CE"; trade_type := CALL; strike := 25000;
     entry_price := 100; exit_price := 100; qty := 75;
     pnl_rupees := 0; pnl_percent := 0; peak_profit_pct := 4; mae_pct := -3;
     exit_reason := "time_exit"; signal_confidence := 0.8;
     quality_score := 80; signal_path := "BUYING" |}.

(** *** Paging and the controls of the page *)

(** [Math.ceil(filteredTrades.length / pageSize)] *)
Definition totalPages (filtered : list Trade) : nat :=
  (List.length filtered + (pageSize - 1)) / pageSize.

(** The React state of the page. *)
Record State := {
  trades : list Trade;
  filter : Filter;
  dateFilter : string;
  page : nat                       (* [useState(1)] *)
}.

Definition initial : State :=
  {| trades := []; filter := all; dateFilter := ""; page := 1 |}.

Definition shown (st : State) : list Trade :=
  filteredTrades (trades st) (filter st) (dateFilter st).

Definition rows (st : State) : list Trade := paginatedTrades (shown st) (page st).

(** The pager is rendered below a table that has rows, when there is more
    than one page. *)
Definition pager_rendered (st : State) : bool :=
  negb (Nat.eqb (List.length (rows st)) 0) && (1 <? totalPages (shown st))%nat.

Inductive Event :=
| Loaded (result : list Trade)     (* [loadTrades] got [result] *)
| PickFilter (f : Filter)
| PickDate (d : string)
| PrevPage
| NextPage.

Definition handle (st : State) (ev : Event) : State :=
  match ev with
  | Loaded result =>
      {| trades := result; filter := filter st; dateFilter := dateFilter st;
         page := page st |}
  | PickFilter f =>
      {| trades := trades st; filter := f; dateFilter := dateFilter st;
         page := 1 |}
  | PickDate d =>
      {| trades := trades st; filter := filter st; dateFilter := d; page := 1 |}
  | PrevPage =>
      (* [disabled={page === 1}], [setPage(p => Math.max(1, p - 1))] *)
      if pager_rendered st && negb (Nat.eqb (page st) 1)
      then {| trades := trades st; filter := filter st;
              dateFilter := dateFilter st;
              page := Nat.max 1 (page st - 1) |}
      else st
  | NextPage =>
      (* [disabled={page === totalPages}],
         [setPage(p => Math.min(totalPages, p + 1))] *)
      if pager_rendered st && negb (Nat.eqb (page st) (totalPages (shown st)))
      then {| trades := trades st; filter := filter st;
              dateFilter := dateFilter st;
              page := Nat.min (totalPages (shown st)) (page st + 1) |}
      else st
  end.

(** Twelve loaded trades with no filter set, on the first of two pages. *)
Definition two_pages : State :=
  {| trades := repeat breakeven_trade 12; filter := all; dateFilter := "";
     page := 1 |}.

(** The variant of the badge that shows a trade's exit reason. *)
Definition exit_reason_variant (exit_reason : string) : Jsx.Variant :=
  if String.eqb exit_reason "profit_target" then Jsx.call
  else if String.eqb exit_reason "trailing_stop" then Jsx.warning
  else if String.eqb exit_reason "stop_loss"
          || String.eqb exit_reason "mtm_max_loss" then Jsx.put
  else Jsx.default.

End History.

(** ** pages/Settings.tsx *)

Module Settings.
Import JsNumber Json Effects Effects.Notations.

(** The configuration is a tree of JavaScript objects.  Objects are held by
    reference, so they live in a store and a value that is an object is the
    location of that object. *)
Abbreviation loc := nat (only parsing).

Inductive value :=
| VUndefined
| VNumber (n : number)
| VString (s : string)
| VRef (l : loc).

Record Store := {
  objects : gmap loc (gmap string value);
  next : loc                      (* the next location to hand out *)
}.

Inductive Tab := modes | risk | exit | filters | timing.

Record State := {
  config : option loc;            (* [Config | null] *)
  activeTab : Tab;
  hasChanges : bool;
  saveSuccess : bool
}.

Record Page := { store : Store; state : State }.

(** [{ ...o }]: a new object with the own fields of [o]. *)
Definition spread (l : loc) (h : Store) : option (loc * Store) :=
  match objects h !! l with
  | Some o =>
      Some (next h, {| objects := <[next h := o]> (objects h);
                       next := S (next h) |})
  | None => None
  end.


(** [obj[k]] for a key [k] that names a field of the configuration: one
    that is not [inherited] (a key such as ['constructor'] reads a function
    of the engine, which the store does not hold).  [None]: the read throws
    a TypeError ([obj] is [undefined]).  A field the object does not have,
    and a field of a number or a string, reads as [undefined]. *)
Definition read (h : Store) (obj : value) (k : string) : option value :=
  match obj with
  | VUndefined => None
  | VRef l =>
      match objects h !! l with
      | Some o => Some (match o !! k with Some v => v | None => VUndefined end)
      | None => None
      end
  | _ => Some VUndefined
  end.

(** [obj[k] = v].  [None]: the assignment throws a TypeError ([obj] is
    [undefined], or a primitive in the strict mode of a module). *)
Definition assign (h : Store) (obj : value) (k : string) (v : value)
  : option Store :=
  match obj with
  | VRef l =>
      match objects h !! l with
      | Some o => Some {| objects := <[l := <[k := v]> o]> (objects h);
                          next := next h |}
      | None => None
      end
  | _ => None
  end.

(** [for (i = 0; i < path.length - 1; i++) obj = obj[path[i]]], over the
    keys [path[0 .. length-2]]. *)
Fixpoint descend (h : Store) (obj : value) (keys : list string)
  : option value :=
  match keys with
  | [] => Some obj
  | k :: rest =>
      match read h obj k with
      | Some v => descend h v rest
      | None => None
      end
  end.

(** [updateValue(path, value)].  [None]: the handler throws and the React
    state stays as it was.  [path[path.length - 1]] of an empty path is
    [undefined], which as a key reads ["undefined"]. *)
Definition updateValue (path : list string) (v : value) (pg : Page)
  : option Page :=
  match config (state pg) with
  | None => Some pg
  | Some c =>
      match spread c (store pg) with
      | None => None
      | Some (newConfig, h1) =>
          match descend h1 (VRef newConfig) (removelast path) with
          | None => None
          | Some obj =>
              match assign h1 obj (List.last path "undefined") v with
              | None => None
              | Some h2 =>
                  Some {| store := h2;
                          state := {| config := Some newConfig;
                                      activeTab := activeTab (state pg);
                                      hasChanges := true;
                                      saveSuccess := saveSuccess (state pg) |} |}
              end
          end
      end
  end.

(** The document a value denotes, as [JSON.stringify] walks it: a field
    whose value is [undefined] is left out.  [fuel] bounds the depth of the
    walk; a tree of objects needs no more than the number of objects. *)
Fixpoint document (fuel : nat) (h : Store) (v : value) : option json :=
  match v with
  | VUndefined => None
  | VNumber n => Some (useEngine.json_of_number n)
  | VString t => Some (JString t)
  | VRef l =>
      match fuel with
      | O => None
      | S fuel' =>
          match objects h !! l with
          | Some o => Some (JObject (omap (document fuel' h) o))
          | None => None
          end
      end
  end.

(** A value that refers to nothing at or above location [n]. *)
Definition below (n : nat) (v : value) : Prop :=
  match v with VRef l => (l < n)%nat | _ => True end.

#[global] Instance below_dec (n : nat) (v : value) : Decision (below n v).
Proof. destruct v; cbn; apply _. Defined.


Definition setSaved : M Page unit :=
  modify_page (fun pg =>
    {| store := store pg;
       state := {| config := config (state pg);
                   activeTab := activeTab (state pg);
                   hasChanges := false;
                   saveSuccess := true |} |}).

(** [handleSave]: the whole configuration goes out in one request.  The
    timer that clears [saveSuccess] after three seconds is not modelled. *)
Definition handleSave : M Page unit :=
  pg <- get_page ;;
  match config (state pg) with
  | None => ret tt
  | Some c =>
      match document (S (next (store pg))) (store pg) (VRef c) with
      | None => throw (Engine TypeError_circular_structure)
      | Some doc =>
          success <- useEngine.updateConfig doc ;;
          if truthy success then setSaved else ret tt
      end
  end.

(** *** A loaded configuration

    Location 0 is the document [getConfig] returned; its sections are
    objects of their own. *)
Definition loaded_store : Store :=
  {| objects :=
       list_to_map
         [ (0%nat, list_to_map
              [ ("ACTIVE_MODE", VString "BALANCED");
                ("EXPIRY", VString "2026-02-05");
                ("MODES", VRef 1);
                ("RISK", VRef 3);
                ("EXIT", VRef 4);
                ("REFRESH_INTERVAL_SECONDS", VNumber (Finite 5)) ]);
           (1%nat, list_to_map [ ("BALANCED", VRef 2) ]);
           (2%nat, list_to_map
              [ ("alpha_1_call", VNumber (Finite 0.75));
                ("alpha_1_put", VNumber (Finite 0.75));
                ("min_confluence", VNumber (Finite 4)) ]);
           (3%nat, list_to_map
              [ ("position_size_lots", VNumber (Finite 1));
                ("daily_loss_limit_pct", VNumber (Finite 2));
                ("max_trades_per_day", VNumber (Finite 3)) ]);
           (4%nat, list_to_map
              [ ("profit_target_pct", VNumber (Finite 30));
                ("time_exit", VString "15:15") ]) ];
     next := 5 |}.

Definition loaded_page : Page :=
  {| store := loaded_store;
     state := {| config := Some 0%nat; activeTab := risk;
                 hasChanges := false; saveSuccess := false |} |}.


(** The page after a save that counted as successful. *)
Definition saved (pg : Page) : Page :=
  {| store := store pg;
     state := {| config := config (state pg);
                 activeTab := activeTab (state pg);
                 hasChanges := false;
                 saveSuccess := true |} |}.

(** The loaded configuration as the document [handleSave] sends. *)
Definition loaded_document : json :=
  default JNull (document 6 loaded_store (VRef 0)).

(** A backend that rejects every configuration update with status 422 and
    a reason. *)
Definition backend_rejects_config : Backend :=
  fun _ _ =>
    Response false
      (Some (object [("detail", Some (JString "min_confluence out of range"))])).

End Settings.

(** ** The exit policy of the trade lifecycle (backend) *)

Module ExitPolicy.












End ExitPolicy.

(** ** lib/formatters.ts *)

Module formatters.
Import JsNumber.

(** A template literal before its numbers are written out: the embedded
    numbers and the text around them, in order. *)
Inductive Part :=
| Num (n : Q)
| Str (s : string).

(** The quotient of [a % b], truncated towards zero. *)
Definition truncate (q : Q) : Z :=
  if Qlt_bool q 0 then Qceiling q else Qfloor q.

(** [a % b] for a divisor other than zero; the remainder takes the sign of
    [a]. *)
Definition remainder (a b : Q) : Q := a - b * inject_Z (truncate (a / b)).

(** [const hours = Math.floor(seconds / 3600)] *)
Definition hours (seconds : Q) : Z := Qfloor (seconds / 3600).

(** [const minutes = Math.floor((seconds % 3600) / 60)] *)
Definition minutes (seconds : Q) : Z := Qfloor (remainder seconds 3600 / 60).

(** [const secs = Math.floor(seconds % 60)] *)
Definition secs (seconds : Q) : Z := Qfloor (remainder seconds 60).

Definition formatDuration (seconds : Q) : list Part :=
  if (0 <? hours seconds)%Z
  then [Num (inject_Z (hours seconds)); Str "h ";
        Num (inject_Z (minutes seconds)); Str "m"]
  else if (0 <? minutes seconds)%Z
  then [Num (inject_Z (minutes seconds)); Str "m ";
        Num (inject_Z (secs seconds)); Str "s"]
  else [Num (inject_Z (secs seconds)); Str "s"].

(** [Math.min(Math.max(value, min), max)] *)
Definition clamp (value min max : number) : number :=
  Math_min (Math_max value min) max.

Section Printing.

(** [value.toFixed(decimals)]; the digits are the engine's. *)
Variable toFixed : Q -> nat -> string.

(** [formatPercent(value, decimals = 1)] *)
Definition formatPercent (value : Q) (decimals : option nat) : string :=
  let sign := if Qle_bool 0 value then "+" else "" in
  sign ++ toFixed value (default 1%nat decimals) ++ "%".

End Printing.

End formatters.

(** ** pages/TradeTracker.tsx *)

Module TradeTracker.
Import JsNumber Json Jsx formatters.

(** The fields of [data.active_trade] the cards below read.  The three
    prices go into the arithmetic of the stop-loss bar and are held as the
    doubles they are; the two excursions are only compared with zero and
    printed. *)
Record ActiveTrade := {
  current_ltp : Binary64.number;
  highest_price : Binary64.number;
  current_stop : Binary64.number;
  mfe_percent : Q;
  mae_percent : Q
}.

(** The body of the effect that leaves the page:
    [if (data && !data.active_trade) navigate('/dashboard')]. *)
Definition redirect (data : json) : completion (option string) :=
  if truthy (Some data)
  then match get data "active_trade" with
       | Returns active_trade =>
           Returns (if negb (truthy active_trade) then Some "/dashboard"
                    else None)
       | Throws m => Throws m
       end
  else Returns None.

(** [useEffect(body, [data?.active_trade, navigate])], as on the
    dashboard: the body runs after the first render, and later only when
    [data?.active_trade] is not the one of the render before. *)
Definition effect (before : option json) (data : json)
  : completion (option string) :=
  match before with
  | None => redirect data
  | Some old =>
      if Object_is (Dashboard.optional_active_trade old)
                   (Dashboard.optional_active_trade data)
      then Returns None
      else redirect data
  end.

(** The bar of the stop-loss card, between the stop and the highest price
    the trade has seen. *)
Definition stop_bar (trade : ActiveTrade) : ProgressBar.Fill :=
  ProgressBar.ProgressBar
    {| ProgressBar.value := current_ltp trade;
       ProgressBar.max := Some (highest_price trade);
       ProgressBar.min := Some (current_stop trade);
       ProgressBar.color :=
         (* [trade.current_ltp > trade.current_stop ? 'profit' : 'loss'] *)
         Some (if Binary64.ltb (current_stop trade) (current_ltp trade)
               then ProgressBar.profit else ProgressBar.loss);
       ProgressBar.size := None |}.

(** A trade bought at 100 that has been up to 120, with the stop trailed to
    104 and the price fallen through it to 103. *)
Definition stopped_trade : ActiveTrade :=
  {| current_ltp := Binary64.of_Z 103;
     highest_price := Binary64.of_Z 120;
     current_stop := Binary64.of_Z 104;
     mfe_percent := 20; mae_percent := -2 |}.

Section Printing.
Variable toFixed : Q -> nat -> string.

(** The MFE card: [+{formatPercent(trade.mfe_percent)}]. *)
Definition MFE (trade : ActiveTrade) : list Child :=
  [Text "+"; Text (formatPercent toFixed (mfe_percent trade) None)].

(** The MAE card: [{formatPercent(trade.mae_percent)}]. *)
Definition MAE (trade : ActiveTrade) : list Child :=
  [Text (formatPercent toFixed (mae_percent trade) None)].

End Printing.

(** The text an element shows when all its children are text. *)
Fixpoint text (children : list Child) : option string :=
  match children with
  | [] => Some ""%string
  | Text t :: rest => String.append t <$> text rest
  | Number _ :: _ => None
  end.

End TradeTracker.

(* ===================================================================== *)
(** * Part II: the properties                                             *)
(* ===================================================================== *)

Section Binary64Facts.
Import SpecFloat Binary64.

(** The sign a number carries, [NaN] having none. *)
Definition sign_of (x : number) : option bool :=
  match x with
  | S754_infinity s | S754_finite s _ _ => Some s
  | _ => None
  end.

(** A number, zero included, that carries sign [s]. *)
Definition signed (s : bool) (x : number) : Prop :=
  match x with
  | S754_nan => False
  | S754_zero s' | S754_infinity s' | S754_finite s' _ _ => s' = s
  end.

Lemma shr_1_nonneg (mrs : shr_record) :
  (0 <= shr_m mrs)%Z -> (0 <= shr_m (shr_1 mrs))%Z.
Proof.
  destruct mrs as [m r s]. cbn [shr_m].
  destruct m as [|p|p]; intros H; cbn; try lia; destruct p; cbn; lia.
Qed.

Lemma iter_pos_inv {A} (P : A -> Prop) (f : A -> A) :
  (forall x, P x -> P (f x)) -> forall n x, P x -> P (iter_pos f n x).
Proof.
  intros Hf. induction n as [n IH|n IH|]; intros x Hx; cbn [iter_pos]; auto.
Qed.

Lemma shr_nonneg (mrs : shr_record) (e n : Z) :
  (0 <= shr_m mrs)%Z -> (0 <= shr_m (fst (shr mrs e n)))%Z.
Proof.
  intros H. unfold shr. destruct n as [|p|p]; cbn [fst]; try exact H.
  apply (iter_pos_inv (fun r => (0 <= shr_m r)%Z)); [apply shr_1_nonneg|exact H].
Qed.

Lemma shr_fexp_nonneg (m e : Z) (l : location) :
  (0 <= m)%Z -> (0 <= shr_m (fst (shr_fexp prec emax m e l)))%Z.
Proof.
  intros H. unfold shr_fexp. apply shr_nonneg.
  destruct l as [|[]]; exact H.
Qed.

Lemma round_nearest_even_nonneg (m : Z) (l : location) :
  (0 <= m)%Z -> (0 <= round_nearest_even m l)%Z.
Proof.
  intros H. unfold round_nearest_even.
  destruct l as [|[]]; try lia. destruct (Z.even m); lia.
Qed.

Lemma binary_round_aux_signed (s : bool) (m e : Z) (l : location) :
  (0 <= m)%Z -> signed s (binary_round_aux prec emax s m e l).
Proof.
  intros H. unfold binary_round_aux.
  pose proof (shr_fexp_nonneg m e l H) as H1.
  destruct (shr_fexp prec emax m e l) as [mrs' e'].
  cbn [fst] in H1.
  pose proof (shr_fexp_nonneg
                (round_nearest_even (shr_m mrs') (loc_of_shr_record mrs'))
                e' loc_Exact
                (round_nearest_even_nonneg _ _ H1)) as H2.
  destruct (shr_fexp prec emax _ e' loc_Exact) as [mrs'' e''].
  cbn [fst] in H2.
  destruct (shr_m mrs'') as [|p|p]; cbn [signed]; try reflexivity; try lia.
  destruct (Z.leb e'' (Z.sub emax prec)); reflexivity.
Qed.

Lemma binary_round_signed (s : bool) (m : positive) (e : Z) :
  signed s (binary_round prec emax s m e).
Proof.
  unfold binary_round.
  destruct (shl_align m e _) as [mz ez].
  apply binary_round_aux_signed. lia.
Qed.

Lemma binary_normalize_not_nan (m e : Z) (sz : bool) :
  is_nan (binary_normalize prec emax m e sz) = false.
Proof.
  unfold binary_normalize. destruct m as [|p|p]; [reflexivity| |].
  - pose proof (binary_round_signed false p e) as H.
    destruct (binary_round prec emax false p e); cbn in *; tauto.
  - pose proof (binary_round_signed true p e) as H.
    destruct (binary_round prec emax true p e); cbn in *; tauto.
Qed.

Lemma signed_not_nan s x : signed s x -> is_nan x = false.
Proof. destruct x; cbn; tauto. Qed.

(** The difference of two finite numbers is a number. *)
Lemma sub_not_nan (x y : number) :
  is_double x = true -> is_double y = true -> is_nan (sub x y) = false.
Proof.
  destruct x as [sx| | |sx mx ex], y as [sy| | |sy my ey]; try discriminate;
    intros _ _; cbn [sub SFsub].
  - destruct sx, sy; reflexivity.
  - reflexivity.
  - reflexivity.
  - apply binary_normalize_not_nan.
Qed.

Lemma div_finite_finite_signed sx mx ex sy my ey :
  signed (xorb sx sy) (div (S754_finite sx mx ex) (S754_finite sy my ey)).
Proof.
  unfold div, SFdiv.
  destruct (SFdiv_core_binary prec emax (Zpos mx) ex (Zpos my) ey)
    as [[mz ez] lz] eqn:E.
  apply binary_round_aux_signed.
  unfold SFdiv_core_binary in E.
  set (m' := match _ with Zpos _ => _ | Z0 => _ | Zneg _ => _ end) in E.
  assert (Hm' : (0 <= m')%Z).
  { subst m'. destruct (Z.sub (Z.sub ex ey) _) eqn:Es; try lia.
    apply Z.shiftl_nonneg. lia. }
  pose proof (Z.div_pos m' (Zpos my) Hm' eq_refl) as Hq.
  unfold Z.div in Hq.
  destruct (Z.div_eucl m' (Zpos my)) as [q r].
  injection E as <- _ _. exact Hq.
Qed.

Lemma div_nan_iff (x y : number) :
  is_nan (div x y) = true
  <-> is_nan x = true \/ is_nan y = true
      \/ (is_zero x = true /\ is_zero y = true)
      \/ (is_infinite x = true /\ is_infinite y = true).
Proof.
  destruct x as [sx|sx| |sx mx ex], y as [sy|sy| |sy my ey];
    try (cbn; intuition discriminate).
  pose proof (div_finite_finite_signed sx mx ex sy my ey) as H.
  apply signed_not_nan in H. rewrite H. cbn. intuition discriminate.
Qed.

Lemma mul_hundred_nan_iff (x : number) :
  is_nan (mul x hundred) = true <-> is_nan x = true.
Proof.
  destruct x as [sx|sx| |sx mx ex]; try (cbn; intuition discriminate).
  unfold hundred, mul, SFmul.
  pose proof (binary_round_aux_signed (xorb sx false)
                (Zpos (Pos.mul mx 7036874417766400)) (Z.add ex (-46)) loc_Exact
                ltac:(lia)) as H.
  apply signed_not_nan in H. rewrite H. cbn. intuition discriminate.
Qed.

Lemma compare_antisym (x y : number) :
  SFcompare y x = option_map CompOpp (SFcompare x y).
Proof.
  destruct x as [sx|sx| |sx mx ex], y as [sy|sy| |sy my ey]; cbn;
    try reflexivity;
    try (destruct sx; reflexivity); try (destruct sy; reflexivity);
    try (destruct sx, sy; reflexivity).
  destruct sx, sy; try reflexivity; f_equal;
    rewrite (Z.compare_antisym ex ey);
    destruct (Z.compare ex ey); cbn; try reflexivity;
    rewrite (Pos.compare_cont_antisym mx my Eq); cbn;
    destruct (Pos.compare_cont Eq mx my); reflexivity.
Qed.

Lemma compare_refl (x : number) :
  is_nan x = false -> SFcompare x x = Some Eq.
Proof.
  destruct x as [s|s| |s m e]; try discriminate; intros _; cbn.
  - reflexivity.
  - now destruct s.
  - rewrite Z.compare_refl, Pos.compare_cont_refl. now destruct s.
Qed.

Lemma ltb_antisym (x y : number) :
  ltb y x = match SFcompare x y with Some Gt => true | _ => false end.
Proof.
  unfold ltb, SFltb. rewrite compare_antisym.
  destruct (SFcompare x y) as [[]|]; reflexivity.
Qed.

(** [Math.max(r, 0)] *)
Lemma Math_max_zero (r : number) :
  Math_max r zero
  = match r with
    | S754_nan => NaN
    | S754_zero _ => zero
    | S754_infinity s | S754_finite s _ _ => if s then zero else r
    end.
Proof.
  destruct r as [s|s| |s m e]; try reflexivity.
  - now destruct s.
  - now destruct s.
  - now destruct s.
Qed.

(** [Math.min(m, 100)] *)
Lemma Math_min_hundred (m : number) :
  Math_min m hundred
  = match SFcompare m hundred with
    | None => NaN
    | Some Gt => hundred
    | Some _ => m
    end.
Proof.
  unfold Math_min. destruct (SFcompare m hundred) as [[]|]; try reflexivity.
  now destruct m.
Qed.

(** Clamping a number to [0, 100]. *)
Lemma clamp_of_number (r : number) :
  is_nan r = false ->
  is_nan (Math_min (Math_max r zero) hundred) = false
  /\ leb zero (Math_min (Math_max r zero) hundred) = true
  /\ leb (Math_min (Math_max r zero) hundred) hundred = true
  /\ (ltb r zero = true -> Math_min (Math_max r zero) hundred = zero)
  /\ (ltb hundred r = true -> Math_min (Math_max r zero) hundred = hundred)
  /\ (ltb r zero = false -> ltb hundred r = false ->
      eqb (Math_min (Math_max r zero) hundred) r = true).
Proof.
  intros Hnan. rewrite Math_max_zero.
  assert (Hzero : Math_min zero hundred = zero) by reflexivity.
  destruct r as [s|s| |s m e]; try discriminate.
  - rewrite Hzero. destruct s; repeat split; (reflexivity || discriminate).
  - destruct s.
    + rewrite Hzero. repeat split; (reflexivity || discriminate).
    + repeat split; (reflexivity || discriminate).
  - destruct s.
    + rewrite Hzero. repeat split; (reflexivity || discriminate).
    + rewrite Math_min_hundred, (ltb_antisym (S754_finite false m e) hundred).
      unfold leb, SFleb, eqb, SFeqb.
      destruct (SFcompare (S754_finite false m e) hundred) as [[]|] eqn:E.
      * rewrite E, (compare_refl (S754_finite false m e) eq_refl).
        repeat split; (reflexivity || discriminate).
      * rewrite E, (compare_refl (S754_finite false m e) eq_refl).
        repeat split; (reflexivity || discriminate).
      * repeat split; (reflexivity || discriminate).
      * discriminate E.
Qed.

Lemma clamp_of_nan : Math_min (Math_max NaN zero) hundred = NaN.
Proof. reflexivity. Qed.


Lemma digits2_pos_bounds (m : positive) :
  (2 ^ (Zpos (digits2_pos m) - 1) <= Zpos m < 2 ^ Zpos (digits2_pos m))%Z.
Proof.
  induction m as [m IH|m IH|]; cbn [digits2_pos].
  - rewrite Pos2Z.inj_succ.
    replace (Z.succ (Zpos (digits2_pos m)) - 1)%Z
      with (Z.succ (Zpos (digits2_pos m) - 1))%Z by lia.
    rewrite !Z.pow_succ_r by lia. lia.
  - rewrite Pos2Z.inj_succ.
    replace (Z.succ (Zpos (digits2_pos m)) - 1)%Z
      with (Z.succ (Zpos (digits2_pos m) - 1))%Z by lia.
    rewrite !Z.pow_succ_r by lia. lia.
  - cbn. lia.
Qed.

Lemma iter_xO_value (m d : positive) :
  Zpos (Pos.iter xO m d) = (Zpos m * 2 ^ Zpos d)%Z.
Proof.
  induction d as [|d IH] using Pos.peano_ind.
  - cbn. lia.
  - rewrite Pos.iter_succ, Pos2Z.inj_xO, IH, Pos2Z.inj_succ.
    rewrite Z.pow_succ_r by lia. lia.
Qed.

Lemma shl_align_value (m : positive) (e e' : Z) :
  (e' <= e)%Z ->
  Zpos (fst (shl_align m e e')) = (Zpos m * 2 ^ (e - e'))%Z.
Proof.
  intros H. unfold shl_align.
  destruct (Z.sub e' e) as [|d|d] eqn:E; cbn [fst].
  - replace (e - e')%Z with 0%Z by lia. lia.
  - lia.
  - rewrite iter_xO_value. f_equal. f_equal. lia.
Qed.

Lemma bounded_digits (m : positive) (e : Z) :
  bounded prec emax m e = true ->
  (Zpos (digits2_pos m) <= 53)%Z /\ (-1074 <= e)%Z
  /\ ((-1074 < e)%Z -> Zpos (digits2_pos m) = 53%Z).
Proof.
  unfold bounded, canonical_mantissa, fexp, emin, prec, emax.
  intros H. apply andb_true_iff in H as [H _]. apply Z.eqb_eq in H.
  lia.
Qed.

(** Numbers of the same sign compare as their magnitudes do. *)
Lemma aligned_lt (mx : positive) (ex : Z) (my : positive) (ey : Z) :
  bounded prec emax mx ex = true -> bounded prec emax my ey = true ->
  (ex < ey)%Z ->
  (Zpos (fst (shl_align mx ex (Z.min ex ey)))
   < Zpos (fst (shl_align my ey (Z.min ex ey))))%Z.
Proof.
  intros Hx Hy Hlt.
  rewrite !shl_align_value by lia.
  replace (Z.min ex ey) with ex by lia.
  replace (ex - ex)%Z with 0%Z by lia.
  destruct (bounded_digits mx ex Hx) as (Hdx & Hex & _).
  destruct (bounded_digits my ey Hy) as (_ & _ & Hdy).
  specialize (Hdy ltac:(lia)).
  pose proof (digits2_pos_bounds mx) as [_ Hmx].
  pose proof (digits2_pos_bounds my) as [Hmy _].
  rewrite Hdy in Hmy.
  assert (Hp : (2 ^ Zpos (digits2_pos mx) <= 2 ^ 53)%Z)
    by (apply Z.pow_le_mono_r; lia).
  assert (Hq : (2 ^ 1 <= 2 ^ (ey - ex))%Z)
    by (apply Z.pow_le_mono_r; lia).
  change (2 ^ 1)%Z with 2%Z in Hq.
  change (2 ^ (53 - 1))%Z with 4503599627370496%Z in Hmy.
  change (2 ^ 53)%Z with 9007199254740992%Z in Hp.
  nia.
Qed.

(** *** A difference that is not zero does not round to zero *)

Lemma shr_1_half (mrs : shr_record) :
  (0 <= shr_m mrs)%Z -> shr_m (shr_1 mrs) = (shr_m mrs / 2)%Z.
Proof.
  destruct mrs as [m r s]. cbn [shr_m]. intros H.
  destruct m as [|p|p]; [reflexivity| |lia].
  destruct p as [p|p|]; cbn [shr_1 shr_m].
  - rewrite Pos2Z.inj_xI. apply (Z.div_unique _ 2 _ 1); lia.
  - rewrite Pos2Z.inj_xO. apply (Z.div_unique _ 2 _ 0); lia.
  - reflexivity.
Qed.

Lemma iter_shr_1 (n : positive) :
  forall mrs, (0 <= shr_m mrs)%Z ->
    shr_m (iter_pos shr_1 n mrs) = (shr_m mrs / 2 ^ Zpos n)%Z.
Proof.
  induction n as [n IH|n IH|]; intros mrs H; cbn [iter_pos].
  - assert (H1 : (0 <= shr_m (shr_1 mrs))%Z) by now apply shr_1_nonneg.
    assert (H2 : (0 <= shr_m (iter_pos shr_1 n (shr_1 mrs)))%Z)
      by (apply (iter_pos_inv (fun r => (0 <= shr_m r)%Z));
          [apply shr_1_nonneg|exact H1]).
    rewrite (IH _ H2), (IH _ H1), shr_1_half by exact H.
    rewrite !Z.div_div by (try apply Z.pow_pos_nonneg; lia).
    f_equal.
    replace (Zpos n~1) with (Zpos n + Zpos n + 1)%Z by lia.
    rewrite !Z.pow_add_r, Z.pow_1_r by lia. lia.
  - assert (H2 : (0 <= shr_m (iter_pos shr_1 n mrs))%Z)
      by (apply (iter_pos_inv (fun r => (0 <= shr_m r)%Z));
          [apply shr_1_nonneg|exact H]).
    rewrite (IH _ H2), (IH _ H).
    rewrite !Z.div_div by (try apply Z.pow_pos_nonneg; lia).
    f_equal.
    replace (Zpos n~0) with (Zpos n + Zpos n)%Z by lia.
    rewrite !Z.pow_add_r by lia. lia.
  - now apply shr_1_half.
Qed.

(** Rounding to the format keeps a mantissa that is not zero from
    vanishing, as long as the exponent is within the format's range. *)
Lemma shr_fexp_pos (m : positive) (e : Z) (l : location) :
  (-1074 <= e)%Z ->
  (0 < shr_m (fst (shr_fexp prec emax (Zpos m) e l)))%Z
  /\ (-1074 <= snd (shr_fexp prec emax (Zpos m) e l))%Z.
Proof.
  intros He. unfold shr_fexp, shr.
  assert (Hrec : shr_m (shr_record_of_loc (Zpos m) l) = Zpos m)
    by (destruct l as [|[]]; reflexivity).
  cbn [Zdigits2].
  destruct (Z.sub (fexp prec emax (Z.add (Zpos (digits2_pos m)) e)) e)
    as [|n|n] eqn:En; cbn [fst snd]; try (rewrite Hrec; lia).
  split; [|lia].
  rewrite iter_shr_1 by (rewrite Hrec; lia). rewrite Hrec.
  unfold fexp, emin, prec, emax in En.
  pose proof (digits2_pos_bounds m) as [Hm _].
  assert (Hn : (Zpos n <= Zpos (digits2_pos m) - 1)%Z) by lia.
  assert (Hp : (2 ^ Zpos n <= 2 ^ (Zpos (digits2_pos m) - 1))%Z)
    by (apply Z.pow_le_mono_r; lia).
  apply Z.div_str_pos. split; [apply Z.pow_pos_nonneg; lia | lia].
Qed.

Lemma binary_round_aux_not_zero (s : bool) (m : positive) (e : Z) (l : location) :
  (-1074 <= e)%Z ->
  is_zero (binary_round_aux prec emax s (Zpos m) e l) = false.
Proof.
  intros He. unfold binary_round_aux.
  destruct (shr_fexp_pos m e l He) as [H1 H1e].
  destruct (shr_fexp prec emax (Zpos m) e l) as [mrs' e'].
  cbn [fst snd] in H1, H1e.
  assert (Hr : (0 < round_nearest_even (shr_m mrs') (loc_of_shr_record mrs'))%Z).
  { unfold round_nearest_even.
    destruct (loc_of_shr_record mrs') as [|[]]; try lia.
    destruct (Z.even (shr_m mrs')); lia. }
  destruct (round_nearest_even (shr_m mrs') (loc_of_shr_record mrs'))
    as [|m2|m2]; try lia.
  destruct (shr_fexp_pos m2 e' loc_Exact H1e) as [H2 _].
  destruct (shr_fexp prec emax (Zpos m2) e' loc_Exact) as [mrs'' e''].
  cbn [fst] in H2.
  destruct (shr_m mrs'') as [|p|p]; try lia.
  now destruct (Z.leb e'' (Z.sub emax prec)).
Qed.

Lemma binary_round_not_zero (s : bool) (m : positive) (e : Z) :
  (-1074 <= e)%Z -> is_zero (binary_round prec emax s m e) = false.
Proof.
  intros He. unfold binary_round.
  destruct (shl_align m e _) as [mz ez] eqn:E.
  apply binary_round_aux_not_zero.
  unfold shl_align in E.
  destruct (Z.sub _ e) eqn:Ed; injection E as <- <-; try lia.
  unfold fexp, emin, prec, emax. lia.
Qed.

(** The difference of two numbers of the format is zero when they are
    equal, below zero when the first is the smaller and above zero when it
    is the greater; it may be infinite, but it is never [NaN]. *)
Lemma sub_sign (x y : number) :
  is_double x = true -> is_double y = true ->
  match SFcompare x y with
  | Some Eq => is_zero (sub x y) = true
  | Some Lt => sign_of (sub x y) = Some true
  | Some Gt => sign_of (sub x y) = Some false
  | None => False
  end.
Proof.
  destruct x as [sx| | |sx mx ex], y as [sy| | |sy my ey]; try discriminate;
    cbn [is_double]; intros Hx Hy.
  - destruct sx, sy; reflexivity.
  - destruct sy; reflexivity.
  - destruct sx; reflexivity.
  - destruct (bounded_digits mx ex Hx) as (_ & Hex & _).
    destruct (bounded_digits my ey Hy) as (_ & Hey & _).
    assert (Hnorm : forall d : Z,
      match d with
      | Z0 => is_zero (binary_normalize prec emax d (Z.min ex ey) false) = true
      | Zpos _ => sign_of (binary_normalize prec emax d (Z.min ex ey) false)
                  = Some false
      | Zneg _ => sign_of (binary_normalize prec emax d (Z.min ex ey) false)
                  = Some true
      end).
    { intros [|p|p]; [reflexivity| |]; unfold binary_normalize.
      - pose proof (binary_round_signed false p (Z.min ex ey)) as Hs.
        pose proof (binary_round_not_zero false p (Z.min ex ey) ltac:(lia)) as Hz.
        destruct (binary_round prec emax false p (Z.min ex ey));
          cbn in *; try discriminate; try tauto; now subst.
      - pose proof (binary_round_signed true p (Z.min ex ey)) as Hs.
        pose proof (binary_round_not_zero true p (Z.min ex ey) ltac:(lia)) as Hz.
        destruct (binary_round prec emax true p (Z.min ex ey));
          cbn in *; try discriminate; try tauto; now subst. }
    unfold sub, SFsub.
    set (X := Zpos (fst (shl_align mx ex (Z.min ex ey)))).
    set (Y := Zpos (fst (shl_align my ey (Z.min ex ey)))).
    assert (Hord : match Z.compare ex ey with
                   | Lt => (X < Y)%Z
                   | Gt => (Y < X)%Z
                   | Eq => X = Zpos mx /\ Y = Zpos my
                   end).
    { subst X Y. destruct (Z.compare_spec ex ey) as [Heq|Hlt|Hgt].
      - subst ey. rewrite Z.min_id, !shl_align_value by lia.
        rewrite Z.sub_diag, Z.pow_0_r. lia.
      - now apply aligned_lt.
      - rewrite (Z.min_comm ex ey). now apply aligned_lt. }
    assert (HX : (0 < X)%Z) by (subst X; lia).
    assert (HY : (0 < Y)%Z) by (subst Y; lia).
    unfold SFcompare.
    specialize (Hnorm (Z.sub (cond_Zopp sx X) (cond_Zopp sy Y))).
    destruct sx, sy; cbn [cond_Zopp] in Hnorm |- *.
    + destruct (Z.compare ex ey).
      * destruct Hord as [HXm HYm]. rewrite Pos.compare_cont_spec.
        cbn [Pos.switch_Eq].
        destruct (Pos.compare_spec mx my) as [Hm|Hm|Hm]; cbn [CompOpp];
          destruct (- X - - Y)%Z eqn:Ed; try lia; exact Hnorm.
      * destruct (- X - - Y)%Z eqn:Ed; try lia; exact Hnorm.
      * destruct (- X - - Y)%Z eqn:Ed; try lia; exact Hnorm.
    + destruct (- X - Y)%Z eqn:Ed; try lia; exact Hnorm.
    + destruct (X - - Y)%Z eqn:Ed; try lia; exact Hnorm.
    + destruct (Z.compare ex ey).
      * destruct Hord as [HXm HYm]. rewrite Pos.compare_cont_spec.
        cbn [Pos.switch_Eq].
        destruct (Pos.compare_spec mx my) as [Hm|Hm|Hm];
          destruct (X - Y)%Z eqn:Ed; try lia; exact Hnorm.
      * destruct (X - Y)%Z eqn:Ed; try lia; exact Hnorm.
      * destruct (X - Y)%Z eqn:Ed; try lia; exact Hnorm.
Qed.


(** Two doubles that compare equal have a zero for their difference: +0,
    except for -0 less +0, which is -0. *)
Lemma sub_of_equal (x y : number) :
  is_double x = true -> is_double y = true ->
  SFcompare x y = Some Eq ->
  sub x y = S754_zero match x, y with
                      | S754_zero true, S754_zero false => true
                      | _, _ => false
                      end.
Proof.
  destruct x as [sx| | |sx mx ex], y as [sy| | |sy my ey]; try discriminate;
    intros _ _ Heq.
  - now destruct sx, sy.
  - destruct sy; discriminate.
  - destruct sx; discriminate.
  - assert (H : sx = sy /\ ex = ey /\ mx = my).
    { cbn in Heq.
      destruct sx, sy; try discriminate;
        destruct (Z.compare_spec ex ey); try discriminate;
        rewrite Pos.compare_cont_spec in Heq; cbn [Pos.switch_Eq] in Heq;
        destruct (Pos.compare_spec mx my); try discriminate; auto. }
    destruct H as (<- & <- & <-).
    unfold sub, SFsub. now rewrite Z.sub_diag.
Qed.

Lemma mul_hundred_signed (s : bool) (x : number) :
  signed s x -> signed s (mul x hundred).
Proof.
  destruct x as [sx|sx| |sx mx ex]; cbn [signed]; try tauto; intros <-.
  - now destruct sx.
  - now destruct sx.
  - unfold hundred, mul, SFmul.
    replace sx with (xorb sx false) at 1 by now destruct sx.
    apply binary_round_aux_signed. lia.
Qed.

Lemma div_signed (s : bool) (d : number) (sr : bool) (mr : positive) (er : Z) :
  sign_of d = Some s ->
  signed (xorb s sr) (div d (S754_finite sr mr er)).
Proof.
  destruct d as [sd|sd| |sd md ed]; try discriminate; intros [= <-].
  - reflexivity.
  - apply div_finite_finite_signed.
Qed.

End Binary64Facts.

Section ProgressBarFacts.
Import SpecFloat Binary64 ProgressBar.

Lemma Qle_bool_false (a b : Q) : Qle_bool a b = false -> (b < a)%Q.
Proof.
  intros H. apply Qnot_le_lt. intros Hle.
  apply Qle_bool_iff in Hle. congruence.
Qed.

Lemma compare_of_doubles (x y : number) :
  is_double x = true -> is_double y = true -> SFcompare x y <> None.
Proof.
  destruct x, y; try discriminate; intros _ _; cbn; discriminate.
Qed.

(** C10, as double-precision arithmetic allows it.  For every value, min
    and max that are finite doubles with max different from min (an absent
    [max] is 100, an absent [min] is 0), unless value - min and max - min
    both overflow to an infinity, the fill percentage of [ProgressBar] is a
    number in the closed interval [0, 100]: it is the ratio
    ((value - min) / (max - min)) * 100 clamped from both sides (0 for a
    ratio below 0, 100 for one above 100, the ratio itself otherwise), and
    the width of the rendered bar is that percentage. *)
Theorem ProgressBar_percentage_clamped
    (v : number) (omax omin : option number)
    (c : option Color) (s : option Size) :
  is_double v = true ->
  is_double (with_default omax hundred) = true ->
  is_double (with_default omin zero) = true ->
  eqb (with_default omax hundred) (with_default omin zero) = false ->
  is_infinite (sub v (with_default omin zero))
    && is_infinite (sub (with_default omax hundred) (with_default omin zero))
  = false ->
  is_nan (percentage {| value := v; max := omax; min := omin;
                        color := c; size := s |}) = false
  /\ leb zero (percentage {| value := v; max := omax; min := omin;
                             color := c; size := s |}) = true
  /\ leb (percentage {| value := v; max := omax; min := omin;
                        color := c; size := s |}) hundred = true
  /\ (ltb (ratio {| value := v; max := omax; min := omin;
                    color := c; size := s |}) zero = true ->
      percentage {| value := v; max := omax; min := omin;
                    color := c; size := s |} = zero)
  /\ (ltb hundred (ratio {| value := v; max := omax; min := omin;
                            color := c; size := s |}) = true ->
      percentage {| value := v; max := omax; min := omin;
                    color := c; size := s |} = hundred)
  /\ (ltb (ratio {| value := v; max := omax; min := omin;
                    color := c; size := s |}) zero = false ->
      ltb hundred (ratio {| value := v; max := omax; min := omin;
                            color := c; size := s |}) = false ->
      eqb (percentage {| value := v; max := omax; min := omin;
                         color := c; size := s |})
          (ratio {| value := v; max := omax; min := omin;
                    color := c; size := s |}) = true)
  /\ width (ProgressBar {| value := v; max := omax; min := omin;
                           color := c; size := s |})
     = Percent (percentage {| value := v; max := omax; min := omin;
                              color := c; size := s |}).
Proof.
  intros Hv Hmax Hmin Hne Hover.
  set (hi := with_default omax hundred) in *.
  set (lo := with_default omin zero) in *.
  set (p := {| value := v; max := omax; min := omin; color := c; size := s |}).
  assert (Hratio : is_nan (ratio p) = false).
  { subst p. unfold ratio, range; cbn [value max min]. fold hi lo.
    apply not_true_iff_false. rewrite mul_hundred_nan_iff, div_nan_iff.
    rewrite (sub_not_nan v lo Hv Hmin), (sub_not_nan hi lo Hmax Hmin).
    pose proof (sub_sign hi lo Hmax Hmin) as Hsign.
    pose proof (compare_of_doubles hi lo Hmax Hmin) as Hcmp.
    unfold eqb, SFeqb in Hne.
    assert (Hrange : is_zero (sub hi lo) = false).
    { destruct (SFcompare hi lo) as [[]|]; try discriminate; try contradiction;
        destruct (sub hi lo); cbn in Hsign |- *; congruence. }
    rewrite Hrange.
    intros [H|[H|[[_ H]|[H1 H2]]]]; try discriminate.
    rewrite H1, H2 in Hover. discriminate. }
  destruct (clamp_of_number (ratio p) Hratio) as (H1 & H2 & H3 & H4 & H5 & H6).
  unfold percentage. repeat split; assumption.
Qed.

(** The PCR bar of the dashboard at a ratio of 1 is half full. *)
Lemma ProgressBar_percentage_clamped_witness :
  is_nan (percentage half_full) = false
  /\ leb zero (percentage half_full) = true
  /\ leb (percentage half_full) hundred = true
  /\ (ltb (ratio half_full) zero = true -> percentage half_full = zero)
  /\ (ltb hundred (ratio half_full) = true -> percentage half_full = hundred)
  /\ (ltb (ratio half_full) zero = false ->
      ltb hundred (ratio half_full) = false ->
      eqb (percentage half_full) (ratio half_full) = true)
  /\ width (ProgressBar half_full) = Percent (percentage half_full).
Proof.
  apply (ProgressBar_percentage_clamped (of_Z 1) (Some (of_Z 2)) None None None);
    vm_compute; reflexivity.
Defined.

(** C10 as stated fails where the two differences overflow: 1e308 and
    -1e308 are finite doubles and differ, yet on the bar from -1e308 to
    1e308 the value 1e308 gives infinity over infinity, a percentage that
    is [NaN] and so lies in no interval, and a width of 'NaN%'. *)
Lemma ProgressBar_percentage_overflows :
  is_double (value overflowing) = true
  /\ is_double (with_default (max overflowing) hundred) = true
  /\ is_double (with_default (min overflowing) zero) = true
  /\ eqb (with_default (max overflowing) hundred)
         (with_default (min overflowing) zero) = false
  /\ percentage overflowing = NaN
  /\ ~ (leb zero (percentage overflowing) = true
        /\ leb (percentage overflowing) hundred = true)
  /\ width (ProgressBar overflowing) = Percent NaN.
Proof.
  repeat split; try (vm_compute; reflexivity).
  intros [H _]. vm_compute in H. discriminate.
Qed.

End ProgressBarFacts.

Section WebSocketFacts.
Import Json useWebSocket.

Lemma onmessage_data (parsed : option json) (st : WebSocketState) :
  data (onmessage parsed st)
  = match parsed with
    | Some d => if spec_is_snapshot d then d else data st
    | None => data st
    end.
Proof.
  destruct parsed as [d|]; [|reflexivity].
  destruct d as [ | b | q | t | items | fields]; try reflexivity.
  unfold onmessage, spec_is_snapshot; cbn [get].
  destruct (fields !! "type") as [[ | | | t | | ]|]; try reflexivity.
  unfold differs_from.
  destruct (negb (String.eqb t "ping") && negb (String.eqb t "pong"));
    reflexivity.
Qed.

Lemma last_cons_default {A} (l : list A) (a d : A) :
  List.last (a :: l) d = List.last l a.
Proof.
  revert a d. induction l as [|b l IH]; intros a d; [reflexivity|].
  change (List.last (a :: b :: l) d) with (List.last (b :: l) d).
  now rewrite (IH b d), (IH b a).
Qed.

Lemma run_data (evs : list SocketEvent) :
  forall st, data (run evs st) = List.last (spec_snapshots evs) (data st).
Proof.
  unfold run.
  induction evs as [|ev evs IH]; intros st; [reflexivity|].
  cbn [fold_left]. rewrite IH.
  destruct ev as [ | parsed | | | ]; try reflexivity.
  cbn [handle]. rewrite onmessage_data.
  destruct parsed as [d|]; [|reflexivity].
  cbn [spec_snapshots]. destruct (spec_is_snapshot d); [|reflexivity].
  now rewrite last_cons_default.
Qed.

(** C6.  After any sequence of socket events the subscriber holds exactly
    the payload of the most recent message whose type is neither 'ping' nor
    'pong' (the value it started with when there was none): every such
    message replaces the held snapshot wholesale, nothing is queued, and a
    'ping' or 'pong' message leaves the held state as it was. *)
Theorem useWebSocket_last_value_wins :
  (forall (evs : list SocketEvent) (st : WebSocketState),
      data (run evs st) = List.last (spec_snapshots evs) (data st))
  /\ (forall (evs : list SocketEvent) (d : json) (st : WebSocketState),
         data (run (evs ++ [Message (Some d)]) st)
         = if spec_is_snapshot d then d else data (run evs st))
  /\ (forall (fields : gmap string json) (st : WebSocketState),
         onmessage (Some (JObject (<["type" := JString "ping"]> fields))) st = st
         /\ onmessage (Some (JObject (<["type" := JString "pong"]> fields))) st = st).
Proof.
  split; [exact (fun evs st => run_data evs st)|].
  split.
  - intros evs d st. unfold run. rewrite fold_left_app. cbn [fold_left handle].
    now rewrite onmessage_data.
  - intros fields st. unfold onmessage; cbn [get].
    rewrite !lookup_insert_eq. split; reflexivity.
Qed.

End WebSocketFacts.

Section SetupFacts.
Import JsNumber Json constants Effects Setup.

(** Unfolds the monad and the page's setters; calls into the hook and the
    requests stay folded. *)
Ltac step_page :=
  cbv beta iota zeta delta
    [handleStart handleExecutionNext bind ret throw try_catch try_finally eval
     get_page modify_page modify_hook emit navigate
     setStep setValidationError page hook log fst snd].

(** Unfolds the hook's functions too. *)
Ltac step_hook :=
  cbv beta iota zeta delta
    [bind ret throw try_catch try_finally eval
     get_page modify_page modify_hook emit fetch response_json
     useEngine.startEngine useEngine.checkOrphan useEngine.handleOrphan
     useEngine.setLoading useEngine.setError
     page hook log fst snd].

(** [startEngine] posts exactly one request, whatever the backend answers,
    and leaves the page's own state alone. *)
Lemma startEngine_effects {S} (config : useEngine.EngineConfig)
    (be : Backend) (w : World S) :
  exists r hk,
    useEngine.startEngine config be w
    = (r, {| page := page w; hook := hk;
             log := log w ++ [Fetched (useEngine.start_request config)] |}).
Proof.
  destruct w as [st hk lg]. step_hook.
  destruct (be lg _) as [|[|] [j|]]; cbn [negb]; step_hook;
    try (destruct (get j "detail")); eauto.
Qed.

(** [checkOrphan] always returns: a failed query reads as "no orphan". *)
Lemma checkOrphan_effects {S} (be : Backend) (w : World S) :
  exists j,
    useEngine.checkOrphan be w
    = (Returns j, {| page := page w; hook := hook w;
                     log := log w ++ [Fetched useEngine.orphan_request] |}).
Proof.
  destruct w as [st hk lg]. step_hook.
  destruct (be lg _) as [|ok [j|]]; step_hook; eauto.
Qed.

(** What [handleStart] can do once it is past the confirmation guard: it
    posts the start request first; the orphan query and the navigation to
    the dashboard follow, in this order, as far as nothing throws. *)
Lemma handleStart_past_guard (be : Backend) (w : World State) :
  is_LIVE (executionMode (page w))
    && negb (String.eqb (confirmText (page w)) "CONFIRM") = false ->
  exists rest,
    log (snd (handleStart be w))
      = log w ++ Fetched (useEngine.start_request (engine_config (page w))) :: rest
    /\ (rest = []
        \/ rest = [Fetched useEngine.orphan_request]
        \/ rest = [Fetched useEngine.orphan_request; Navigated "/dashboard"]).
Proof.
  destruct w as [st hk lg]; cbn [page hook log]; intros Hguard.
  step_page. rewrite Hguard.
  match goal with
  | |- context [useEngine.startEngine ?c ?b ?w0] =>
      destruct (startEngine_effects c b w0) as (r & hk' & ->)
  end.
  cbn [page log].
  destruct r as [started|e].
  - match goal with
    | |- context [useEngine.checkOrphan ?b ?w0] =>
        destruct (checkOrphan_effects b w0) as (orphan & ->)
    end.
    cbn [page hook log].
    destruct (get orphan "has_orphan") as [has_orphan|e].
    + exists [Fetched useEngine.orphan_request; Navigated "/dashboard"].
      split; [|now right; right].
      destruct (truthy has_orphan); cbn [log]; now rewrite <- !app_assoc.
    + exists [Fetched useEngine.orphan_request].
      split; [|now right; left].
      cbn [log]. now rewrite <- !app_assoc.
  - exists []. split; [reflexivity|now left].
Qed.

(** The start request names the execution mode it was built for. *)
Lemma start_request_mode (st : State) :
  (body (useEngine.start_request (engine_config st))
     ≫= at_path ["execution_mode"])
  = Some (JString (ExecutionMode_name (executionMode st))).
Proof.
  destruct st as [sp tok nm cap md em br dt dc ct ve].
  destruct br; vm_compute; reflexivity.
Qed.

(** [handleStart] never asks the backend to resolve an orphan. *)
Lemma handleStart_never_resolves (be : Backend) (w : World State)
    (action : useEngine.OrphanAction) (tradeData : option json) :
  In (Fetched (useEngine.orphan_recover_request action tradeData))
     (log (snd (handleStart be w))) ->
  In (Fetched (useEngine.orphan_recover_request action tradeData)) (log w).
Proof.
  destruct (is_LIVE (executionMode (page w))
            && negb (String.eqb (confirmText (page w)) "CONFIRM")) eqn:Hguard.
  - destruct w as [st hk lg]; cbn [page] in Hguard.
    step_page. rewrite Hguard. step_page. exact (fun H => H).
  - destruct (handleStart_past_guard be w Hguard) as (rest & -> & Hrest).
    rewrite in_app_iff. intros [H|H]; [exact H|exfalso].
    assert (Hurl : In (Some "/api/orphan/recover")
                      (List.map effect_url
                         (Fetched (useEngine.start_request (engine_config (page w)))
                          :: rest))).
    { apply (List.in_map effect_url) in H. exact H. }
    destruct Hrest as [-> | [-> | ->]]; vm_compute in Hurl;
      intuition discriminate.
Qed.

(** C8.  With execution mode LIVE and any confirmation text other than
    'CONFIRM', [handleStart] issues no request at all: it returns with the
    validation error set to 'Please type CONFIRM to enable live trading'
    and everything else (the step, the settings, the hook, the log) as it
    was.  With execution mode OFF or PAPER (whatever the confirmation text
    is), or with LIVE and 'CONFIRM', the first thing it does is to post the
    start request of the current settings.  The button of the confirm step
    that calls it is disabled for every other text. *)
Theorem handleStart_LIVE_requires_CONFIRM (be : Backend) (w : World State) :
  (executionMode (page w) = LIVE -> confirmText (page w) <> "CONFIRM" ->
     handleStart be w
     = (Returns tt,
        {| page := with_validationError
                     (Literal "Please type CONFIRM to enable live trading")
                     (page w);
           hook := hook w; log := log w |})
     /\ validationError (page (snd (handleStart be w)))
        = Literal "Please type CONFIRM to enable live trading"
     /\ page (snd (handleStart be w))
        = {| step := step (page w); token := token (page w);
             userName := userName (page w); capital := capital (page w);
             mode := mode (page w); executionMode := LIVE;
             broker := broker (page w); dhanToken := dhanToken (page w);
             dhanClientId := dhanClientId (page w);
             confirmText := confirmText (page w);
             validationError :=
               Literal "Please type CONFIRM to enable live trading" |}
     /\ log (snd (handleStart be w)) = log w
     /\ (forall r, In (Fetched r) (log (snd (handleStart be w)))
                   -> In (Fetched r) (log w)))
  /\ (executionMode (page w) <> LIVE \/ confirmText (page w) = "CONFIRM" ->
      exists rest,
        log (snd (handleStart be w))
        = log w ++ Fetched (useEngine.start_request (engine_config (page w)))
                   :: rest
        /\ (body (useEngine.start_request (engine_config (page w)))
              ≫= at_path ["execution_mode"])
           = Some (JString (ExecutionMode_name (executionMode (page w)))))
  /\ (confirmText (page w) <> "CONFIRM" ->
      confirm_button_disabled (hook w) (page w) = true).
Proof.
  split; [|split].
  - intros Hlive Htext.
    assert (Hrun : handleStart be w
      = (Returns tt,
         {| page := with_validationError
                      (Literal "Please type CONFIRM to enable live trading")
                      (page w);
            hook := hook w; log := log w |})).
    { destruct w as [st hk lg]; cbn [page hook log] in *.
      step_page. rewrite Hlive. cbn [is_LIVE andb].
      destruct (String.eqb_spec (confirmText st) "CONFIRM") as [E|_];
        [contradiction|reflexivity]. }
    rewrite Hrun. cbn [snd page log].
    split; [reflexivity|]. split; [reflexivity|].
    split; [unfold with_validationError; now rewrite Hlive|].
    split; [reflexivity|].
    intros r Hin. exact Hin.
  - intros Hstart.
    assert (Hguard : is_LIVE (executionMode (page w))
                     && negb (String.eqb (confirmText (page w)) "CONFIRM")
                     = false).
    { destruct Hstart as [Hmode | ->].
      - destruct (executionMode (page w)); [reflexivity|reflexivity|congruence].
      - apply andb_false_r. }
    destruct (handleStart_past_guard be w Hguard) as (rest & Hlog & _).
    exists rest. split; [exact Hlog|]. apply start_request_mode.
  - intros Htext. unfold confirm_button_disabled.
    destruct (String.eqb_spec (confirmText (page w)) "CONFIRM") as [E|_];
      [contradiction|apply orb_true_r].
Qed.

(** A LIVE start with a mistyped confirmation, and an OFF start with none. *)
Lemma handleStart_LIVE_requires_CONFIRM_witness :
  (handleStart backend_with_orphan (mounted operator_mistyped)
   = (Returns tt,
      {| page := with_validationError
                   (Literal "Please type CONFIRM to enable live trading")
                   (page (mounted operator_mistyped));
         hook := hook (mounted operator_mistyped);
         log := log (mounted operator_mistyped) |})
   /\ validationError
        (page (snd (handleStart backend_with_orphan (mounted operator_mistyped))))
      = Literal "Please type CONFIRM to enable live trading"
   /\ log (snd (handleStart backend_with_orphan (mounted operator_mistyped)))
      = [])
  /\ (exists rest,
       log (snd (handleStart backend_with_orphan (mounted operator_ready)))
       = log (mounted operator_ready)
         ++ Fetched (useEngine.start_request
                       (engine_config (page (mounted operator_ready))))
            :: rest
       /\ (body (useEngine.start_request
                   (engine_config (page (mounted operator_ready))))
             ≫= at_path ["execution_mode"])
          = Some (JString (ExecutionMode_name
                             (executionMode (page (mounted operator_ready))))))
  /\ confirm_button_disabled (hook (mounted operator_mistyped))
                             (page (mounted operator_mistyped)) = true.
Proof.
  split; [|split].
  - destruct (proj1 (handleStart_LIVE_requires_CONFIRM backend_with_orphan
                       (mounted operator_mistyped)))
      as (Hrun & Herr & _ & Hlog & _).
    + reflexivity.
    + cbn. discriminate.
    + split; [exact Hrun|]. split; [exact Herr|exact Hlog].
  - apply (proj1 (proj2 (handleStart_LIVE_requires_CONFIRM backend_with_orphan
                           (mounted operator_ready)))).
    left. cbn. discriminate.
  - apply (proj2 (proj2 (handleStart_LIVE_requires_CONFIRM backend_with_orphan
                           (mounted operator_mistyped)))).
    cbn. discriminate.
Defined.

(** C1 (what the start sequence does over a persisted open trade).  The
    page posts the start request first, queries the orphan status only
    afterwards, does nothing with the reported orphan and moves on to the
    dashboard: no request to resolve the orphan is ever issued. *)
Theorem handleStart_starts_before_orphan_is_resolved :
  log (snd (handleStart backend_with_orphan (mounted operator_ready)))
  = [Fetched (useEngine.start_request (engine_config operator_ready));
     Fetched useEngine.orphan_request;
     Navigated "/dashboard"]
  /\ (exists orphan,
        backend_with_orphan
          [Fetched (useEngine.start_request (engine_config operator_ready))]
          useEngine.orphan_request
        = Response true (Some orphan)
        /\ truthy (match get orphan "has_orphan" with
                   | Returns v => v
                   | Throws _ => None
                   end) = true)
  /\ step (page (snd (handleStart backend_with_orphan (mounted operator_ready))))
     = starting_step
  /\ (forall (be : Backend) (w : World State) action tradeData,
        In (Fetched (useEngine.orphan_recover_request action tradeData))
           (log (snd (handleStart be w))) ->
        In (Fetched (useEngine.orphan_recover_request action tradeData)) (log w)).
Proof.
  split; [now vm_compute|].
  split; [eexists; split; [reflexivity|now vm_compute]|].
  split; [now vm_compute|].
  exact handleStart_never_resolves.
Qed.

End SetupFacts.

Section OrphanFacts.
Import Json Effects useEngine.

(** [handleOrphan] issues its one request and never throws. *)
Lemma handleOrphan_effects {S} (action : OrphanAction) (tradeData : option json)
    (be : Backend) (w : World S) :
  exists r hk,
    handleOrphan action tradeData be w
    = (Returns r,
       {| page := page w; hook := hk;
          log := log w ++ [Fetched (orphan_recover_request action tradeData)] |}).
Proof.
  destruct w as [st hk lg].
  cbv beta iota zeta delta
    [bind ret throw try_catch eval modify_hook fetch response_json
     handleOrphan setError page hook log fst snd].
  destruct (be lg _) as [|ok [j|]]; eauto.
Qed.

(** C7.  Resolving an orphan takes one of exactly three actions, RECOVER,
    EXIT and IGNORE: the three are distinct, there is no fourth, and the
    request [handleOrphan] sends carries, in its [action] field, the name of
    the one action it was called with. *)
Theorem handleOrphan_three_actions :
  (forall a : OrphanAction, In a [RECOVER; EXIT; IGNORE])
  /\ List.NoDup (List.map OrphanAction_name [RECOVER; EXIT; IGNORE])
  /\ List.map OrphanAction_name [RECOVER; EXIT; IGNORE]
     = ["RECOVER"; "EXIT"; "IGNORE"]
  /\ (forall (a : OrphanAction) (tradeData : option json),
        exists fields,
          body (orphan_recover_request a tradeData) = Some (JObject fields)
          /\ fields !! "action" = Some (JString (OrphanAction_name a))
          /\ In (OrphanAction_name a) ["RECOVER"; "EXIT"; "IGNORE"])
  /\ (forall (a : OrphanAction) (tradeData : option json)
             (be : Backend) (w : World unit),
        log (snd (handleOrphan a tradeData be w))
        = log w ++ [Fetched (orphan_recover_request a tradeData)]).
Proof.
  split; [intros []; cbn; tauto|].
  split.
  { cbn [List.map OrphanAction_name].
    repeat (constructor; [cbn [In]; intros H; intuition discriminate|]).
    constructor. }
  split; [reflexivity|].
  split.
  - intros a tradeData. eexists. split; [reflexivity|].
    split; [destruct a, tradeData; now vm_compute|destruct a; cbn; tauto].
  - intros a tradeData be w.
    destruct (handleOrphan_effects a tradeData be w) as (r & hk & ->).
    reflexivity.
Qed.

End OrphanFacts.

Section DashboardFacts.
Import JsNumber constants Jsx Dashboard.

Lemma Qlt_bool_iff (a b : Q) : Qlt_bool a b = true <-> (a < b)%Q.
Proof.
  unfold Qlt_bool. rewrite Qlt_alt.
  destruct (a ?= b)%Q; split; congruence.
Qed.

(** C3.  The confluence catalogue is one list of seven distinct names; the
    CALL card and the PUT card both render one badge per entry of that same
    list, in its order; and each card's header shows its confluence count
    followed by the literal "/6", which is not the length of the catalogue. *)
Theorem confluence_catalogue_seven_displayed_over_six :
  List.length CONFLUENCE_FACTORS = 7%nat
  /\ List.NoDup CONFLUENCE_FACTORS
  /\ (forall d : Snapshot,
        List.map children (CALL_factors d)
        = List.map (fun factor => [Text factor]) CONFLUENCE_FACTORS
        /\ List.map children (PUT_factors d)
           = List.map (fun factor => [Text factor]) CONFLUENCE_FACTORS
        /\ List.map key (CALL_factors d) = List.map Some CONFLUENCE_FACTORS
        /\ List.map key (PUT_factors d) = List.map Some CONFLUENCE_FACTORS)
  /\ (forall d : Snapshot,
        children (CALL_badge d) = [Number (confluence_call d); Text "/6"]
        /\ children (PUT_badge d) = [Number (confluence_put d); Text "/6"])
  /\ "/6" <> String.append "/" (pretty (List.length CONFLUENCE_FACTORS)).
Proof.
  split; [reflexivity|].
  split.
  { unfold CONFLUENCE_FACTORS.
    repeat (constructor; [cbn [In]; intros H; intuition discriminate|]).
    constructor. }
  split.
  { intros d. unfold CALL_factors, PUT_factors.
    rewrite !List.map_map. cbn [children key Badge].
    repeat split; reflexivity. }
  split; [intros d; split; reflexivity|].
  vm_compute. discriminate.
Qed.


End DashboardFacts.

Section HistoryFacts.
Import JsNumber History.

Lemma lost_not_won (t : Trade) : lost t = negb (won t).
Proof.
  unfold lost, won.
  destruct (Qlt_bool 0 (pnl_rupees t)) eqn:E; cbn [negb].
  - apply Qlt_bool_iff in E.
    destruct (Qle_bool (pnl_rupees t) 0) eqn:L; [|reflexivity].
    apply Qle_bool_iff in L. exfalso. exact (Qlt_not_le _ _ E L).
  - apply Qle_bool_iff. apply Qnot_lt_le. intros H.
    apply Qlt_bool_iff in H. congruence.
Qed.

Lemma wins_losses_partition (l : list Trade) :
  (List.length (List.filter won l) + List.length (List.filter lost l)
   = List.length l)%nat.
Proof.
  rewrite (List.filter_ext lost (fun t => negb (won t)) lost_not_won).
  apply List.filter_length.
Qed.

Lemma keeps_of_breakeven (dateFilter : string) (t : Trade) :
  (pnl_rupees t == 0)%Q ->
  keeps wins dateFilter t = false
  /\ keeps losses dateFilter t
     = (String.eqb dateFilter "" || String.eqb (date t) dateFilter)
  /\ keeps all dateFilter t
     = (String.eqb dateFilter "" || String.eqb (date t) dateFilter).
Proof.
  intros Hzero.
  assert (Hle : Qle_bool (pnl_rupees t) 0 = true)
    by (apply Qle_bool_iff; rewrite Hzero; apply Qle_refl).
  assert (Hlt : Qlt_bool 0 (pnl_rupees t) = false).
  { apply not_true_iff_false. intros H. apply Qlt_bool_iff in H.
    rewrite Hzero in H. exact (Qlt_irrefl 0 H). }
  unfold keeps; cbn [is_wins is_losses andb]. rewrite Hle, Hlt.
  split; [reflexivity|].
  destruct (String.eqb dateFilter ""), (String.eqb (date t) dateFilter);
    split; reflexivity.
Qed.

(** C9.  For every list of loaded trades and every setting of the two
    filters, the win and loss counts of the statistics add up to the number
    of filtered trades.  A trade is counted as a win exactly when its rupee
    P&L is strictly positive and as a loss otherwise.  So a trade with P&L
    zero is counted as a loss and not as a win; it is never in the 'wins'
    view; and it is in the 'losses' view, as in the 'all' view, whenever it
    is loaded and the date filter lets it through.  The 'wins' view holds
    only trades with a positive P&L, the 'losses' view only trades
    without. *)
Theorem History_wins_losses_partition
    (trades : list Trade) (filter : Filter) (dateFilter : string) :
  (winsCount (stats (filteredTrades trades filter dateFilter))
   + lossesCount (stats (filteredTrades trades filter dateFilter))
   = totalTrades (stats (filteredTrades trades filter dateFilter)))%nat
  /\ totalTrades (stats (filteredTrades trades filter dateFilter))
     = List.length (filteredTrades trades filter dateFilter)
  /\ (forall t : Trade,
        (won t = true <-> (0 < pnl_rupees t)%Q)
        /\ (lost t = true <-> ~ (0 < pnl_rupees t)%Q))
  /\ (forall t : Trade,
        (pnl_rupees t == 0)%Q ->
        won t = false /\ lost t = true
        /\ winsCount (stats [t]) = 0%nat /\ lossesCount (stats [t]) = 1%nat
        /\ keeps wins dateFilter t = false
        /\ keeps losses dateFilter t
           = (String.eqb dateFilter "" || String.eqb (date t) dateFilter)
        /\ keeps losses dateFilter t = keeps all dateFilter t
        /\ ~ In t (filteredTrades trades wins dateFilter)
        /\ (In t trades -> dateFilter = "" \/ date t = dateFilter ->
            In t (filteredTrades trades losses dateFilter)
            /\ In t (filteredTrades trades all dateFilter)))
  /\ List.Forall (fun t => (0 < pnl_rupees t)%Q)
                 (filteredTrades trades wins dateFilter)
  /\ List.Forall (fun t => (pnl_rupees t <= 0)%Q)
                 (filteredTrades trades losses dateFilter).
Proof.
  split; [apply wins_losses_partition|].
  split; [reflexivity|].
  split.
  { intros t. split; [apply Qlt_bool_iff|].
    rewrite lost_not_won, negb_true_iff, <- not_true_iff_false.
    now rewrite (Qlt_bool_iff 0 (pnl_rupees t)). }
  split.
  { intros t Hzero.
    assert (Hwon : won t = false).
    { apply not_true_iff_false. intros H. apply Qlt_bool_iff in H.
      rewrite Hzero in H. exact (Qlt_irrefl 0 H). }
    assert (Hlost : lost t = true) by now rewrite lost_not_won, Hwon.
    destruct (keeps_of_breakeven dateFilter t Hzero) as (Hw & Hl & Ha).
    split; [exact Hwon|]. split; [exact Hlost|].
    split; [cbn [stats winsCount List.filter]; now rewrite Hwon|].
    split; [cbn [stats lossesCount List.filter]; now rewrite Hlost|].
    split; [exact Hw|]. split; [exact Hl|].
    split; [now rewrite Hl, Ha|].
    split.
    - unfold filteredTrades. rewrite List.filter_In. intros [_ H]. congruence.
    - intros Hin Hdate.
      assert (Hpass : (String.eqb dateFilter ""
                       || String.eqb (date t) dateFilter) = true).
      { destruct Hdate as [-> | ->].
        - reflexivity.
        - rewrite String.eqb_refl. apply orb_true_r. }
      unfold filteredTrades. rewrite !List.filter_In.
      rewrite Hl, Ha. auto. }
  split.
  - apply List.Forall_forall. intros t Hin.
    unfold filteredTrades in Hin. apply List.filter_In in Hin as [_ Hk].
    unfold keeps in Hk; cbn [is_wins is_losses andb] in Hk.
    destruct (Qle_bool (pnl_rupees t) 0) eqn:E; [discriminate|].
    now apply Qle_bool_false.
  - apply List.Forall_forall. intros t Hin.
    unfold filteredTrades in Hin. apply List.filter_In in Hin as [_ Hk].
    unfold keeps in Hk; cbn [is_wins is_losses andb] in Hk.
    destruct (Qlt_bool 0 (pnl_rupees t)) eqn:E; [discriminate|].
    apply Qnot_lt_le. intros H. apply Qlt_bool_iff in H. congruence.
Qed.

(** A trade closed at its entry price, with no date selected: the 'losses'
    view shows it, the 'wins' view does not, and the statistics count it as
    a loss. *)
Lemma History_wins_losses_partition_witness :
  won breakeven_trade = false /\ lost breakeven_trade = true
  /\ winsCount (stats [breakeven_trade]) = 0%nat
  /\ lossesCount (stats [breakeven_trade]) = 1%nat
  /\ keeps wins "" breakeven_trade = false
  /\ keeps losses "" breakeven_trade
     = (String.eqb "" "" || String.eqb (date breakeven_trade) "")
  /\ keeps losses "" breakeven_trade = keeps all "" breakeven_trade
  /\ ~ In breakeven_trade (filteredTrades [breakeven_trade] wins "")
  /\ (In breakeven_trade [breakeven_trade] ->
      "" = "" \/ date breakeven_trade = "" ->
      In breakeven_trade (filteredTrades [breakeven_trade] losses "")
      /\ In breakeven_trade (filteredTrades [breakeven_trade] all "")).
Proof.
  apply (proj1 (proj2 (proj2 (proj2
           (History_wins_losses_partition [breakeven_trade] all ""))))
           breakeven_trade).
  reflexivity.
Defined.

End HistoryFacts.

Section SettingsFacts.
Import JsNumber Json Settings.

(** Editing a field of the document itself touches only the copy. *)
Lemma updateValue_top_level (k : string) (v : value) (pg : Page)
    (c : nat) (o : gmap string value) :
  config (state pg) = Some c ->
  objects (store pg) !! c = Some o ->
  c <> next (store pg) ->
  exists pg',
    updateValue [k] v pg = Some pg'
    /\ config (state pg') = Some (next (store pg))
    /\ objects (store pg') !! next (store pg) = Some (<[k := v]> o)
    /\ objects (store pg') !! c = Some o.
Proof.
  intros Hc Ho Hfresh. unfold updateValue, spread. rewrite Hc, Ho.
  cbn [removelast descend List.last assign objects next].
  rewrite lookup_insert_eq. eexists. split; [reflexivity|].
  cbn [store state config objects].
  rewrite lookup_insert_eq.
  rewrite lookup_insert_ne by congruence.
  rewrite lookup_insert_ne by congruence.
  auto.
Qed.

(** Editing a field of a section writes into the section object, which the
    copy shares with the document it was copied from. *)
Lemma updateValue_nested_writes_shared (section k : string) (v : value)
    (pg : Page) (c l : nat) (o sec : gmap string value) :
  config (state pg) = Some c ->
  objects (store pg) !! c = Some o ->
  o !! section = Some (VRef l) ->
  objects (store pg) !! l = Some sec ->
  c <> next (store pg) ->
  l <> next (store pg) ->
  c <> l ->
  exists pg',
    updateValue [section; k] v pg = Some pg'
    /\ objects (store pg') !! c = Some o
    /\ objects (store pg') !! l = Some (<[k := v]> sec)
    /\ descend (store pg') (VRef c) [section; k] = Some v.
Proof.
  intros Hc Ho Hsec Hl Hcn Hfresh Hcl. unfold updateValue, spread. rewrite Hc, Ho.
  cbn [removelast descend List.last read assign objects next].
  rewrite lookup_insert_eq, Hsec.
  cbn [descend assign objects next].
  rewrite lookup_insert_ne by congruence. rewrite Hl.
  eexists. split; [reflexivity|].
  cbn [store objects descend read].
  assert (Hold : <[l:=<[k:=v]> sec]>
                   (<[next (store pg):=o]> (objects (store pg))) !! c = Some o).
  { rewrite lookup_insert_ne by congruence.
    now rewrite lookup_insert_ne by congruence. }
  rewrite Hold, Hsec. cbn [read objects].
  rewrite !lookup_insert_eq. auto.
Qed.

(** Saving sends the configuration as one document in one request. *)
Lemma handleSave_sends_whole_document (be : Effects.Backend)
    (w : Effects.World Page) (c : nat) (doc : json) :
  config (state (Effects.page w)) = Some c ->
  document (S (next (store (Effects.page w)))) (store (Effects.page w)) (VRef c)
    = Some doc ->
  Effects.log (snd (handleSave be w))
  = Effects.log w ++ [Effects.Fetched (useEngine.update_config_request doc)].
Proof.
  destruct w as [pg hk lg]; cbn [Effects.page Effects.log]; intros Hc Hdoc.
  cbv beta iota zeta delta
    [handleSave Effects.bind Effects.get_page Effects.page].
  rewrite Hc, Hdoc.
  cbv beta iota zeta delta
    [Effects.bind Effects.ret Effects.throw Effects.try_catch
     Effects.modify_hook Effects.modify_page Effects.fetch
     Effects.response_json useEngine.updateConfig useEngine.setError setSaved
     Effects.page Effects.hook Effects.log fst snd].
  destruct (be lg _) as [|ok [j|]]; try reflexivity.
  destruct (truthy (Some j)); reflexivity.
Qed.

(** C5 (an edit of a field inside a section).  On a loaded configuration,
    setting RISK.max_trades_per_day to 5 gives the page a new top-level
    object, but the RISK section of the configuration held before is the
    same object as that of the new one, and the write lands in it: read
    through the old reference, the field was 3 before the edit and is 5
    after it.  An edit of a top-level field leaves the old document alone. *)
Theorem updateValue_mutates_shared_section :
  config (state loaded_page) = Some 0%nat
  /\ (config ∘ state <$>
        updateValue ["RISK"; "max_trades_per_day"] (VNumber (Finite 5)) loaded_page)
     = Some (Some 5%nat)
  /\ descend (store loaded_page) (VRef 0) ["RISK"; "max_trades_per_day"]
     = Some (VNumber (Finite 3))
  /\ (updateValue ["RISK"; "max_trades_per_day"] (VNumber (Finite 5)) loaded_page
        ≫= fun pg' =>
             descend (store pg') (VRef 0) ["RISK"; "max_trades_per_day"])
     = Some (VNumber (Finite 5))
  /\ (updateValue ["RISK"; "max_trades_per_day"] (VNumber (Finite 5)) loaded_page
        ≫= fun pg' => descend (store pg') (VRef 0) ["RISK"])
     = (updateValue ["RISK"; "max_trades_per_day"] (VNumber (Finite 5)) loaded_page
          ≫= fun pg' => descend (store pg') (VRef 5) ["RISK"])
  /\ (document 6 (store loaded_page) (VRef 0)
        ≫= at_path ["RISK"; "max_trades_per_day"]) = Some (JNumber 3)
  /\ (updateValue ["RISK"; "max_trades_per_day"] (VNumber (Finite 5)) loaded_page
        ≫= fun pg' => document 6 (store pg') (VRef 0)
        ≫= at_path ["RISK"; "max_trades_per_day"]) = Some (JNumber 5)
  /\ (updateValue ["ACTIVE_MODE"] (VString "STRICT") loaded_page
        ≫= fun pg' => document 6 (store pg') (VRef 0))
     = document 6 (store loaded_page) (VRef 0).
Proof.
  do 7 (split; [vm_compute; reflexivity|]).
  vm_compute; reflexivity.
Qed.

End SettingsFacts.

Section ExitPolicyFacts.
Import ExitPolicy.





End ExitPolicyFacts.

(* ===================================================================== *)
(** * Part III: further properties of the console's code                  *)
(* ===================================================================== *)

Section HookFacts.
Import JsNumber Json constants Effects useEngine.

(** Unfolds the monad and every call of the hook; requests stay folded. *)
Ltac run_hook :=
  cbv beta iota zeta delta
    [bind ret throw try_catch try_finally eval
     get_page modify_page modify_hook emit fetch response_json
     startEngine checkOrphan handleOrphan getConfig updateConfig validateDhan
     validateToken stopEngine requestExit emergencyExit cycleMode setMode
     exitTrade getTrades setLoading setError
     page hook log fst snd loading hook_error].

(** X1.  [startEngine] posts exactly one request, leaves the page alone and
    always lowers the loading flag.  It returns the answer only when the
    response is ok and its body is JSON; every other outcome throws, and
    what is thrown is what the hook stores as its error.  For a rejection
    whose body is a JSON document this is the backend's [detail] when the
    document carries a truthy one and 'Failed to start engine' when it
    carries none.  When the request does not reach the server, when the
    body is not JSON (a rejection included) or when the rejection's body is
    [null], it is the exception the engine raised, with the engine's own
    message. *)
Theorem startEngine_outcome {S} (config : EngineConfig)
    (be : Backend) (w : World S) :
  let out := startEngine config be w in
  page (snd out) = page w
  /\ log (snd out) = log w ++ [Fetched (start_request config)]
  /\ loading (hook (snd out)) = false
  /\ match be (log w) (start_request config) with
     | Response true (Some j) =>
         fst out = Returns j /\ hook_error (hook (snd out)) = None
     | Response false (Some JNull) =>
         fst out = Throws (Engine (TypeError_property_of_null "detail"))
         /\ hook_error (hook (snd out))
            = Some (Engine (TypeError_property_of_null "detail"))
     | Response false (Some j) =>
         exists detail,
           get j "detail" = Returns detail
           /\ fst out
              = Throws (if truthy detail
                        then text_of (default JNull detail)
                        else Literal "Failed to start engine")
           /\ hook_error (hook (snd out))
              = Some (if truthy detail
                      then text_of (default JNull detail)
                      else Literal "Failed to start engine")
     | Response _ None =>
         fst out = Throws (Engine SyntaxError_not_JSON)
         /\ hook_error (hook (snd out)) = Some (Engine SyntaxError_not_JSON)
     | NetworkFailure =>
         fst out = Throws (Engine TypeError_fetch_failed)
         /\ hook_error (hook (snd out)) = Some (Engine TypeError_fetch_failed)
     end.
Proof.
  destruct w as [st hk lg]. run_hook.
  destruct (be lg _) as [|[|] [j|]]; cbn [negb]; run_hook; auto.
  destruct j as [ | b | q | t | items | fields]; cbn [get]; run_hook; auto;
    do 3 (split; [reflexivity|]);
    try (exists None; repeat split; reflexivity).
  exists (fields !! "detail"). split; [reflexivity|].
  unfold or_else.
  destruct (fields !! "detail") as [d|]; [|auto].
  destruct (truthy (Some d)); auto.
Qed.

(** X2.  [checkOrphan] never throws, records no error and does not look at
    the status of the response.  When the query fails, or its body is not
    JSON, the answer it hands back says [has_orphan: false]: a failed orphan
    query reads exactly like "no orphan". *)
Theorem checkOrphan_fails_open {S} (be : Backend) (w : World S) :
  match be (log w) orphan_request with
  | Response _ (Some j) =>
      checkOrphan be w
      = (Returns j, {| page := page w; hook := hook w;
                       log := log w ++ [Fetched orphan_request] |})
  | _ =>
      exists j,
        checkOrphan be w
        = (Returns j, {| page := page w; hook := hook w;
                         log := log w ++ [Fetched orphan_request] |})
        /\ get j "has_orphan" = Returns (Some (JBool false))
  end.
Proof.
  destruct w as [st hk lg]. run_hook.
  destruct (be lg _) as [|ok [j|]]; run_hook; eauto.
Qed.

Lemma quiet_cases {S A} (call : M S A) (r : Request) :
  (forall be st hk lg,
      exists a hk',
        call be {| page := st; hook := hk; log := lg |}
        = (Returns a, {| page := st; hook := hk'; log := lg ++ [Fetched r] |})) ->
  quiet call r.
Proof. intros H be [st hk lg]. apply H. Qed.

(** X3.  Apart from [startEngine], no call of the hook can throw: a network
    failure, an error status or a body that is not JSON all end in a value
    handed back, after exactly one request.  The caller learns of a failure
    only from the value ([undefined], an empty array, [valid: false],
    [has_orphan: false]) or from the hook's error. *)
Theorem hook_calls_never_throw {S} :
  (forall t, quiet (S := S) (validateToken t) (validate_token_request t))
  /\ (forall a c e,
        quiet (S := S) (validateDhan a c e) (validate_dhan_request a c e))
  /\ quiet (S := S) stopEngine stop_request
  /\ quiet (S := S) requestExit exit_request
  /\ quiet (S := S) exitTrade exit_request
  /\ quiet (S := S) emergencyExit emergency_exit_request
  /\ quiet (S := S) cycleMode cycle_mode_request
  /\ (forall m, quiet (S := S) (setMode m) (set_mode_request m))
  /\ quiet (S := S) getConfig config_request
  /\ (forall c, quiet (S := S) (updateConfig c) (update_config_request c))
  /\ quiet (S := S) checkOrphan orphan_request
  /\ (forall a d,
        quiet (S := S) (handleOrphan a d) (orphan_recover_request a d))
  /\ quiet (S := S) getTrades trades_request.
Proof.
  repeat split; intros; apply quiet_cases; intros be st hk lg; run_hook;
    destruct (be lg _) as [|ok [j|]]; run_hook; eauto.
Qed.

End HookFacts.

Section SetupStepsFacts.
Import JsNumber Json constants Effects Setup.

Ltac run_page :=
  cbv beta iota zeta delta
    [handleStart handleExecutionNext handleBrokerNext handleValidateToken
     handleConfigNext bind ret throw try_catch try_finally eval
     get_page modify_page modify_hook emit navigate
     setStep setValidationError setUserName page hook log fst snd].

Ltac run_calls :=
  cbv beta iota zeta delta
    [bind ret throw try_catch try_finally eval
     get_page modify_page modify_hook emit fetch response_json
     useEngine.startEngine useEngine.checkOrphan useEngine.getConfig
     useEngine.validateDhan useEngine.validateToken
     useEngine.setLoading useEngine.setError
     page hook log fst snd].

(** What a call of the hook hands back, what it does to the hook and what it
    sends do not depend on the state of the page. *)
Lemma startEngine_frame {S} (config : useEngine.EngineConfig)
    (be : Backend) (hk : HookState) (lg : list Effect) :
  exists r hk', forall p : S,
    useEngine.startEngine config be {| page := p; hook := hk; log := lg |}
    = (r, {| page := p; hook := hk';
             log := lg ++ [Fetched (useEngine.start_request config)] |}).
Proof.
  run_calls.
  destruct (be lg _) as [|[|] [j|]]; cbn [negb]; run_calls;
    try (destruct (get j "detail")); eauto.
Qed.

Lemma checkOrphan_frame {S} (be : Backend) (hk : HookState) (lg : list Effect) :
  exists j, forall p : S,
    useEngine.checkOrphan be {| page := p; hook := hk; log := lg |}
    = (Returns j, {| page := p; hook := hk;
                     log := lg ++ [Fetched useEngine.orphan_request] |}).
Proof.
  run_calls. destruct (be lg _) as [|ok [j|]]; run_calls; eauto.
Qed.

Lemma getConfig_frame {S} (be : Backend) (hk : HookState) (lg : list Effect) :
  exists c hk', forall p : S,
    useEngine.getConfig be {| page := p; hook := hk; log := lg |}
    = (Returns c, {| page := p; hook := hk';
                     log := lg ++ [Fetched useEngine.config_request] |}).
Proof.
  run_calls. destruct (be lg _) as [|ok [j|]]; run_calls; eauto.
Qed.

Lemma validateDhan_frame {S} (a c : string) (e : json)
    (be : Backend) (hk : HookState) (lg : list Effect) :
  exists j hk', forall p : S,
    useEngine.validateDhan a c e be {| page := p; hook := hk; log := lg |}
    = (Returns j, {| page := p; hook := hk';
                     log := lg ++ [Fetched (useEngine.validate_dhan_request a c e)] |}).
Proof.
  run_calls. destruct (be lg _) as [|ok [j|]]; run_calls; eauto.
Qed.

(** The answer [validateToken] and [validateDhan] make up when the request
    fails. *)
Lemma offline_answer_valid :
  get (object [("valid", Some (JBool false));
               ("message", Some (JString "Network error"))]) "valid"
  = Returns (Some (JBool false)).
Proof. vm_compute; reflexivity. Qed.

Lemma offline_answer_message :
  get (object [("valid", Some (JBool false));
               ("message", Some (JString "Network error"))]) "message"
  = Returns (Some (JString "Network error")).
Proof. vm_compute; reflexivity. Qed.

Lemma guard_open (st : State) :
  executionMode st <> LIVE \/ confirmText st = "CONFIRM" ->
  is_LIVE (executionMode st) && negb (String.eqb (confirmText st) "CONFIRM")
  = false.
Proof.
  intros [Hmode | ->]; [|apply andb_false_r].
  destruct (executionMode st); [reflexivity|reflexivity|congruence].
Qed.

(** X4.  [handleStart] itself never throws.  Past the confirmation guard it
    ends in one of two ways: on the 'starting' step, after the start
    request, the orphan query and the navigation to the dashboard; or back
    on the 'execution' step without having navigated, when the start
    request failed or the orphan answer could not be read.  Nothing else of
    the page's state changes. *)
Theorem handleStart_outcome (be : Backend) (w : World State) :
  fst (handleStart be w) = Returns tt
  /\ (executionMode (page w) <> LIVE \/ confirmText (page w) = "CONFIRM" ->
      (page (snd (handleStart be w)) = with_step starting_step (page w)
       /\ log (snd (handleStart be w))
          = log w ++ [Fetched (useEngine.start_request (engine_config (page w)));
                      Fetched useEngine.orphan_request;
                      Navigated "/dashboard"])
      \/ (page (snd (handleStart be w)) = with_step execution_step (page w)
          /\ (log (snd (handleStart be w))
              = log w ++ [Fetched (useEngine.start_request
                                     (engine_config (page w)))]
              \/ log (snd (handleStart be w))
                 = log w ++ [Fetched (useEngine.start_request
                                        (engine_config (page w)));
                             Fetched useEngine.orphan_request]))).
Proof.
  destruct w as [st hk lg]; cbn [page log].
  destruct (is_LIVE (executionMode st)
            && negb (String.eqb (confirmText st) "CONFIRM")) eqn:Hguard.
  - split.
    + run_page. now rewrite Hguard.
    + intros Hopen. rewrite (guard_open st Hopen) in Hguard. discriminate.
  - assert (Hrun :
      fst (handleStart be {| page := st; hook := hk; log := lg |}) = Returns tt
      /\ ((page (snd (handleStart be {| page := st; hook := hk; log := lg |}))
           = with_step starting_step st
           /\ log (snd (handleStart be {| page := st; hook := hk; log := lg |}))
              = lg ++ [Fetched (useEngine.start_request (engine_config st));
                       Fetched useEngine.orphan_request;
                       Navigated "/dashboard"])
          \/ (page (snd (handleStart be {| page := st; hook := hk; log := lg |}))
              = with_step execution_step st
              /\ (log (snd (handleStart be {| page := st; hook := hk; log := lg |}))
                  = lg ++ [Fetched (useEngine.start_request (engine_config st))]
                  \/ log (snd (handleStart be {| page := st; hook := hk; log := lg |}))
                     = lg ++ [Fetched (useEngine.start_request (engine_config st));
                              Fetched useEngine.orphan_request])))).
    { run_page. rewrite Hguard.
      destruct (startEngine_frame (S := State) (engine_config st) be hk lg)
        as (r & hk' & Hstart).
      rewrite Hstart. destruct r as [started|e].
      - destruct (checkOrphan_frame (S := State) be hk'
                    (lg ++ [Fetched (useEngine.start_request (engine_config st))]))
          as (orphan & Horphan).
        rewrite Horphan.
        destruct (get orphan "has_orphan") as [has_orphan|e].
        + destruct (truthy has_orphan); cbn [fst snd page log];
            (split; [reflexivity|left; split; [reflexivity|]]);
            now rewrite <- !app_assoc.
        + cbn [fst snd page log]. split; [reflexivity|right].
          split; [reflexivity|right]. now rewrite <- !app_assoc.
      - cbn [fst snd page log]. split; [reflexivity|right].
        split; [reflexivity|now left]. }
    destruct Hrun as [Hret Hways]. split; [exact Hret|intros _; exact Hways].
Qed.

(** The operator of the restart scenario, over the backend that reports an
    orphan. *)
Lemma handleStart_outcome_witness :
  (page (snd (handleStart backend_with_orphan (mounted operator_ready)))
   = with_step starting_step (page (mounted operator_ready))
   /\ log (snd (handleStart backend_with_orphan (mounted operator_ready)))
      = log (mounted operator_ready)
        ++ [Fetched (useEngine.start_request
                       (engine_config (page (mounted operator_ready))));
            Fetched useEngine.orphan_request;
            Navigated "/dashboard"])
  \/ (page (snd (handleStart backend_with_orphan (mounted operator_ready)))
      = with_step execution_step (page (mounted operator_ready))
      /\ (log (snd (handleStart backend_with_orphan (mounted operator_ready)))
          = log (mounted operator_ready)
            ++ [Fetched (useEngine.start_request
                           (engine_config (page (mounted operator_ready))))]
          \/ log (snd (handleStart backend_with_orphan (mounted operator_ready)))
             = log (mounted operator_ready)
               ++ [Fetched (useEngine.start_request
                              (engine_config (page (mounted operator_ready))));
                   Fetched useEngine.orphan_request])).
Proof.
  apply (proj2 (handleStart_outcome backend_with_orphan (mounted operator_ready))).
  left. cbn. discriminate.
Defined.

(** X5.  When the engine has started but the orphan query is answered by
    the document [null], reading [has_orphan] throws inside the [try] of
    [handleStart]: the page falls back to the 'execution' step without
    navigating and without any error recorded, although the start request
    succeeded. *)
Theorem handleStart_unreadable_orphan (be : Backend) (w : World State)
    (started : json) (ok : bool) :
  executionMode (page w) <> LIVE \/ confirmText (page w) = "CONFIRM" ->
  be (log w) (useEngine.start_request (engine_config (page w)))
    = Response true (Some started) ->
  be (log w ++ [Fetched (useEngine.start_request (engine_config (page w)))])
     useEngine.orphan_request
    = Response ok (Some JNull) ->
  handleStart be w
  = (Returns tt,
     {| page := with_step execution_step (page w);
        hook := {| loading := false; hook_error := None |};
        log := log w ++ [Fetched (useEngine.start_request (engine_config (page w)));
                         Fetched useEngine.orphan_request] |}).
Proof.
  destruct w as [st hk lg]; cbn [page log]. intros Hopen Hstart Horphan.
  run_page. rewrite (guard_open st Hopen).
  run_calls. rewrite Hstart. cbn [negb]. run_calls. rewrite Horphan.
  run_calls. now rewrite <- app_assoc.
Qed.

Lemma handleStart_unreadable_orphan_witness :
  handleStart backend_null_orphan (mounted operator_ready)
  = (Returns tt,
     {| page := with_step execution_step (page (mounted operator_ready));
        hook := {| loading := false; hook_error := None |};
        log := log (mounted operator_ready)
               ++ [Fetched (useEngine.start_request
                              (engine_config (page (mounted operator_ready))));
                   Fetched useEngine.orphan_request] |}).
Proof.
  apply (handleStart_unreadable_orphan backend_null_orphan
           (mounted operator_ready)
           (object [("status", Some (JString "started"))]) true).
  - left. cbn. discriminate.
  - reflexivity.
  - reflexivity.
Defined.

(** X6.  The signal mode picked on the config step plays no part in the
    start: the start request has no field for it, and [handleStart] returns
    the same, sends the same and leaves the hook the same whatever the mode
    is. *)
Theorem handleStart_ignores_mode (be : Backend) (st : State)
    (hk : HookState) (lg : list Effect) (m : Mode) :
  (body (useEngine.start_request (engine_config st)) ≫= at_path ["mode"]) = None
  /\ useEngine.start_request (engine_config (with_mode m st))
     = useEngine.start_request (engine_config st)
  /\ fst (handleStart be {| page := with_mode m st; hook := hk; log := lg |})
     = fst (handleStart be {| page := st; hook := hk; log := lg |})
  /\ hook (snd (handleStart be {| page := with_mode m st; hook := hk; log := lg |}))
     = hook (snd (handleStart be {| page := st; hook := hk; log := lg |}))
  /\ log (snd (handleStart be {| page := with_mode m st; hook := hk; log := lg |}))
     = log (snd (handleStart be {| page := st; hook := hk; log := lg |})).
Proof.
  split.
  { destruct st as [sp tok nm cap md em br dt dc ct ve].
    destruct br; vm_compute; reflexivity. }
  split; [reflexivity|].
  run_page.
  change (executionMode (with_mode m st)) with (executionMode st).
  change (confirmText (with_mode m st)) with (confirmText st).
  change (engine_config (with_mode m st)) with (engine_config st).
  destruct (is_LIVE (executionMode st)
            && negb (String.eqb (confirmText st) "CONFIRM"));
    [repeat split|].
  destruct (startEngine_frame (S := State) (engine_config st) be hk lg)
    as (r & hk' & Hstart).
  rewrite !Hstart. destruct r as [started|e]; [|repeat split].
  destruct (checkOrphan_frame (S := State) be hk'
              (lg ++ [Fetched (useEngine.start_request (engine_config st))]))
    as (orphan & Horphan).
  rewrite !Horphan.
  destruct (get orphan "has_orphan") as [has_orphan|e]; [|repeat split].
  destruct (truthy has_orphan); repeat split.
Qed.

(** X7.  With execution mode LIVE neither of the two 'Next' handlers posts
    the start request: [handleExecutionNext] only moves to the broker step,
    and [handleBrokerNext] ends on the confirm step or where it was.  The
    start request of a LIVE session can only come from [handleStart]. *)
Theorem LIVE_is_not_started_by_Next (be : Backend) (w : World State) :
  executionMode (page w) = LIVE ->
  handleExecutionNext be w
  = (Returns tt,
     {| page := with_step broker_step (page w); hook := hook w; log := log w |})
  /\ exists rest,
       log (snd (handleBrokerNext be w)) = log w ++ rest
       /\ ~ In (Some "/api/engine/start") (List.map effect_url rest)
       /\ (page (snd (handleBrokerNext be w)) = with_step confirm_step (page w)
           \/ step (page (snd (handleBrokerNext be w))) = step (page w)).
Proof.
  destruct w as [st hk lg]; cbn [page hook log]. intros Hlive. split.
  { run_page. now rewrite Hlive. }
  run_page. rewrite Hlive. cbn [is_LIVE].
  destruct (is_DHAN (broker st)).
  2:{ exists []. rewrite app_nil_r. cbn [snd log page]. auto. }
  destruct (String.eqb (dhanToken st) "" || String.eqb (dhanClientId st) "").
  { exists []. rewrite app_nil_r. cbn [snd log page]. auto. }
  destruct (getConfig_frame (S := State) be hk lg) as (c & hk1 & Hconfig).
  rewrite Hconfig.
  match goal with
  | |- context [useEngine.validateDhan ?a ?i ?e be ?w0] =>
      destruct (validateDhan_frame (S := State) a i e be hk1
                  (lg ++ [Fetched useEngine.config_request]))
        as (result & hk2 & Hvalidate);
      rewrite Hvalidate;
      exists [Fetched useEngine.config_request;
              Fetched (useEngine.validate_dhan_request a i e)]
  end.
  assert (Hurls : forall a i e,
            ~ In (Some "/api/engine/start")
                 (List.map effect_url
                    [Fetched useEngine.config_request;
                     Fetched (useEngine.validate_dhan_request a i e)])).
  { intros a i e [H|[H|[]]]; vm_compute in H; discriminate. }
  destruct (get result "valid") as [valid|e];
    [destruct (truthy valid); cbn [negb];
     [|destruct (get result "message") as [message|e]]|];
    cbn [fst snd page log step with_validationError];
    rewrite <- ?app_assoc; auto.
Qed.

Lemma LIVE_is_not_started_by_Next_witness :
  handleExecutionNext backend_with_orphan (mounted operator_mistyped)
  = (Returns tt,
     {| page := with_step broker_step (page (mounted operator_mistyped));
        hook := hook (mounted operator_mistyped);
        log := log (mounted operator_mistyped) |})
  /\ exists rest,
       log (snd (handleBrokerNext backend_with_orphan (mounted operator_mistyped)))
       = log (mounted operator_mistyped) ++ rest
       /\ ~ In (Some "/api/engine/start") (List.map effect_url rest)
       /\ (page (snd (handleBrokerNext backend_with_orphan
                        (mounted operator_mistyped)))
           = with_step confirm_step (page (mounted operator_mistyped))
           \/ step (page (snd (handleBrokerNext backend_with_orphan
                                 (mounted operator_mistyped))))
              = step (page (mounted operator_mistyped))).
Proof.
  apply (LIVE_is_not_started_by_Next backend_with_orphan
           (mounted operator_mistyped)).
  reflexivity.
Defined.

(** X8.  With broker DHAN, [handleBrokerNext] goes on only past the
    credential check.  With the token or the client id empty it sends
    nothing and asks for the credentials.  When the validation request
    itself fails, the failure counts as "not valid": the page shows
    'Network error', stays on its step and posts no start request, and the
    hook records 'Failed to validate DHAN credentials'. *)
Theorem handleBrokerNext_DHAN_gate (be : Backend) (w : World State) :
  broker (page w) = DHAN ->
  (dhanToken (page w) = "" \/ dhanClientId (page w) = "" ->
   handleBrokerNext be w
   = (Returns tt,
      {| page := with_validationError (Literal "Please enter DHAN credentials")
                   (page w);
         hook := hook w; log := log w |}))
  /\ (dhanToken (page w) <> "" -> dhanClientId (page w) <> "" ->
      (forall lg r, url r = "/api/validate-dhan" -> be lg r = NetworkFailure) ->
      exists expiry,
        handleBrokerNext be w
        = (Returns tt,
           {| page := with_validationError (Literal "Network error") (page w);
              hook := {| loading := false;
                         hook_error :=
                           Some (Literal "Failed to validate DHAN credentials") |};
              log := log w
                     ++ [Fetched useEngine.config_request;
                         Fetched (useEngine.validate_dhan_request
                                    (dhanToken (page w)) (dhanClientId (page w))
                                    expiry)] |})).
Proof.
  destruct w as [st hk lg]; cbn [page hook log]. intros Hdhan. split.
  - intros Hempty. run_page. rewrite Hdhan. cbn [is_DHAN].
    replace (String.eqb (dhanToken st) "" || String.eqb (dhanClientId st) "")
      with true; [reflexivity|].
    symmetry. apply orb_true_iff.
    destruct Hempty as [-> | ->]; [left|right]; reflexivity.
  - intros Htoken Hclient Hdown. run_page. rewrite Hdhan. cbn [is_DHAN].
    replace (String.eqb (dhanToken st) "" || String.eqb (dhanClientId st) "")
      with false.
    2:{ symmetry. apply orb_false_iff.
        split; apply String.eqb_neq; assumption. }
    destruct (getConfig_frame (S := State) be hk lg) as (c & hk1 & Hconfig).
    rewrite Hconfig.
    exists (useEngine.or_else (optional_get c "EXPIRY") (JString "")).
    run_calls.
    rewrite (Hdown (lg ++ [Fetched useEngine.config_request])
               (useEngine.validate_dhan_request (dhanToken st) (dhanClientId st)
                  (useEngine.or_else (optional_get c "EXPIRY") (JString "")))
               eq_refl).
    run_calls. rewrite offline_answer_valid. cbn [truthy negb].
    rewrite offline_answer_message.
    cbn [truthy negb useEngine.or_else useEngine.text_of String.eqb Ascii.eqb
         Bool.eqb].
    now rewrite <- app_assoc.
Qed.

Lemma handleBrokerNext_DHAN_gate_witness :
  (exists expiry,
     handleBrokerNext backend_down (mounted operator_dhan)
     = (Returns tt,
        {| page := with_validationError (Literal "Network error")
                     (page (mounted operator_dhan));
           hook := {| loading := false;
                      hook_error :=
                        Some (Literal "Failed to validate DHAN credentials") |};
           log := log (mounted operator_dhan)
                  ++ [Fetched useEngine.config_request;
                      Fetched (useEngine.validate_dhan_request
                                 (dhanToken (page (mounted operator_dhan)))
                                 (dhanClientId (page (mounted operator_dhan)))
                                 expiry)] |}))
  /\ handleBrokerNext backend_down
       (mounted (with_validationError (Literal "") operator_dhan_blank))
     = (Returns tt,
        {| page := with_validationError (Literal "Please enter DHAN credentials")
                     (page (mounted (with_validationError (Literal "")
                                       operator_dhan_blank)));
           hook := hook (mounted (with_validationError (Literal "")
                                    operator_dhan_blank));
           log := log (mounted (with_validationError (Literal "")
                                  operator_dhan_blank)) |}).
Proof.
  split.
  - apply (proj2 (handleBrokerNext_DHAN_gate backend_down (mounted operator_dhan)
                    eq_refl)).
    + cbn. discriminate.
    + cbn. discriminate.
    + reflexivity.
  - apply (proj1 (handleBrokerNext_DHAN_gate backend_down
                    (mounted (with_validationError (Literal "")
                                operator_dhan_blank))
                    eq_refl)).
    right. reflexivity.
Defined.

(** X9.  [handleValidateToken] sends nothing for a token that is empty or
    all white space.  Otherwise it sends one request and moves on to the
    config step, with the error cleared and the user named (by 'User' when
    the answer names nobody), only if the answer's [valid] is truthy,
    whatever the status of the response.  An answer that is not valid leaves
    the step alone and shows the answer's message, or 'Invalid token'; a
    request that fails shows 'Network error'. *)
Theorem handleValidateToken_outcome (String_of : json -> string)
    (be : Backend) (w : World State) :
  (trims_to_empty (token (page w)) = true ->
   handleValidateToken String_of be w
   = (Returns tt,
      {| page := with_validationError
                   (Literal "Please enter your Upstox access token") (page w);
         hook := hook w; log := log w |}))
  /\ (trims_to_empty (token (page w)) = false ->
      be (log w) (useEngine.validate_token_request (token (page w)))
        = NetworkFailure ->
      handleValidateToken String_of be w
      = (Returns tt,
         {| page := with_validationError (Literal "Network error") (page w);
            hook := {| loading := false;
                       hook_error := Some (Literal "Failed to validate token") |};
            log := log w ++ [Fetched (useEngine.validate_token_request
                                        (token (page w)))] |}))
  /\ (forall (ok : bool) (answer : json) (valid : option json),
        trims_to_empty (token (page w)) = false ->
        be (log w) (useEngine.validate_token_request (token (page w)))
          = Response ok (Some answer) ->
        get answer "valid" = Returns valid ->
        exists user_name message,
          get answer "user_name" = Returns user_name
          /\ get answer "message" = Returns message
          /\ handleValidateToken String_of be w
             = (Returns tt,
                {| page :=
                     if truthy valid
                     then with_step config_step
                            (with_validationError (Literal "")
                               (with_userName
                                  (shown_as String_of
                                     (useEngine.or_else user_name (JString "User")))
                                  (page w)))
                     else with_validationError
                            (useEngine.text_of
                               (useEngine.or_else message (JString "Invalid token")))
                            (page w);
                   hook := {| loading := false; hook_error := None |};
                   log := log w ++ [Fetched (useEngine.validate_token_request
                                               (token (page w)))] |})).
Proof.
  destruct w as [st hk lg]; cbn [page hook log].
  split; [|split].
  - intros Hblank. run_page. now rewrite Hblank.
  - intros Htoken Hdown. run_page. rewrite Htoken. run_calls. rewrite Hdown.
    run_calls. rewrite offline_answer_valid. cbn [truthy].
    rewrite offline_answer_message.
    cbn [truthy negb useEngine.or_else useEngine.text_of String.eqb Ascii.eqb
         Bool.eqb].
    reflexivity.
  - intros ok answer valid Htoken Hanswer Hvalid.
    assert (Hobj : exists user_name message,
               get answer "user_name" = Returns user_name
               /\ get answer "message" = Returns message).
    { destruct answer; try discriminate Hvalid; cbn [get]; eauto. }
    destruct Hobj as (user_name & message & Huser & Hmessage).
    exists user_name, message. split; [exact Huser|]. split; [exact Hmessage|].
    run_page. rewrite Htoken. run_calls. rewrite Hanswer. run_calls.
    rewrite Hvalid. destruct (truthy valid).
    + rewrite Huser. reflexivity.
    + rewrite Hmessage. reflexivity.
Qed.

Lemma handleValidateToken_outcome_witness :
  handleValidateToken (fun _ => "?") backend_down
    (mounted (with_userName "" initial))
  = (Returns tt,
     {| page := with_validationError
                  (Literal "Please enter your Upstox access token")
                  (page (mounted (with_userName "" initial)));
        hook := hook (mounted (with_userName "" initial));
        log := log (mounted (with_userName "" initial)) |})
  /\ handleValidateToken (fun _ => "?") backend_down (mounted operator_arrives)
     = (Returns tt,
        {| page := with_validationError (Literal "Network error")
                     (page (mounted operator_arrives));
           hook := {| loading := false;
                      hook_error := Some (Literal "Failed to validate token") |};
           log := log (mounted operator_arrives)
                  ++ [Fetched (useEngine.validate_token_request
                                 (token (page (mounted operator_arrives))))] |})
  /\ exists user_name message,
       get (object [("valid", Some (JBool true));
                    ("user_name", Some (JString "Asha"))]) "user_name"
       = Returns user_name
       /\ get (object [("valid", Some (JBool true));
                       ("user_name", Some (JString "Asha"))]) "message"
          = Returns message
       /\ handleValidateToken (fun _ => "?") backend_accepts_token
            (mounted operator_arrives)
          = (Returns tt,
             {| page :=
                  if truthy (Some (JBool true))
                  then with_step config_step
                         (with_validationError (Literal "")
                            (with_userName
                               (shown_as (fun _ => "?")
                                  (useEngine.or_else user_name (JString "User")))
                               (page (mounted operator_arrives))))
                  else with_validationError
                         (useEngine.text_of
                            (useEngine.or_else message (JString "Invalid token")))
                         (page (mounted operator_arrives));
                hook := {| loading := false; hook_error := None |};
                log := log (mounted operator_arrives)
                       ++ [Fetched (useEngine.validate_token_request
                                      (token (page (mounted operator_arrives))))] |}).
Proof.
  split; [|split].
  - apply (proj1 (handleValidateToken_outcome (fun _ => "?") backend_down
                    (mounted (with_userName "" initial)))).
    reflexivity.
  - apply (proj1 (proj2 (handleValidateToken_outcome (fun _ => "?") backend_down
                           (mounted operator_arrives)))); reflexivity.
  - apply (proj2 (proj2 (handleValidateToken_outcome (fun _ => "?")
                           backend_accepts_token (mounted operator_arrives)))
             true
             (object [("valid", Some (JBool true));
                      ("user_name", Some (JString "Asha"))])
             (Some (JBool true))).
    + reflexivity.
    + reflexivity.
    + vm_compute; reflexivity.
Defined.

End SetupStepsFacts.

Section SettingsEditFacts.
Import JsNumber Json Settings.









(** X13.  [handleSave] sends nothing while no configuration is loaded, and
    otherwise the whole document in one request.  It never looks at the
    status of the response: whenever the answer is a truthy JSON value, an
    error body included, the page shows the save as successful and drops
    the 'unsaved changes' mark.  Only a request that fails, or an answer
    that is not JSON, leaves the page as it was, with 'Failed to update
    config' as the hook's error. *)
Theorem handleSave_outcome (be : Effects.Backend) (w : Effects.World Page) :
  (config (state (Effects.page w)) = None ->
   handleSave be w
   = (Returns tt,
      {| Effects.page := Effects.page w; Effects.hook := Effects.hook w;
         Effects.log := Effects.log w |}))
  /\ (forall (c : nat) (doc : json),
        config (state (Effects.page w)) = Some c ->
        document (S (next (store (Effects.page w)))) (store (Effects.page w))
          (VRef c) = Some doc ->
        handleSave be w
        = (Returns tt,
           match be (Effects.log w) (useEngine.update_config_request doc) with
           | Effects.Response _ (Some answer) =>
               {| Effects.page :=
                    if truthy (Some answer) then saved (Effects.page w)
                    else Effects.page w;
                  Effects.hook := Effects.hook w;
                  Effects.log :=
                    Effects.log w
                    ++ [Effects.Fetched (useEngine.update_config_request doc)] |}
           | _ =>
               {| Effects.page := Effects.page w;
                  Effects.hook :=
                    {| Effects.loading := Effects.loading (Effects.hook w);
                       Effects.hook_error :=
                         Some (Literal "Failed to update config") |};
                  Effects.log :=
                    Effects.log w
                    ++ [Effects.Fetched (useEngine.update_config_request doc)] |}
           end)).
Proof.
  destruct w as [pg hk lg]; cbn [Effects.page Effects.hook Effects.log].
  split.
  - intros Hc.
    cbv beta iota zeta delta
      [handleSave Effects.bind Effects.get_page Effects.page].
    now rewrite Hc.
  - intros c doc Hc Hdoc.
    cbv beta iota zeta delta
      [handleSave Effects.bind Effects.get_page Effects.page].
    rewrite Hc, Hdoc.
    cbv beta iota zeta delta
      [Effects.bind Effects.ret Effects.throw Effects.try_catch
       Effects.modify_hook Effects.modify_page Effects.fetch
       Effects.response_json useEngine.updateConfig useEngine.setError setSaved
       Effects.page Effects.hook Effects.log fst snd].
    destruct (be lg _) as [|ok [answer|]]; try reflexivity.
    destruct (truthy (Some answer)); reflexivity.
Qed.

(** A rejected update shown as saved. *)
Lemma handleSave_outcome_witness :
  handleSave backend_rejects_config
    {| Effects.page := loaded_page;
       Effects.hook := {| Effects.loading := false; Effects.hook_error := None |};
       Effects.log := [] |}
  = (Returns tt,
     {| Effects.page := saved loaded_page;
        Effects.hook := {| Effects.loading := false; Effects.hook_error := None |};
        Effects.log :=
          [Effects.Fetched (useEngine.update_config_request loaded_document)] |}).
Proof.
  apply (proj2 (handleSave_outcome backend_rejects_config
                  {| Effects.page := loaded_page;
                     Effects.hook := {| Effects.loading := false;
                                        Effects.hook_error := None |};
                     Effects.log := [] |})
           0%nat loaded_document).
  - reflexivity.
  - reflexivity.
Defined.

End SettingsEditFacts.

Section HistoryPagingFacts.
Import JsNumber History.

Lemma firstn_skipn_next {A} (a b : nat) (l : list A) :
  firstn a l ++ firstn b (skipn a l) = firstn (a + b) l.
Proof.
  revert l. induction a as [|a IH]; intros l; [reflexivity|].
  destruct l as [|x l]; [now rewrite !firstn_nil|].
  cbn [firstn skipn Nat.add app]. now rewrite IH.
Qed.

Lemma page_is_chunk (l : list Trade) (p : nat) :
  paginatedTrades l (S p) = firstn pageSize (skipn (p * pageSize) l).
Proof.
  unfold paginatedTrades.
  replace (S p * pageSize - (S p - 1) * pageSize)%nat with pageSize
    by (unfold pageSize; lia).
  now replace (S p - 1)%nat with p by lia.
Qed.

Lemma pages_prefix (l : list Trade) (n : nat) :
  concat (List.map (paginatedTrades l) (seq 1 n)) = firstn (n * pageSize) l.
Proof.
  induction n as [|n IH]; [reflexivity|].
  rewrite seq_S, List.map_app, concat_app, IH.
  cbn [Nat.add List.map concat]. rewrite app_nil_r, page_is_chunk.
  rewrite firstn_skipn_next. f_equal. lia.
Qed.

Lemma totalPages_covers (l : list Trade) :
  (List.length l <= totalPages l * pageSize
   /\ (totalPages l - 1) * pageSize < List.length l + Nat.b2n (Nat.eqb (List.length l) 0))%nat.
Proof.
  unfold totalPages, pageSize. change (10 - 1)%nat with 9%nat.
  pose proof (Nat.div_mod_eq (List.length l + 9) 10) as Hdiv.
  pose proof (Nat.mod_upper_bound (List.length l + 9) 10) as Hmod.
  destruct (Nat.eqb_spec (List.length l) 0) as [E|E]; cbn [Nat.b2n]; lia.
Qed.

Lemma page_past_the_last (l : list Trade) (p : nat) :
  (totalPages l < p)%nat -> paginatedTrades l p = [].
Proof.
  destruct (totalPages_covers l) as [Hup _].
  intros Hp. destruct p as [|p]; [lia|].
  rewrite page_is_chunk.
  rewrite skipn_all2; [apply firstn_nil|].
  assert (totalPages l * pageSize <= p * pageSize)%nat
    by (apply Nat.mul_le_mono_r; lia).
  lia.
Qed.

(** X14.  The pages cut the filtered list into consecutive runs: laid end
    to end, pages 1 to totalPages give the list back, in order and without
    loss or repetition; each of them holds between one and ten trades; every
    page after the last one is empty. *)
Theorem History_pages_partition (filtered : list Trade) :
  concat (List.map (paginatedTrades filtered) (seq 1 (totalPages filtered)))
  = filtered
  /\ (forall p, (1 <= p <= totalPages filtered)%nat ->
        (1 <= List.length (paginatedTrades filtered p) <= pageSize)%nat)
  /\ (forall p, (totalPages filtered < p)%nat -> paginatedTrades filtered p = []).
Proof.
  destruct (totalPages_covers filtered) as [Hup Hlow].
  split; [|split].
  - rewrite pages_prefix. now apply firstn_all2.
  - intros p [H1 Hp]. destruct p as [|p]; [lia|].
    rewrite page_is_chunk, length_firstn, length_skipn.
    assert (p * pageSize < List.length filtered)%nat.
    { destruct (Nat.eqb_spec (List.length filtered) 0) as [E|E];
        cbn [Nat.b2n] in Hlow.
      - unfold totalPages, pageSize in Hp. rewrite E in Hp.
        cbn in Hp. lia.
      - assert (p * pageSize <= (totalPages filtered - 1) * pageSize)%nat
          by (apply Nat.mul_le_mono_r; lia).
        lia. }
    unfold pageSize in *. lia.
  - apply page_past_the_last.
Qed.

(** Twelve trades: a full page, a page of two, and nothing after. *)
Lemma History_pages_partition_witness :
  (1 <= List.length (paginatedTrades (repeat breakeven_trade 12) 2) <= pageSize)%nat
  /\ paginatedTrades (repeat breakeven_trade 12) 3 = [].
Proof.
  split.
  - apply (proj1 (proj2 (History_pages_partition (repeat breakeven_trade 12))) 2%nat).
    vm_compute. lia.
  - apply (proj2 (proj2 (History_pages_partition (repeat breakeven_trade 12))) 3%nat).
    vm_compute. lia.
Defined.

(** X15.  The page number never drops below 1, whatever the operator does.
    Picking a filter or a date goes back to page 1, and the two pager
    buttons keep the page within 1..totalPages: where the pager is
    rendered, 'next' adds one below the last page and does nothing on it,
    'previous' takes one off above the first page and does nothing on it.
    A reload is the one event that does not look at the page number. *)
Theorem History_page_stays_in_range (st : State) (ev : Event) :
  (1 <= page st)%nat ->
  (1 <= page (handle st ev))%nat
  /\ (match ev with Loaded _ => False | _ => True end ->
      (page st <= Nat.max 1 (totalPages (shown st)))%nat ->
      (page (handle st ev) <= Nat.max 1 (totalPages (shown (handle st ev))))%nat)
  /\ (forall f d, page (handle st (PickFilter f)) = 1%nat
                  /\ page (handle st (PickDate d)) = 1%nat)
  /\ (forall result, page (handle st (Loaded result)) = page st)
  /\ (pager_rendered st = true ->
      ((page st < totalPages (shown st))%nat ->
       page (handle st NextPage) = (page st + 1)%nat)
      /\ (page st = totalPages (shown st) -> handle st NextPage = st)
      /\ ((1 < page st)%nat -> page (handle st PrevPage) = (page st - 1)%nat)
      /\ (page st = 1%nat -> handle st PrevPage = st)).
Proof.
  intros H1. split; [|split; [|split; [|split]]].
  - destruct ev; cbn [handle page]; try lia.
    + destruct (pager_rendered st && negb (Nat.eqb (page st) 1));
        cbn [page]; lia.
    + destruct (pager_rendered st
                && negb (Nat.eqb (page st) (totalPages (shown st)))) eqn:E;
        cbn [page]; [|lia].
      apply andb_true_iff in E. destruct E as [E _].
      unfold pager_rendered in E. apply andb_true_iff in E.
      destruct E as [_ E]. apply Nat.ltb_lt in E. lia.
  - intros Hev Hrange. destruct ev; try contradiction; cbn [handle page]; try lia.
    + destruct (pager_rendered st && negb (Nat.eqb (page st) 1));
        [|exact Hrange].
      unfold shown in *. cbn [page trades filter dateFilter]. lia.
    + destruct (pager_rendered st
                && negb (Nat.eqb (page st) (totalPages (shown st))));
        [|exact Hrange].
      unfold shown in *. cbn [page trades filter dateFilter]. lia.
  - intros f d. split; reflexivity.
  - reflexivity.
  - intros Hpager. cbn [handle]. rewrite Hpager. cbn [andb].
    repeat split.
    + intros Hlt.
      replace (Nat.eqb (page st) (totalPages (shown st))) with false
        by (symmetry; apply Nat.eqb_neq; lia).
      cbn [negb page]. lia.
    + intros Heq. rewrite Heq at 1. now rewrite Nat.eqb_refl.
    + intros Hgt.
      replace (Nat.eqb (page st) 1) with false
        by (symmetry; apply Nat.eqb_neq; lia).
      cbn [negb page]. lia.
    + intros Heq. rewrite Heq. reflexivity.
Qed.

(** Twelve trades on two pages: 'next' goes from page 1 to page 2 and stays
    within the pages, and 'previous' does nothing on page 1. *)
Lemma History_page_stays_in_range_witness :
  pager_rendered two_pages = true
  /\ totalPages (shown two_pages) = 2%nat
  /\ (1 <= page (handle two_pages NextPage))%nat
  /\ (page (handle two_pages NextPage)
      <= Nat.max 1 (totalPages (shown (handle two_pages NextPage))))%nat
  /\ page (handle two_pages NextPage) = (page two_pages + 1)%nat
  /\ handle two_pages PrevPage = two_pages.
Proof.
  assert (H1 : (1 <= page two_pages)%nat) by (vm_compute; lia).
  destruct (History_page_stays_in_range two_pages NextPage H1)
    as (Hlow & Hhigh & _ & _ & Hpager).
  destruct (Hpager eq_refl) as (Hnext & _ & _ & Hprev).
  split; [reflexivity|]. split; [reflexivity|].
  split; [exact Hlow|].
  split; [apply Hhigh; [exact I | vm_compute; lia]|].
  split; [apply Hnext; vm_compute; lia | apply Hprev; reflexivity].
Defined.

(** X16.  When a reload leaves fewer pages than the page the operator is
    on, the table is empty, and because the pager is only rendered below a
    table with rows, neither pager button can bring the page back: it stays
    where it is until a filter or a date is picked. *)
Theorem History_page_past_the_end (st : State) :
  (totalPages (shown st) < page st)%nat ->
  rows st = []
  /\ pager_rendered st = false
  /\ handle st PrevPage = st
  /\ handle st NextPage = st
  /\ forall result, page (handle st (Loaded result)) = page st.
Proof.
  intros Hpast.
  assert (Hrows : rows st = []).
  { unfold rows. now apply page_past_the_last. }
  assert (Hpager : pager_rendered st = false).
  { unfold pager_rendered. now rewrite Hrows. }
  repeat split; try assumption; cbn [handle]; now rewrite Hpager.
Qed.

(** A page number left over from a longer list. *)
Lemma History_page_past_the_end_witness :
  rows {| trades := [breakeven_trade]; filter := all; dateFilter := "";
          page := 2 |} = []
  /\ pager_rendered {| trades := [breakeven_trade]; filter := all;
                       dateFilter := ""; page := 2 |} = false
  /\ handle {| trades := [breakeven_trade]; filter := all; dateFilter := "";
               page := 2 |} PrevPage
     = {| trades := [breakeven_trade]; filter := all; dateFilter := "";
          page := 2 |}
  /\ handle {| trades := [breakeven_trade]; filter := all; dateFilter := "";
               page := 2 |} NextPage
     = {| trades := [breakeven_trade]; filter := all; dateFilter := "";
          page := 2 |}
  /\ forall result,
       page (handle {| trades := [breakeven_trade]; filter := all;
                       dateFilter := ""; page := 2 |} (Loaded result))
       = page {| trades := [breakeven_trade]; filter := all; dateFilter := "";
                 page := 2 |}.
Proof.
  apply (History_page_past_the_end
           {| trades := [breakeven_trade]; filter := all; dateFilter := "";
              page := 2 |}).
  vm_compute. lia.
Defined.

End HistoryPagingFacts.

Section HistoryStatsFacts.
Import JsNumber History.

Lemma filter_both {A} (f g : A -> bool) (l : list A) :
  List.filter (fun x => f x && g x) l = List.filter f (List.filter g l).
Proof.
  induction l as [|x l IH]; [reflexivity|]. cbn [List.filter].
  destruct (g x); cbn [List.filter]; rewrite ?andb_true_r, ?andb_false_r;
    [destruct (f x)|]; now rewrite IH.
Qed.

Lemma won_not_lost (t : Trade) : Qle_bool (pnl_rupees t) 0 = negb (won t).
Proof. exact (lost_not_won t). Qed.

Lemma keeps_wins (d : string) (t : Trade) :
  keeps wins d t = won t && keeps all d t.
Proof.
  unfold keeps. cbn [is_wins is_losses andb]. rewrite won_not_lost.
  now destruct (won t).
Qed.

Lemma keeps_losses (d : string) (t : Trade) :
  keeps losses d t = lost t && keeps all d t.
Proof.
  unfold keeps. cbn [is_wins is_losses andb]. rewrite lost_not_won.
  fold (won t). now destruct (won t).
Qed.

Lemma filter_none {A} (f g : A -> bool) (l : list A) :
  (forall x, f x = true -> g x = false) ->
  List.filter g (List.filter f l) = [].
Proof.
  intros H. induction l as [|x l IH]; [reflexivity|]. cbn [List.filter].
  destruct (f x) eqn:E; [|exact IH]. cbn [List.filter].
  now rewrite (H x E).
Qed.

Lemma no_filter_shows_all (l : list Trade) : filteredTrades l all "" = l.
Proof.
  unfold filteredTrades. induction l as [|t l IH]; [reflexivity|].
  cbn [List.filter].
  replace (keeps all "" t) with true by reflexivity. now rewrite IH.
Qed.

(** X17.  With no filter and no date the table shows every loaded trade.
    The 'wins' and 'losses' views show exactly the trades that the
    statistics of the 'all' view (same date) count as wins and as losses, in
    the same order; inside the 'wins' view no trade counts as a loss, and
    inside the 'losses' view none counts as a win. *)
Theorem History_views_match_counts (loaded : list Trade) (d : string) :
  filteredTrades loaded all "" = loaded
  /\ filteredTrades loaded wins d
     = List.filter won (filteredTrades loaded all d)
  /\ filteredTrades loaded losses d
     = List.filter lost (filteredTrades loaded all d)
  /\ winsCount (stats (filteredTrades loaded all d))
     = List.length (filteredTrades loaded wins d)
  /\ lossesCount (stats (filteredTrades loaded all d))
     = List.length (filteredTrades loaded losses d)
  /\ lossesCount (stats (filteredTrades loaded wins d)) = 0%nat
  /\ winsCount (stats (filteredTrades loaded losses d)) = 0%nat.
Proof.
  assert (Hwins : filteredTrades loaded wins d
                  = List.filter won (filteredTrades loaded all d)).
  { unfold filteredTrades. rewrite <- filter_both.
    apply List.filter_ext. intros t. apply keeps_wins. }
  assert (Hlosses : filteredTrades loaded losses d
                    = List.filter lost (filteredTrades loaded all d)).
  { unfold filteredTrades. rewrite <- filter_both.
    apply List.filter_ext. intros t. apply keeps_losses. }
  split; [apply no_filter_shows_all|].
  split; [exact Hwins|]. split; [exact Hlosses|].
  cbn [stats winsCount lossesCount].
  split; [now rewrite Hwins|]. split; [now rewrite Hlosses|].
  split.
  - rewrite Hwins, filter_none; [reflexivity|].
    intros t Hw. rewrite lost_not_won, Hw. reflexivity.
  - rewrite Hlosses, filter_none; [reflexivity|].
    intros t Hl. rewrite lost_not_won in Hl. now destruct (won t).
Qed.

Section BadgeOfExitReason.
Import constants.

(** X19.  The badge of the history table colours a trade by its exit
    reason, but among the reasons the engine records (the keys of
    EXIT_REASONS) only three are told apart: 'profit_target',
    'trailing_stop' and 'mtm_max_loss'.  The name 'stop_loss' it also tests
    for is not one of the keys, so a trade closed by its initial stop is
    shown like any other. *)
Theorem exit_reason_badge_against_EXIT_REASONS :
  (forall r : ExitReason,
      exit_reason_variant (ExitReason_key r)
      = match r with
        | profit_target => Jsx.call
        | trailing_stop => Jsx.warning
        | mtm_max_loss => Jsx.put
        | _ => Jsx.default
        end)
  /\ (forall r : ExitReason, ExitReason_key r <> "stop_loss")
  /\ exit_reason_variant "stop_loss" = Jsx.put
  /\ exit_reason_variant (ExitReason_key initial_stop) = Jsx.default
  /\ (forall r1 r2 : ExitReason, ExitReason_key r1 = ExitReason_key r2 -> r1 = r2).
Proof.
  split; [intros []; reflexivity|].
  split; [intros []; discriminate|].
  split; [reflexivity|]. split; [reflexivity|].
  intros [] []; (reflexivity || discriminate).
Qed.

End BadgeOfExitReason.

End HistoryStatsFacts.

Section FormattersFacts.
Import JsNumber formatters.


Lemma inject_Z_sub (x y : Z) : inject_Z (x - y) = (inject_Z x - inject_Z y)%Q.
Proof.
  unfold Z.sub, Qminus. now rewrite inject_Z_plus, inject_Z_opp.
Qed.

Lemma remainder_range_neg (a : Q) (k : Z) :
  (a < 0)%Q -> (0 < k)%Z ->
  (- inject_Z k < remainder a (inject_Z k) <= 0)%Q.
Proof.
  intros Ha Hk. unfold remainder, truncate.
  assert (HkQ : (0 < inject_Z k)%Q).
  { change 0%Q with (inject_Z 0). now rewrite <- Zlt_Qlt. }
  assert (Hq : (a / inject_Z k < 0)%Q).
  { apply Qlt_shift_div_r; [exact HkQ|]. lra. }
  apply Qlt_bool_iff in Hq. rewrite Hq.
  pose proof (Qle_ceiling (a / inject_Z k)) as H1.
  pose proof (Qceiling_lt (a / inject_Z k)) as H2.
  rewrite inject_Z_sub in H2.
  assert (Ha' : (a == inject_Z k * (a / inject_Z k))%Q).
  { field. lra. }
  set (x := (a / inject_Z k)%Q) in *.
  set (c := inject_Z (Qceiling x)) in *.
  change (inject_Z 1) with 1%Q in H2.
  split.
  - assert (Hd : (inject_Z k * (c - x) < inject_Z k * 1)%Q).
    { apply Qmult_lt_l; [exact HkQ|]. lra. }
    lra.
  - assert (Hd : (0 <= inject_Z k * (c - x))%Q).
    { apply Qmult_le_0_compat; lra. }
    lra.
Qed.

Lemma Qfloor_ge_Z (q : Q) (m : Z) :
  (m <= Qfloor q)%Z <-> (inject_Z m <= q)%Q.
Proof.
  split; intros H.
  - pose proof (Qfloor_le q). rewrite Zle_Qle in H. lra.
  - apply Qfloor_resp_le in H. now rewrite Qfloor_Z in H.
Qed.

(** X21.  A negative duration loses its hours and minutes: neither is
    greater than zero, so only the seconds are printed, a number between
    -60 and 0. *)
Theorem formatDuration_of_negative (seconds : Q) :
  (seconds < 0)%Q ->
  formatDuration seconds = [Num (inject_Z (secs seconds)); Str "s"]
  /\ (-60 <= secs seconds <= 0)%Z
  /\ (hours seconds < 0)%Z
  /\ (minutes seconds <= 0)%Z.
Proof.
  intros H.
  assert (Hh : (hours seconds < 0)%Z).
  { unfold hours. pose proof (Qfloor_le (seconds / 3600)) as Hf.
    assert (Hq : (seconds / 3600 < 0)%Q)
      by (apply Qlt_shift_div_r; [reflexivity|lra]).
    assert (Hz : (inject_Z (Qfloor (seconds / 3600)) < inject_Z 0)%Q)
      by (change (inject_Z 0) with 0%Q; lra).
    now rewrite <- Zlt_Qlt in Hz. }
  assert (Hm : (minutes seconds <= 0)%Z).
  { unfold minutes.
    pose proof (remainder_range_neg seconds 3600 H eq_refl) as [_ Hr].
    change (inject_Z 3600) with 3600%Q in Hr.
    pose proof (Qfloor_le (remainder seconds 3600 / 60)) as Hf.
    assert (Hq : (remainder seconds 3600 / 60 <= 0)%Q)
      by (apply Qle_shift_div_r; [reflexivity|lra]).
    assert (Hz : (inject_Z (Qfloor (remainder seconds 3600 / 60))
                  <= inject_Z 0)%Q)
      by (change (inject_Z 0) with 0%Q; lra).
    now rewrite <- Zle_Qle in Hz. }
  assert (Hs : (-60 <= secs seconds <= 0)%Z).
  { unfold secs.
    pose proof (remainder_range_neg seconds 60 H eq_refl) as [Hlo Hhi].
    change (inject_Z 60) with 60%Q in Hlo, Hhi.
    pose proof (Qfloor_le (remainder seconds 60)) as Hf.
    split.
    - apply Qfloor_ge_Z. change (inject_Z (-60)) with (-60)%Q. lra.
    - assert (Hz : (inject_Z (Qfloor (remainder seconds 60))
                    <= inject_Z 0)%Q)
        by (change (inject_Z 0) with 0%Q; lra).
      now rewrite <- Zle_Qle in Hz. }
  unfold formatDuration.
  replace (0 <? hours seconds)%Z with false
    by (symmetry; apply Z.ltb_ge; lia).
  replace (0 <? minutes seconds)%Z with false
    by (symmetry; apply Z.ltb_ge; lia).
  repeat split; try assumption; lia.
Qed.

(** A clock that was set back by a little over an hour. *)
Lemma formatDuration_of_negative_witness :
  formatDuration (-3700) = [Num (inject_Z (secs (-3700))); Str "s"]
  /\ (-60 <= secs (-3700) <= 0)%Z
  /\ (hours (-3700) < 0)%Z
  /\ (minutes (-3700) <= 0)%Z.
Proof.
  apply (formatDuration_of_negative (-3700)). reflexivity.
Defined.

End FormattersFacts.

Section ProgressBarEdgeFacts.
Import SpecFloat Binary64 ProgressBar.

Lemma clamp_of_infinity (s : bool) :
  Math_min (Math_max (mul (S754_infinity s) hundred) zero) hundred
  = if s then zero else hundred.
Proof. now destruct s. Qed.

(** X23.  When [max] equals [min] the range is a zero and the division is
    by zero.  A value equal to them gives [NaN], and the bar's width is
    then not a length.  A value above them gives a full bar and a value
    below them an empty one, except that it is the other way round when the
    range is -0, which it is for a [max] of -0 over a [min] of +0. *)
Theorem ProgressBar_zero_range
    (v : number) (omax omin : option number)
    (c : option Color) (s : option Size) :
  is_double v = true ->
  is_double (with_default omax hundred) = true ->
  is_double (with_default omin zero) = true ->
  eqb (with_default omax hundred) (with_default omin zero) = true ->
  range {| value := v; max := omax; min := omin; color := c; size := s |}
  = S754_zero match with_default omax hundred, with_default omin zero with
              | S754_zero true, S754_zero false => true
              | _, _ => false
              end
  /\ percentage {| value := v; max := omax; min := omin;
                   color := c; size := s |}
     = match SFcompare v (with_default omin zero) with
       | Some Gt =>
           match with_default omax hundred, with_default omin zero with
           | S754_zero true, S754_zero false => zero
           | _, _ => hundred
           end
       | Some Lt =>
           match with_default omax hundred, with_default omin zero with
           | S754_zero true, S754_zero false => hundred
           | _, _ => zero
           end
       | _ => NaN
       end.
Proof.
  intros Hv Hmax Hmin Heq.
  set (hi := with_default omax hundred) in *.
  set (lo := with_default omin zero) in *.
  assert (Hcmp : SFcompare hi lo = Some Eq).
  { unfold eqb, SFeqb in Heq.
    destruct (SFcompare hi lo) as [[]|]; (reflexivity || discriminate). }
  pose proof (sub_of_equal hi lo Hmax Hmin Hcmp) as Hrange.
  split; [exact Hrange|].
  unfold percentage, ratio, range; cbn [value max min]. fold hi lo.
  rewrite Hrange.
  set (sr := match hi, lo with
             | S754_zero true, S754_zero false => true
             | _, _ => false
             end).
  replace (match hi, lo with
           | S754_zero true, S754_zero false => zero | _, _ => hundred end)
    with (if sr then zero else hundred)
    by (subst sr; destruct hi as [[]| | |]; try reflexivity;
        destruct lo as [[]| | |]; reflexivity).
  replace (match hi, lo with
           | S754_zero true, S754_zero false => hundred | _, _ => zero end)
    with (if sr then hundred else zero)
    by (subst sr; destruct hi as [[]| | |]; try reflexivity;
        destruct lo as [[]| | |]; reflexivity).
  pose proof (sub_sign v lo Hv Hmin) as Hsign.
  pose proof (sub_not_nan v lo Hv Hmin) as Hnan.
  destruct (SFcompare v lo) as [[]|]; try contradiction.
  - destruct (sub v lo); try discriminate. reflexivity.
  - destruct (sub v lo) as [sd|sd| |sd md ed]; try discriminate;
      injection Hsign as ->; unfold div, SFdiv;
      rewrite clamp_of_infinity; now destruct sr.
  - destruct (sub v lo) as [sd|sd| |sd md ed]; try discriminate;
      injection Hsign as ->; unfold div, SFdiv;
      rewrite clamp_of_infinity; now destruct sr.
Qed.

(** A bar whose two ends are both 50, with the value on them; and the value
    1 on a bar from +0 to -0. *)
Lemma ProgressBar_zero_range_witness :
  percentage {| value := of_Z 50; max := Some (of_Z 50);
                min := Some (of_Z 50); color := None; size := None |}
  = NaN
  /\ percentage {| value := of_Z 1; max := Some (S754_zero true);
                   min := Some (S754_zero false);
                   color := None; size := None |}
     = zero.
Proof.
  split.
  - apply (proj2 (ProgressBar_zero_range (of_Z 50) (Some (of_Z 50))
                    (Some (of_Z 50)) None None
                    eq_refl eq_refl eq_refl eq_refl)).
  - apply (proj2 (ProgressBar_zero_range (of_Z 1) (Some (S754_zero true))
                    (Some (S754_zero false)) None None
                    eq_refl eq_refl eq_refl eq_refl)).
Defined.

(** X24.  The stop-loss bar of the trade page runs from the current stop to
    the highest price.  While the stop is below that high and their
    difference does not overflow, the bar is coloured 'loss' exactly when
    the price is not above the stop, and it is then empty: the 'loss'
    colour is never seen on it. *)
Theorem stop_bar_loss_colour_is_never_seen (trade : TradeTracker.ActiveTrade) :
  is_double (TradeTracker.current_ltp trade) = true ->
  is_double (TradeTracker.highest_price trade) = true ->
  is_double (TradeTracker.current_stop trade) = true ->
  ltb (TradeTracker.current_stop trade) (TradeTracker.highest_price trade)
  = true ->
  is_infinite (sub (TradeTracker.highest_price trade)
                   (TradeTracker.current_stop trade)) = false ->
  (fill_color (TradeTracker.stop_bar trade) = loss
   <-> leb (TradeTracker.current_ltp trade) (TradeTracker.current_stop trade)
       = true)
  /\ (fill_color (TradeTracker.stop_bar trade) = loss ->
      width (TradeTracker.stop_bar trade) = Percent zero).
Proof.
  destruct trade as [ltp high stop mfe mae].
  cbn [TradeTracker.current_ltp TradeTracker.highest_price
       TradeTracker.current_stop].
  intros Hltp Hhigh Hstop Hbelow Hfinite.
  unfold TradeTracker.stop_bar, ProgressBar.
  cbn [TradeTracker.current_ltp TradeTracker.highest_price
       TradeTracker.current_stop fill_color width color with_default].
  assert (Hcolour : (if ltb stop ltp then profit else loss) = loss
                    <-> leb ltp stop = true).
  { rewrite (ltb_antisym ltp stop). unfold leb, SFleb.
    pose proof (compare_of_doubles ltp stop Hltp Hstop) as Hc.
    destruct (SFcompare ltp stop) as [[]|]; try contradiction;
      split; (reflexivity || discriminate). }
  split; [exact Hcolour|].
  intros Hloss. apply Hcolour in Hloss. f_equal.
  unfold percentage, ratio, range; cbn [value max min with_default].
  (* the range is a positive number *)
  pose proof (sub_sign high stop Hhigh Hstop) as Hrange.
  rewrite (ltb_antisym high stop) in Hbelow.
  destruct (SFcompare high stop) as [[]|]; try discriminate.
  destruct (sub high stop) as [sr|sr| |sr mr er]; try discriminate.
  injection Hrange as ->.
  (* the price less the stop is zero or below *)
  pose proof (sub_sign ltp stop Hltp Hstop) as Hd.
  unfold leb, SFleb in Hloss.
  destruct (SFcompare ltp stop) as [[]|]; try discriminate.
  - destruct (sub ltp stop) as [sd|sd| |sd md ed]; try discriminate.
    now destruct sd.
  - pose proof (div_signed true (sub ltp stop) false mr er Hd) as Hq.
    apply mul_hundred_signed in Hq. cbn [xorb] in Hq.
    rewrite Math_max_zero.
    destruct (mul (div (sub ltp stop) (S754_finite false mr er)) hundred)
      as [sq|sq| |sq mq eq0]; cbn [signed] in Hq; try contradiction;
      subst; reflexivity.
Qed.

(** The trade with the price fallen through the stop: the bar is coloured
    'loss' and has no width. *)
Lemma stop_bar_loss_colour_is_never_seen_witness :
  (fill_color (TradeTracker.stop_bar TradeTracker.stopped_trade) = loss
   <-> leb (TradeTracker.current_ltp TradeTracker.stopped_trade)
           (TradeTracker.current_stop TradeTracker.stopped_trade) = true)
  /\ (fill_color (TradeTracker.stop_bar TradeTracker.stopped_trade) = loss ->
      width (TradeTracker.stop_bar TradeTracker.stopped_trade) = Percent zero).
Proof.
  apply (stop_bar_loss_colour_is_never_seen TradeTracker.stopped_trade);
    vm_compute; reflexivity.
Defined.

End ProgressBarEdgeFacts.

Section ClampFacts.
Import JsNumber.

(** X25.  Between bounds in the right order [clamp] returns a number within
    them, the value itself when that already lies within, and clamping the
    result again changes nothing.  [NaN] passes through. *)
Theorem clamp_within_bounds (v lo hi : Q) :
  (lo <= hi)%Q ->
  exists r : Q,
    formatters.clamp (Finite v) (Finite lo) (Finite hi) = Finite r
    /\ (lo <= r <= hi)%Q
    /\ ((lo <= v <= hi)%Q -> (r == v)%Q)
    /\ (exists r' : Q,
           formatters.clamp (Finite r) (Finite lo) (Finite hi) = Finite r'
           /\ (r' == r)%Q)
    /\ formatters.clamp NaN (Finite lo) (Finite hi) = NaN.
Proof.
  intros Hb.
  assert (Hfix : forall r, (lo <= r <= hi)%Q ->
            exists r', formatters.clamp (Finite r) (Finite lo) (Finite hi)
                       = Finite r' /\ (r' == r)%Q).
  { intros r [Hlo Hhi].
    unfold formatters.clamp, Math_max, Math_min, lessEq.
    destruct (Qle_bool r lo) eqn:E1.
    - apply Qle_bool_iff in E1.
      replace (Qle_bool lo hi) with true by (symmetry; now apply Qle_bool_iff).
      exists lo. split; [reflexivity|lra].
    - replace (Qle_bool r hi) with true by (symmetry; now apply Qle_bool_iff).
      exists r. split; reflexivity. }
  unfold formatters.clamp at 1. unfold Math_max, Math_min, lessEq.
  destruct (Qle_bool v lo) eqn:E1.
  - apply Qle_bool_iff in E1.
    replace (Qle_bool lo hi) with true by (symmetry; now apply Qle_bool_iff).
    exists lo. split; [reflexivity|]. split; [lra|].
    split; [intros [? ?]; lra|]. split; [apply Hfix; lra | reflexivity].
  - apply Qle_bool_false in E1.
    destruct (Qle_bool v hi) eqn:E2.
    + apply Qle_bool_iff in E2.
      exists v. split; [reflexivity|]. split; [lra|].
      split; [reflexivity|]. split; [apply Hfix; lra | reflexivity].
    + apply Qle_bool_false in E2.
      exists hi. split; [reflexivity|]. split; [lra|].
      split; [intros [? ?]; lra|]. split; [apply Hfix; lra | reflexivity].
Qed.

Lemma clamp_within_bounds_witness :
  exists r : Q,
    formatters.clamp (Finite 130) (Finite 0) (Finite 100) = Finite r
    /\ (0 <= r <= 100)%Q
    /\ ((0 <= 130 <= 100)%Q -> (r == 130)%Q)
    /\ (exists r' : Q,
           formatters.clamp (Finite r) (Finite 0) (Finite 100) = Finite r'
           /\ (r' == r)%Q)
    /\ formatters.clamp NaN (Finite 0) (Finite 100) = NaN.
Proof.
  apply (clamp_within_bounds 130 0 100). vm_compute. discriminate.
Defined.

End ClampFacts.

Section WebSocketFlagFacts.
Import Json useWebSocket.

Lemma onmessage_flags (parsed : option json) (st : WebSocketState) :
  connected (onmessage parsed st) = connected st
  /\ error (onmessage parsed st) = error st.
Proof.
  destruct parsed as [d|]; [|split; reflexivity].
  unfold onmessage. destruct (get d "type") as [ty|m]; [|split; reflexivity].
  destruct (differs_from ty "ping" && differs_from ty "pong");
    split; reflexivity.
Qed.

Lemma run_connected (evs : list SocketEvent) :
  forall st,
    connected (run evs st)
    = List.last (omap writes_connected evs) (connected st).
Proof.
  unfold run.
  induction evs as [|ev evs IH]; intros st; [reflexivity|].
  cbn [fold_left]. rewrite IH.
  destruct ev as [ | parsed | | | ]; cbn [omap list_omap writes_connected handle];
    try (rewrite last_cons_default; reflexivity); try reflexivity.
  now destruct (onmessage_flags parsed st) as [-> _].
Qed.

Lemma run_error (evs : list SocketEvent) :
  forall st,
    error (run evs st) = List.last (omap writes_error evs) (error st).
Proof.
  unfold run.
  induction evs as [|ev evs IH]; intros st; [reflexivity|].
  cbn [fold_left]. rewrite IH.
  destruct ev as [ | parsed | | | ]; cbn [omap list_omap writes_error handle];
    try (rewrite last_cons_default; reflexivity); try reflexivity.
  now destruct (onmessage_flags parsed st) as [_ ->].
Qed.

(** X26.  Whatever the socket delivers, [connected] is what the last open
    or close wrote and [error] what the last open, error or failed connect
    wrote; messages touch neither.  A close followed by the reopening keeps
    the last snapshot on the page, and the reopening clears the error. *)
Theorem useWebSocket_flags_follow_the_socket
    (evs : list SocketEvent) (st : WebSocketState) :
  connected (run evs st)
  = List.last (omap writes_connected evs) (connected st)
  /\ error (run evs st) = List.last (omap writes_error evs) (error st)
  /\ data (run (evs ++ [Close; Open]) st) = data (run evs st)
  /\ connected (run (evs ++ [Close; Open]) st) = true
  /\ error (run (evs ++ [Close; Open]) st) = None
  /\ data (run (evs ++ [Close]) st) = data (run evs st).
Proof.
  split; [apply run_connected|]. split; [apply run_error|].
  unfold run. rewrite !fold_left_app. repeat split; reflexivity.
Qed.

End WebSocketFlagFacts.

Section RedirectFacts.
Import Json.

Lemma redirects_exclusive (data : json) :
  TradeTracker.redirect data
  = Returns (match Dashboard.redirect data with
             | Some _ => None
             | None => if truthy (Some data) then Some "/dashboard" else None
             end).
Proof.
  unfold TradeTracker.redirect, Dashboard.redirect,
    Dashboard.optional_active_trade.
  destruct data as [ | b | q | t | items | fields]; cbn [get truthy];
    try reflexivity.
  - now destruct b.
  - now destruct (negb (Qeq_bool q 0)).
  - now destruct (negb (String.eqb t "")).
  - now destruct (truthy (fields !! "active_trade")).
Qed.

(** X27.  Both pages mount without a snapshot and stay.  On a later
    snapshot the effect of either page runs only if [data?.active_trade] is
    not what it was on the render before, and it never throws.  The
    dashboard then leaves for the trade page exactly when the snapshot's
    active trade is truthy; the trade page leaves for the dashboard exactly
    when the snapshot is truthy and its active trade is not.  So the two
    never leave on the same snapshot.  Right after mounting, the dashboard
    leaves on the first snapshot with a truthy active trade, but the trade
    page leaves only if the snapshot carries the field (as [null], say): a
    snapshot without the field leaves the dependency [undefined] as it was,
    the effect does not run, and the page stays. *)
Theorem redirects_follow_active_trade (before data : json) :
  Dashboard.effect None JNull = None
  /\ TradeTracker.effect None JNull = Returns None
  /\ Dashboard.effect (Some before) data
     = (if negb (Object_is (Dashboard.optional_active_trade before)
                           (Dashboard.optional_active_trade data))
           && truthy (Dashboard.optional_active_trade data)
        then Some "/trade" else None)
  /\ TradeTracker.effect (Some before) data
     = Returns
         (if negb (Object_is (Dashboard.optional_active_trade before)
                             (Dashboard.optional_active_trade data))
             && truthy (Some data)
             && negb (truthy (Dashboard.optional_active_trade data))
          then Some "/dashboard" else None)
  /\ (Dashboard.effect (Some before) data = Some "/trade" ->
      TradeTracker.effect (Some before) data = Returns None)
  /\ (TradeTracker.effect (Some before) data = Returns (Some "/dashboard") ->
      Dashboard.effect (Some before) data = None)
  /\ (Dashboard.effect (Some JNull) data = Some "/trade"
      <-> truthy (Dashboard.optional_active_trade data) = true)
  /\ (TradeTracker.effect (Some JNull) data = Returns (Some "/dashboard")
      <-> exists v, Dashboard.optional_active_trade data = Some v
                    /\ truthy (Some v) = false)
  /\ (Dashboard.optional_active_trade data = None ->
      TradeTracker.effect (Some JNull) data = Returns None).
Proof.
  assert (Hdash : Dashboard.effect (Some before) data
     = (if negb (Object_is (Dashboard.optional_active_trade before)
                           (Dashboard.optional_active_trade data))
           && truthy (Dashboard.optional_active_trade data)
        then Some "/trade" else None)).
  { unfold Dashboard.effect, Dashboard.redirect.
    destruct (Object_is _ _); reflexivity. }
  assert (Htrade : TradeTracker.effect (Some before) data
     = Returns
         (if negb (Object_is (Dashboard.optional_active_trade before)
                             (Dashboard.optional_active_trade data))
             && truthy (Some data)
             && negb (truthy (Dashboard.optional_active_trade data))
          then Some "/dashboard" else None)).
  { unfold TradeTracker.effect. rewrite redirects_exclusive.
    unfold Dashboard.redirect.
    destruct (Object_is _ _); cbn [negb andb]; [reflexivity|].
    destruct (truthy (Dashboard.optional_active_trade data)) eqn:E;
      cbn [negb]; [now rewrite andb_false_r|].
    now rewrite andb_true_r. }
  assert (Hfirst : forall d, TradeTracker.effect (Some JNull) d
     = Returns (match Dashboard.optional_active_trade d with
                | Some v => if truthy (Some v) then None else Some "/dashboard"
                | None => None
                end)).
  { intros d. unfold TradeTracker.effect. rewrite redirects_exclusive.
    unfold Dashboard.redirect.
    destruct d as [ | b | q | t | items | fields]; try reflexivity.
    change (truthy (Some (JObject fields))) with true.
    cbn [Dashboard.optional_active_trade get].
    destruct (fields !! "active_trade") as [v|]; [|reflexivity].
    cbn [Object_is]. now destruct (truthy (Some v)). }
  split; [reflexivity|]. split; [reflexivity|].
  split; [exact Hdash|]. split; [exact Htrade|].
  split.
  { rewrite Hdash, Htrade. destruct (negb (Object_is _ _)); cbn [andb];
      [|discriminate].
    destruct (truthy (Dashboard.optional_active_trade data)); [|discriminate].
    now rewrite andb_false_r. }
  split.
  { rewrite Hdash, Htrade. destruct (negb (Object_is _ _)); cbn [andb];
      [|discriminate].
    destruct (truthy (Dashboard.optional_active_trade data)); [|reflexivity].
    now rewrite andb_false_r. }
  split.
  { unfold Dashboard.effect, Dashboard.redirect.
    cbn [Dashboard.optional_active_trade].
    destruct (Dashboard.optional_active_trade data) as [v|] eqn:E;
      cbn [Object_is]; [|split; discriminate].
    destruct (truthy (Some v)); split; (reflexivity || discriminate). }
  split.
  { rewrite Hfirst.
    destruct (Dashboard.optional_active_trade data) as [v|].
    - destruct (truthy (Some v)) eqn:E; split.
      + discriminate.
      + intros (v' & [= <-] & Hv). congruence.
      + intros _. now exists v.
      + reflexivity.
    - split; [discriminate|]. intros (v' & Hv & _). discriminate. }
  intros Hnone. rewrite Hfirst, Hnone. reflexivity.
Qed.

End RedirectFacts.

Section DashboardReadingFacts.
Import JsNumber constants Jsx Dashboard.


Lemma or_default_nonzero (t : option Q) (dflt : Q) :
  ~ (dflt == 0)%Q -> ~ (or_default t dflt == 0)%Q.
Proof.
  intros Hd. unfold or_default. destruct t as [q|]; [|exact Hd].
  destruct (Qeq_bool q 0) eqn:E; [exact Hd|].
  now apply Qeq_bool_neq.
Qed.

(** X29.  No row of either signal card is ever compared with zero: a
    threshold the engine sends as 0 is read as missing and replaced by the
    page's own default, so does a threshold that is not sent; any other
    value is used as sent. *)
Theorem Dashboard_zero_threshold_is_replaced (d : Snapshot) :
  (forall r : ConditionRowProps,
      In r (CALL_conditions d ++ PUT_conditions d) ->
      exists t : Q, threshold r = Some t /\ ~ (t == 0)%Q)
  /\ (forall (field : Thresholds -> option Q) (dflt : Q),
         or_default (threshold_of d field) dflt
         = match threshold_of d field with
           | Some q => if Qeq_bool q 0 then dflt else q
           | None => dflt
           end)
  /\ (forall (th : Thresholds) (q : Q),
         thresholds d = Some th ->
         th_min_quality_score th = Some q -> (q == 0)%Q ->
         exists rc rp : ConditionRowProps,
           row "Quality" (CALL_conditions d) = Some rc
           /\ row "Quality" (PUT_conditions d) = Some rp
           /\ threshold rc = Some 75%Q /\ threshold rp = Some 75%Q
           /\ (passed rc = true <-> (75 <= quality_score_call d)%Q)
           /\ (passed rp = true <-> (75 <= quality_score_put d)%Q)).
Proof.
  split.
  { intros r Hin. unfold CALL_conditions, PUT_conditions in Hin.
    cbn [app In] in Hin.
    repeat (destruct Hin as [<- | Hin];
            [cbn [threshold ConditionRow]; eexists; split; [reflexivity|];
             first [ apply or_default_nonzero; discriminate | discriminate ]
            |]).
    destruct Hin. }
  split; [reflexivity|].
  intros th q Hth Hq Hzero.
  assert (Hdef : or_default (threshold_of d th_min_quality_score) 75 = 75%Q).
  { unfold threshold_of, or_default. rewrite Hth, Hq.
    apply Qeq_bool_iff in Hzero. now rewrite Hzero. }
  eexists. eexists.
  split; [reflexivity|]. split; [reflexivity|].
  cbn [threshold passed ConditionRow]. rewrite Hdef.
  repeat split; try apply Qle_bool_iff.
Qed.

End DashboardReadingFacts.

Section TradeCardFacts.
Import formatters Jsx TradeTracker.
Variable toFixed : Q -> nat -> string.

Lemma append_empty (t : string) : String.append t "" = t.
Proof.
  induction t as [|c t IH]; [reflexivity|].
  change (String.append (String c t) "") with (String c (String.append t "")).
  now rewrite IH.
Qed.

(** X30.  The MFE card writes a plus sign in front of [formatPercent], which
    puts one itself in front of every number that is not negative: such an
    excursion is shown with two plus signs, a negative one with a plus
    followed by the digits.  The MAE card shows one sign at most. *)
Theorem MFE_is_shown_with_two_signs (trade : ActiveTrade) :
  text (MFE toFixed trade)
  = Some (String.append
            (if Qle_bool 0 (mfe_percent trade) then "++" else "+")
            (String.append (toFixed (mfe_percent trade) 1) "%"))
  /\ text (MAE toFixed trade)
     = Some (String.append
               (if Qle_bool 0 (mae_percent trade) then "+" else "")
               (String.append (toFixed (mae_percent trade) 1) "%")).
Proof.
  unfold MFE, MAE, formatPercent.
  cbn [text fmap option_fmap option_map from_option id].
  rewrite !append_empty.
  split.
  - now destruct (Qle_bool 0 (mfe_percent trade)).
  - reflexivity.
Qed.

End TradeCardFacts.
